(** * zudyog-ui: floating overlays, their placement and their lifecycle

    A shallow embedding of the overlay code of the component library:
    - [Popper]   (src/components/Popper/index.tsx): [updatePosition], the
      [preventOverflow] modifier and the rendered [popperContent];
    - [Popover]  (src/components/Drawer/index.tsx, Popover part):
      [handleToggle], [handleClose], [updatePosition] and the listener effect;
    - [ClickAwayListener] (ClickAwayListener part): the listener effect;
    - [Modal]    (Modal part): the focus-management effect;
    - [Slider]   (Slider part): [handleTrackClick] and the thumb drag.

    Conventions of the embedding.
    - A JavaScript number is an exact rational ([Q]): pixel measurements are
      finite, and the code only adds, subtracts, halves and compares them.
    - A React component is its props record, its state record and one Rocq
      function per handler or effect.  A handler returns the next state
      together with the list of callbacks it invoked, in order.
    - The listeners of [window] and [document] are one explicit registry that
      [addEventListener] and [removeEventListener] transform.
    - A closure created by a render is named by the function's name and the
      number of the render that created it: two renders give two different
      function objects, as in JavaScript. *)

From Stdlib Require Import QArith Qround Qabs Lqa ZArith Lia List String Bool.
Import ListNotations.

Open Scope string_scope.
Open Scope Q_scope.

(** What React renders as children: opaque to this development. *)
Definition ReactNode := string.

(* ------------------------------------------------------------------ *)
(** ** The part of the DOM the overlays touch *)

Module Dom.

(** [DOMRect], as [getBoundingClientRect] returns it. *)
Record DOMRect := mkRect { top : Q; left : Q; width : Q; height : Q }.

Definition right (r : DOMRect) : Q := left r + width r.
Definition bottom (r : DOMRect) : Q := top r + height r.

(** An element: its identity, its current box, whether it is attached to the
    document and whether it has a [focus] method (['focus' in el]). *)
Record Element := mkElement {
  nodeId : nat;
  getBoundingClientRect : DOMRect;
  isConnected : bool;
  hasFocus : bool
}.

Record Window := mkWindow {
  innerWidth : Q;
  innerHeight : Q;
  scrollX : Q;
  scrollY : Q
}.

(** A callback invoked by a handler: the function named [fn], created by
    render number [closure] (0 for a function passed in by the caller). *)
Record Handler := mkHandler { fn : string; closure : nat }.

Definition Handler_eqb (a b : Handler) : bool :=
  String.eqb (fn a) (fn b) && Nat.eqb (closure a) (closure b).

Inductive EventTarget := window | document.

Definition EventTarget_eqb (a b : EventTarget) : bool :=
  match a, b with
  | window, window | document, document => true
  | _, _ => false
  end.

(** One registered event listener. *)
Record Listener := mkListener {
  target : EventTarget;
  type : string;
  callback : Handler
}.

Definition Listener_eqb (a b : Listener) : bool :=
  EventTarget_eqb (target a) (target b)
  && String.eqb (type a) (type b)
  && Handler_eqb (callback a) (callback b).

(** [target.addEventListener(type, callback)]: appended, unless that very
    listener is registered already. *)
Definition addEventListener (tg : EventTarget) (ty : string) (cb : Handler)
    (reg : list Listener) : list Listener :=
  let l := mkListener tg ty cb in
  if existsb (Listener_eqb l) reg then reg else (reg ++ [l])%list.

(** [target.removeEventListener(type, callback)]. *)
Definition removeEventListener (tg : EventTarget) (ty : string) (cb : Handler)
    (reg : list Listener) : list Listener :=
  filter (fun x => negb (Listener_eqb (mkListener tg ty cb) x)) reg.

(** A CSS value written into a style: [`${q}px`] or a literal. *)
Inductive CssValue := px (q : Q) | literal (s : string).

End Dom.

(* ------------------------------------------------------------------ *)
(** ** Popper (src/components/Popper/index.tsx) *)

Module Popper.
Import Dom.

Record ModifierOptions := mkOptions { boundary : option string }.

Record PopperModifier := mkModifier {
  name : string;
  options : option ModifierOptions
}.

Record PopperProps := mkProps {
  referenceElement : option Element;
  children : ReactNode;
  isOpen : bool;
  placement : string;
  modifiers : list PopperModifier;
  usePortal : bool;
  zIndex : Z;
  className : string;
  onClickOutside : option Handler;
  offset : Q * Q;
  matchWidth : bool
}.

(** The defaults of the destructured props. *)
Definition defaultProps (referenceElement : option Element)
    (children : ReactNode) : PopperProps :=
  {| referenceElement := referenceElement; children := children;
     isOpen := false; placement := "bottom"; modifiers := [];
     usePortal := true; zIndex := 1000%Z; className := "";
     onClickOutside := None; offset := (0, 8); matchWidth := false |}.

Record PopperStyles := mkStyles {
  s_position : string;
  s_top : CssValue;
  s_left : CssValue;
  s_transform : string;
  s_width : CssValue
}.

(** [useState] initial value of [popperStyles]. *)
Definition initialStyles : PopperStyles :=
  {| s_position := "absolute"; s_top := literal "0"; s_left := literal "0";
     s_transform := "translate3d(0, 0, 0)"; s_width := literal "auto" |}.

(** The [switch (placement)] of [updatePosition]: the pair [(top, left)]. *)
Definition placementPosition (placement : string) (refRect popperRect : DOMRect)
    (offsetX offsetY : Q) : Q * Q :=
  if placement =? "top" then
    (top refRect - height popperRect - offsetY,
     left refRect + (width refRect - width popperRect) / 2 + offsetX)
  else if placement =? "top-start" then
    (top refRect - height popperRect - offsetY,
     left refRect + offsetX)
  else if placement =? "top-end" then
    (top refRect - height popperRect - offsetY,
     right refRect - width popperRect + offsetX)
  else if placement =? "bottom" then
    (bottom refRect + offsetY,
     left refRect + (width refRect - width popperRect) / 2 + offsetX)
  else if placement =? "bottom-start" then
    (bottom refRect + offsetY,
     left refRect + offsetX)
  else if placement =? "bottom-end" then
    (bottom refRect + offsetY,
     right refRect - width popperRect + offsetX)
  else if placement =? "left" then
    (top refRect + (height refRect - height popperRect) / 2 + offsetY,
     left refRect - width popperRect - offsetX)
  else if placement =? "left-start" then
    (top refRect + offsetY,
     left refRect - width popperRect - offsetX)
  else if placement =? "left-end" then
    (bottom refRect - height popperRect + offsetY,
     left refRect - width popperRect - offsetX)
  else if placement =? "right" then
    (top refRect + (height refRect - height popperRect) / 2 + offsetY,
     right refRect + offsetX)
  else if placement =? "right-start" then
    (top refRect + offsetY,
     right refRect + offsetX)
  else if placement =? "right-end" then
    (bottom refRect - height popperRect + offsetY,
     right refRect + offsetX)
  else
    (bottom refRect + offsetY,
     left refRect + offsetX).

(** [modifier.name === 'preventOverflow' &&
     modifier.options?.boundary === 'viewport'] *)
Definition isPreventOverflow (modifier : PopperModifier) : bool :=
  (name modifier =? "preventOverflow")
  && match options modifier with
     | Some o => match boundary o with
                 | Some b => b =? "viewport"
                 | None => false
                 end
     | None => false
     end.

(** The body of [modifiers.forEach], on the pair [(top, left)]. *)
Definition applyModifier (win : Window) (popperRect : DOMRect)
    (tl : Q * Q) (modifier : PopperModifier) : Q * Q :=
  if isPreventOverflow modifier then
    let '(t, l) := tl in
    let viewportWidth := innerWidth win in
    let viewportHeight := innerHeight win in
    let l := if Qlt_le_dec viewportWidth (l + width popperRect)
             then viewportWidth - width popperRect - 8 else l in
    let l := if Qlt_le_dec l 8 then 8 else l in
    let t := if Qlt_le_dec viewportHeight (t + height popperRect)
             then viewportHeight - height popperRect - 8 else t in
    let t := if Qlt_le_dec t 8 then 8 else t in
    (t, l)
  else tl.

(** [updatePosition]: [None] when it returns before [setPopperStyles],
    otherwise the styles it stores. *)
Definition updatePosition (p : PopperProps) (popperElement : option Element)
    (win : Window) : option PopperStyles :=
  match referenceElement p, popperElement with
  | Some reference, Some popper =>
      let refRect := getBoundingClientRect reference in
      let popperRect := getBoundingClientRect popper in
      let '(offsetX, offsetY) := offset p in
      let tl := placementPosition (placement p) refRect popperRect offsetX offsetY in
      let '(t, l) := fold_left (applyModifier win popperRect) (modifiers p) tl in
      let t := t + scrollY win in
      let l := l + scrollX win in
      Some {| s_position := "absolute";
              s_top := px t;
              s_left := px l;
              s_transform := "translate3d(0, 0, 0)";
              s_width := if matchWidth p then px (width refRect)
                         else literal "auto" |}
  | _, _ => None
  end.

(** The rendered [div]; [style] is the inline style attribute, when one is
    given. *)
Record Div := mkDiv {
  div_className : string;
  div_style : option (PopperStyles * Z);
  data_placement : string;
  div_children : ReactNode
}.

(** [popperContent]: the [style] attribute is commented out in the source,
    so none is rendered.  [styles_popper] is the class of Popper.module.css. *)
Definition popperContent (styles_popper : string) (p : PopperProps)
    (popperStyles : PopperStyles) : option Div :=
  if isOpen p then
    Some {| div_className := styles_popper ++ " " ++ className p;
            div_style := None;
            data_placement := placement p;
            div_children := children p |}
  else None.

Inductive Rendered :=
| null
| createPortal (content : option Div) (container : string)
| inPlace (content : option Div).

(** What the component returns. *)
Definition render (styles_popper : string) (p : PopperProps)
    (popperStyles : PopperStyles) : Rendered :=
  if negb (isOpen p) then null
  else if usePortal p
       then createPortal (popperContent styles_popper p popperStyles) "body"
       else inPlace (popperContent styles_popper p popperStyles).

(** The rendered [div], if any. *)
Definition renderedDiv (r : Rendered) : option Div :=
  match r with
  | null => None
  | createPortal c _ => c
  | inPlace c => c
  end.

(** One pass of the position effect followed by the render that its
    [setPopperStyles] triggers: the state is [popperStyles]. *)
Definition reposition (p : PopperProps) (popperElement : option Element)
    (win : Window) (popperStyles : PopperStyles) : PopperStyles :=
  if isOpen p then
    match updatePosition p popperElement win with
    | Some s => s
    | None => popperStyles
    end
  else popperStyles.

(** The pixel value of a style entry. *)
Definition pxOf (v : CssValue) : option Q :=
  match v with px q => Some q | literal _ => None end.

End Popper.

(* ------------------------------------------------------------------ *)
(** ** Popover (src/components/Drawer/index.tsx, Popover part) *)

Module Popover.
Import Dom.

Record PopoverProps := mkProps {
  trigger : ReactNode;
  content : ReactNode;
  externalIsOpen : option bool;        (* the [isOpen] prop; may be undefined *)
  onOpen : option Handler;
  onClose : option Handler;
  position : string;
  closeOnClickOutside : bool;
  closeOnEsc : bool;
  closeOnScroll : bool;
  className : string;
  contentClassName : string;
  hasArrow : bool;
  offset : Q;
  zIndex : Z;
  controlled : bool
}.

Definition defaultProps (trigger content : ReactNode) : PopoverProps :=
  {| trigger := trigger; content := content; externalIsOpen := None;
     onOpen := None; onClose := None; position := "bottom";
     closeOnClickOutside := true; closeOnEsc := true; closeOnScroll := false;
     className := ""; contentClassName := ""; hasArrow := true;
     offset := 8; zIndex := 10%Z; controlled := false |}.

(** The component state: [internalIsOpen], initially [false]. *)
Record PopoverState := mkState { internalIsOpen : bool }.

Definition initialState : PopoverState := {| internalIsOpen := false |}.

(** [const isOpen = controlled ? externalIsOpen : internalIsOpen], read as a
    condition ([undefined] is falsy). *)
Definition isOpen (p : PopoverProps) (st : PopoverState) : bool :=
  if controlled p
  then match externalIsOpen p with Some b => b | None => false end
  else internalIsOpen st.

(** [cb?.()]: the callbacks invoked. *)
Definition optionalCall (cb : option Handler) : list Handler :=
  match cb with Some h => [h] | None => [] end.

Definition handleToggle (p : PopoverProps) (st : PopoverState)
    : PopoverState * list Handler :=
  if controlled p then
    if isOpen p st
    then (st, optionalCall (onClose p))
    else (st, optionalCall (onOpen p))
  else
    ({| internalIsOpen := negb (internalIsOpen st) |},
     if negb (internalIsOpen st)
     then optionalCall (onOpen p)
     else optionalCall (onClose p)).

Definition handleClose (p : PopoverProps) (st : PopoverState)
    : PopoverState * list Handler :=
  if controlled p then
    (st, optionalCall (onClose p))
  else
    ({| internalIsOpen := false |}, optionalCall (onClose p)).

(** The [switch (position)] of [updatePosition]: the pair [(top, left)]. *)
Definition positionOf (position : string) (triggerRect contentRect : DOMRect)
    (offset : Q) : Q * Q :=
  if position =? "top" then
    (top triggerRect - height contentRect - offset,
     left triggerRect + (width triggerRect / 2) - (width contentRect / 2))
  else if position =? "top-start" then
    (top triggerRect - height contentRect - offset,
     left triggerRect)
  else if position =? "top-end" then
    (top triggerRect - height contentRect - offset,
     right triggerRect - width contentRect)
  else if position =? "right" then
    (top triggerRect + (height triggerRect / 2) - (height contentRect / 2),
     right triggerRect + offset)
  else if position =? "right-start" then
    (top triggerRect,
     right triggerRect + offset)
  else if position =? "right-end" then
    (bottom triggerRect - height contentRect,
     right triggerRect + offset)
  else if position =? "bottom" then
    (bottom triggerRect + offset,
     left triggerRect + (width triggerRect / 2) - (width contentRect / 2))
  else if position =? "bottom-start" then
    (bottom triggerRect + offset,
     left triggerRect)
  else if position =? "bottom-end" then
    (bottom triggerRect + offset,
     right triggerRect - width contentRect)
  else if position =? "left" then
    (top triggerRect + (height triggerRect / 2) - (height contentRect / 2),
     left triggerRect - width contentRect - offset)
  else if position =? "left-start" then
    (top triggerRect,
     left triggerRect - width contentRect - offset)
  else if position =? "left-end" then
    (bottom triggerRect - height contentRect,
     left triggerRect - width contentRect - offset)
  else
    (bottom triggerRect + offset,
     left triggerRect + (width triggerRect / 2) - (width contentRect / 2)).

(** "Ensure the popover stays within viewport": one coordinate. *)
Definition keepInViewport (coordinate size viewportSize : Q) : Q :=
  if Qlt_le_dec coordinate 10 then 10
  else if Qlt_le_dec (viewportSize - 10) (coordinate + size)
       then viewportSize - size - 10
       else coordinate.

(** The inline style of the arrow child. *)
Record ArrowStyle := mkArrow {
  a_top : option string;
  a_bottom : option string;
  a_left : option string;
  a_right : option string;
  a_transform : option string
}.

Definition noArrowStyle : ArrowStyle := mkArrow None None None None None.

(** The [position.startsWith] cascade on the arrow found in the content. *)
Definition arrowStyleOf (position : string) (arrow : ArrowStyle) : ArrowStyle :=
  if String.prefix "top" position then
    {| a_top := Some "auto"; a_bottom := Some "-6px"; a_left := Some "50%";
       a_right := a_right arrow;
       a_transform := Some "translateX(-50%) rotate(45deg)" |}
  else if String.prefix "right" position then
    {| a_top := Some "50%"; a_bottom := a_bottom arrow; a_left := Some "-6px";
       a_right := Some "auto";
       a_transform := Some "translateY(-50%) rotate(45deg)" |}
  else if String.prefix "bottom" position then
    {| a_top := Some "-6px"; a_bottom := Some "auto"; a_left := Some "50%";
       a_right := a_right arrow;
       a_transform := Some "translateX(-50%) rotate(45deg)" |}
  else if String.prefix "left" position then
    {| a_top := Some "50%"; a_bottom := a_bottom arrow; a_left := Some "auto";
       a_right := Some "-6px";
       a_transform := Some "translateY(-50%) rotate(45deg)" |}
  else arrow.

(** What [updatePosition] writes: [contentElement.style.top], [.left] (both
    in px) and the style of the arrow, when [querySelector] finds one. *)
Record Positioned := mkPositioned {
  style_top : Q;
  style_left : Q;
  arrowStyle : option ArrowStyle
}.

(** [updatePosition]: [None] when it returns early.  [arrow] is the result
    of [contentElement.querySelector(`.${styles.arrow}`)]. *)
Definition updatePosition (p : PopoverProps) (st : PopoverState)
    (triggerRef contentRef : option Element) (arrow : option ArrowStyle)
    (win : Window) : option Positioned :=
  match triggerRef, contentRef with
  | Some triggerElement, Some contentElement =>
      if negb (isOpen p st) then None
      else
        let triggerRect := getBoundingClientRect triggerElement in
        let contentRect := getBoundingClientRect contentElement in
        let '(t, l) := positionOf (position p) triggerRect contentRect (offset p) in
        let viewportWidth := innerWidth win in
        let viewportHeight := innerHeight win in
        let l := keepInViewport l (width contentRect) viewportWidth in
        let t := keepInViewport t (height contentRect) viewportHeight in
        Some {| style_top := t;
                style_left := l;
                arrowStyle :=
                  if hasArrow p
                  then option_map (arrowStyleOf (position p)) arrow
                  else arrow |}
  | _, _ => None
  end.

(** The four function objects a render creates. *)
Definition updatePosition_fn (render : nat) := mkHandler "updatePosition" render.
Definition handleClose_fn (render : nat) := mkHandler "handleClose" render.
Definition handleClickOutside_fn (render : nat) := mkHandler "handleClickOutside" render.
Definition handleEscKey_fn (render : nat) := mkHandler "handleEscKey" render.

(** The body of the listener effect of render [render] (the call of
    [updatePosition] it starts with registers nothing). *)
Definition effect (render : nat) (p : PopoverProps) (st : PopoverState)
    (reg : list Listener) : list Listener :=
  if isOpen p st then
    let reg := addEventListener window "resize" (updatePosition_fn render) reg in
    let reg := if closeOnScroll p
               then addEventListener window "scroll" (handleClose_fn render) reg
               else reg in
    let reg := if closeOnClickOutside p
               then addEventListener document "mousedown" (handleClickOutside_fn render) reg
               else reg in
    let reg := if closeOnEsc p
               then addEventListener document "keydown" (handleEscKey_fn render) reg
               else reg in
    reg
  else reg.

(** The function the effect returns. *)
Definition cleanup (render : nat) (reg : list Listener) : list Listener :=
  let reg := removeEventListener window "resize" (updatePosition_fn render) reg in
  let reg := removeEventListener window "scroll" (handleClose_fn render) reg in
  let reg := removeEventListener document "mousedown" (handleClickOutside_fn render) reg in
  let reg := removeEventListener document "keydown" (handleEscKey_fn render) reg in
  reg.

(** [handleClickOutside]: [inContent] and [inTrigger] are the results of
    [contentRef.current.contains(event.target)] and of the trigger's. *)
Definition handleClickOutside (p : PopoverProps) (st : PopoverState)
    (triggerRef contentRef : option Element) (inContent inTrigger : bool)
    : PopoverState * list Handler :=
  match contentRef, triggerRef with
  | Some _, Some _ =>
      if negb inContent && negb inTrigger then handleClose p st else (st, [])
  | _, _ => (st, [])
  end.

Definition handleEscKey (p : PopoverProps) (st : PopoverState) (key : string)
    : PopoverState * list Handler :=
  if key =? "Escape" then handleClose p st else (st, []).

(** The calls that reach one Popover from outside: a click on the trigger,
    a dismissal, a reposition (resize). *)
Inductive Call := toggle | close | reposition.

Definition step (p : PopoverProps) (c : Call) (st : PopoverState)
    : PopoverState * list Handler :=
  match c with
  | toggle => handleToggle p st
  | close => handleClose p st
  | reposition => (st, [])     (* [updatePosition] sets no state *)
  end.

(** A sequence of calls, each on the state the previous one left: the
    states visited (the first one included) and the callbacks invoked. *)
Fixpoint run (p : PopoverProps) (cs : list Call) (st : PopoverState)
    : list PopoverState * list Handler :=
  match cs with
  | [] => ([st], [])
  | c :: cs' =>
      let '(st', out) := step p c st in
      let '(sts, outs) := run p cs' st' in
      (st :: sts, (out ++ outs)%list)
  end.

End Popover.

(* ------------------------------------------------------------------ *)
(** ** ClickAwayListener *)

Module ClickAwayListener.
Import Dom.

Record ClickAwayListenerProps := mkProps {
  children : ReactNode;
  onClickAway : Handler;
  disabled : bool;
  events : list string;
  className : string;
  preventDefault : bool;
  stopPropagation : bool
}.

Definition defaultProps (children : ReactNode) (onClickAway : Handler)
    : ClickAwayListenerProps :=
  {| children := children; onClickAway := onClickAway; disabled := false;
     events := ["mousedown"; "touchstart"]; className := "";
     preventDefault := false; stopPropagation := false |}.

Definition handleClickAway_fn (render : nat) := mkHandler "handleClickAway" render.

(** What [handleClickAway] calls: on the event, and the prop. *)
Inductive Effect := event_preventDefault | event_stopPropagation
                  | call_onClickAway (h : Handler).

(** [handleClickAway]: [rootRef] is [rootRef.current], [inside] the result
    of [rootRef.current.contains(target)]. *)
Definition handleClickAway (p : ClickAwayListenerProps)
    (rootRef : option Element) (inside : bool) : list Effect :=
  ((if preventDefault p then [event_preventDefault] else [])
   ++ (if stopPropagation p then [event_stopPropagation] else [])
   ++ match rootRef with
      | None => []
      | Some _ => if inside then [] else [call_onClickAway (onClickAway p)]
      end)%list.

(** One entry of [registeredEvents]. *)
Record Registered := mkRegistered { r_type : string; r_handler : Handler }.

(** The effect of render [render]: the registry after it, and the
    [registeredEvents] array its cleanup closes over ([None]: the effect
    returned [undefined], there is no cleanup).  The [push] into
    [registeredEvents] is commented out in the source, so the array is
    threaded through the loop unchanged. *)
Definition effect (render : nat) (p : ClickAwayListenerProps)
    (reg : list Listener) : list Listener * option (list Registered) :=
  if disabled p then (reg, None)
  else
    let handleClickAway := handleClickAway_fn render in
    let registeredEvents : list Registered := [] in
    let '(reg, registeredEvents) :=
      fold_left
        (fun (acc : list Listener * list Registered) (eventName : string) =>
           let '(reg, registeredEvents) := acc in
           (addEventListener document eventName handleClickAway reg,
            registeredEvents))
        (events p) (reg, registeredEvents) in
    (reg, Some registeredEvents).

(** The cleanup the effect returned. *)
Definition cleanup (registeredEvents : option (list Registered))
    (reg : list Listener) : list Listener :=
  match registeredEvents with
  | None => reg
  | Some rs =>
      fold_left
        (fun reg r => removeEventListener document (r_type r) (r_handler r) reg)
        rs reg
  end.

(** Mount (or a change of dependencies) followed by the cleanup. *)
Definition mountThenCleanup (render : nat) (p : ClickAwayListenerProps)
    (reg : list Listener) : list Listener :=
  let '(reg, registeredEvents) := effect render p reg in
  cleanup registeredEvents reg.

End ClickAwayListener.

(* ------------------------------------------------------------------ *)
(** ** Modal: focus management *)

Module Modal.
Import Dom.

Record ModalProps := mkProps {
  isOpen : bool;
  onClose : Handler;
  children : ReactNode;
  title : option string;
  showCloseButton : bool;
  closeOnBackdropClick : bool;
  closeOnEsc : bool;
  className : string;
  size : string;
  centered : bool;
  hasBackdrop : bool;
  backdropClassName : string;
  id : option string
}.

(** The calls the focus effect makes on the DOM. *)
Inductive DomCall :=
| focus (e : Element)
| body_classList_add (c : string)
| body_classList_remove (c : string).

(** What one run of the effect reads from the DOM: [modalRef.current] and
    [document.activeElement]. *)
Record Reads := mkReads {
  modalRef : option Element;
  activeElement : option Element
}.

(** The "focus management" effect, run when [isOpen] changes and on mount.
    The state is [previousActiveElement.current]. *)
Definition focusEffect (isOpen : bool) (dom : Reads)
    (previousActiveElement : option Element)
    : option Element * list DomCall :=
  if isOpen then
    (activeElement dom,
     (match modalRef dom with
      | Some m => [focus m]
      | None => []
      end ++ [body_classList_add "overflow-hidden"])%list)
  else
    (previousActiveElement,
     (match previousActiveElement with
      | Some e => if hasFocus e then [focus e] else []
      | None => []
      end ++ [body_classList_remove "overflow-hidden"])%list).

(** Successive runs of the effect, one per value [isOpen] takes. *)
Fixpoint runs (rs : list (bool * Reads)) (previousActiveElement : option Element)
    : option Element * list DomCall :=
  match rs with
  | [] => (previousActiveElement, [])
  | (isOpen, dom) :: rs' =>
      let '(prev, calls) := focusEffect isOpen dom previousActiveElement in
      let '(prev', calls') := runs rs' prev in
      (prev', (calls ++ calls')%list)
  end.

(** [handleKeyDown], up to the Escape branch. *)
Definition handleKeyDown_escape (p : ModalProps) (key : string) : list Handler :=
  if negb (isOpen p) then []
  else if closeOnEsc p && (key =? "Escape") then [onClose p] else [].

End Modal.

(* ------------------------------------------------------------------ *)
(** ** Slider *)

Module Slider.
Import Dom.

(** [number | [number, number]] *)
Inductive SliderValue := single (v : Q) | pair (minVal maxVal : Q).

Definition isArray (v : SliderValue) : bool :=
  match v with single _ => false | pair _ _ => true end.

Inductive Thumb := thumb_min | thumb_max.

Record SliderProps := mkProps {
  min : Q;
  max : Q;
  step : Q;
  defaultValue : SliderValue;
  value : option SliderValue;
  disabled : bool;
  showMarks : bool;
  range : bool;
  onChange : option Handler;
  onDragStart : option Handler;
  onDragEnd : option Handler;
  className : string;
  trackClassName : string;
  thumbClassName : string
}.

Definition defaultProps : SliderProps :=
  {| min := 0; max := 100; step := 1; defaultValue := single 0;
     value := None; disabled := false; showMarks := false; range := false;
     onChange := None; onDragStart := None; onDragEnd := None;
     className := ""; trackClassName := ""; thumbClassName := "" |}.

Record SliderState := mkState {
  internalValue : SliderValue;
  activeDragThumb : option Thumb
}.

(** [useState(value !== undefined ? value : defaultValue)] *)
Definition initialState (p : SliderProps) : SliderState :=
  {| internalValue := match value p with Some v => v | None => defaultValue p end;
     activeDragThumb := None |}.

Definition isControlled (p : SliderProps) : bool :=
  match value p with Some _ => true | None => false end.

(** A callback invoked, with its argument. *)
Inductive Invoked :=
| called (h : Handler)
| calledWith (h : Handler) (v : SliderValue).

Definition Math_round (x : Q) : Q := inject_Z (Qfloor (x + (1 # 2))).
Definition Math_min (a b : Q) : Q := if Qlt_le_dec b a then b else a.
Definition Math_max (a b : Q) : Q := if Qlt_le_dec a b then b else a.

(** [getValueFromPercentage].  The quotient by [step] is the code's for a
    [step] that is not 0; at 0 the code's value is NaN, which [Q] does not
    have: what is proved of the value assumes a nonzero [step]. *)
Definition getValueFromPercentage (p : SliderProps) (percentage : Q) : Q :=
  let rawValue := min p + (percentage / 100) * (max p - min p) in
  let steppedValue := Math_round (rawValue / step p) * step p in
  Math_min (max p) (Math_max (min p) steppedValue).

(** [onChange?.(v)] *)
Definition optionalCallWith (cb : option Handler) (v : SliderValue) : list Invoked :=
  match cb with Some h => [calledWith h v] | None => [] end.

Definition optionalCall (cb : option Handler) : list Invoked :=
  match cb with Some h => [called h] | None => [] end.

(** [setInternalValue(v)] unless controlled. *)
Definition commit (p : SliderProps) (st : SliderState) (v : SliderValue)
    : SliderState :=
  if isControlled p then st
  else {| internalValue := v; activeDragThumb := activeDragThumb st |}.

(** The [updatedValue] that the range branch of [handleTrackClick] builds. *)
Definition trackClickUpdatedValue (newValue minVal maxVal : Q) : SliderValue :=
  let minDistance := Qabs (newValue - minVal) in
  let maxDistance := Qabs (newValue - maxVal) in
  if Qlt_le_dec maxDistance minDistance
  then pair minVal newValue
  else pair newValue maxVal.

(** [handleTrackClick]: in the range branch the two statements that would
    store and report [updatedValue] are commented out in the source, so the
    branch ends after building it.  The quotient by the track's width is the
    code's for a width that is not 0 (at 0 the code gets an infinity or
    NaN); which branch runs, and what it stores and reports a value to,
    does not depend on it. *)
Definition handleTrackClick (p : SliderProps) (st : SliderState)
    (trackRef : option Element) (clientX : Q) : SliderState * list Invoked :=
  match trackRef with
  | None => (st, [])
  | Some track =>
      if disabled p then (st, [])
      else
        let rect := getBoundingClientRect track in
        let percentage := ((clientX - left rect) / width rect) * 100 in
        let newValue := getValueFromPercentage p percentage in
        match internalValue st with
        | pair minVal maxVal =>
            if range p then
              let updatedValue := trackClickUpdatedValue newValue minVal maxVal in
              (st, [])
            else
              (commit p st (single newValue),
               optionalCallWith (onChange p) (single newValue))
        | single _ =>
            (commit p st (single newValue),
             optionalCallWith (onChange p) (single newValue))
        end
  end.

(** [handleDrag] of a drag started on [thumbType]; [st] holds the
    [internalValue] the drag closed over.  The quotient by the track's
    width is the code's for a width that is not 0: what is proved of the
    dragged value assumes a nonzero width and [step]. *)
Definition handleDrag (p : SliderProps) (st : SliderState) (thumbType : Thumb)
    (trackRef : option Element) (clientX : Q) : SliderState * list Invoked :=
  match trackRef with
  | None => (st, [])
  | Some track =>
      let rect := getBoundingClientRect track in
      let percentage :=
        Math_max 0 (Math_min 100 (((clientX - left rect) / width rect) * 100)) in
      let newValue := getValueFromPercentage p percentage in
      match internalValue st with
      | pair minVal maxVal =>
          if range p then
            let updatedValue :=
              match thumbType with
              | thumb_min => pair (Math_min newValue maxVal) maxVal
              | thumb_max => pair minVal (Math_max newValue minVal)
              end in
            (commit p st updatedValue, optionalCallWith (onChange p) updatedValue)
          else
            (commit p st (single newValue),
             optionalCallWith (onChange p) (single newValue))
      | single _ =>
          (commit p st (single newValue),
           optionalCallWith (onChange p) (single newValue))
      end
  end.

Definition handleDrag_fn (render : nat) := mkHandler "handleDrag" render.
Definition handleDragEnd_fn (render : nat) := mkHandler "handleDragEnd" render.

(** [handleThumbDragStart(thumbType)(e)]: state, callbacks, listeners. *)
Definition handleThumbDragStart (start : nat) (p : SliderProps) (st : SliderState)
    (thumbType : Thumb) (reg : list Listener)
    : SliderState * list Invoked * list Listener :=
  if disabled p then (st, [], reg)
  else
    ({| internalValue := internalValue st; activeDragThumb := Some thumbType |},
     optionalCall (onDragStart p),
     addEventListener document "mouseup" (handleDragEnd_fn start)
       (addEventListener document "mousemove" (handleDrag_fn start) reg)).

Definition handleDragEnd (start : nat) (p : SliderProps) (st : SliderState)
    (reg : list Listener) : SliderState * list Invoked * list Listener :=
  ({| internalValue := internalValue st; activeDragThumb := None |},
   optionalCall (onDragEnd p),
   removeEventListener document "mouseup" (handleDragEnd_fn start)
     (removeEventListener document "mousemove" (handleDrag_fn start) reg)).

End Slider.

(* ------------------------------------------------------------------ *)
(** ** A mounted Popover across renders *)

Module PopoverLifecycle.
Import Dom.

(** A mounted Popover between two events: its state, the number of its
    latest render, the render whose effect is in force, and the registry of
    [window] and [document]. *)
Record Mounted := mkMounted {
  state : Popover.PopoverState;
  renders : nat;
  effectOf : nat;
  listeners : list Listener
}.

(** The first render and its effect. *)
Definition mount (p : Popover.PopoverProps) (reg : list Listener) : Mounted :=
  {| state := Popover.initialState;
     renders := 1;
     effectOf := 1;
     listeners := Popover.effect 1 p Popover.initialState reg |}.

(** A call and the render it causes.  With the props fixed, [isOpen] is the
    only dependency of the listener effect that can change: when it does,
    React runs the cleanup of the effect in force, then the effect of the
    new render; when it does not, the effect in force stays. *)
Definition call (p : Popover.PopoverProps) (c : Popover.Call) (m : Mounted)
    : Mounted * list Handler :=
  let '(st', out) := Popover.step p c (state m) in
  if Bool.eqb (Popover.isOpen p st') (Popover.isOpen p (state m)) then
    ({| state := st'; renders := renders m; effectOf := effectOf m;
        listeners := listeners m |}, out)
  else
    let r := S (renders m) in
    ({| state := st'; renders := r; effectOf := r;
        listeners := Popover.effect r p st'
                       (Popover.cleanup (effectOf m) (listeners m)) |}, out).

Fixpoint calls (p : Popover.PopoverProps) (cs : list Popover.Call) (m : Mounted)
    : Mounted :=
  match cs with
  | [] => m
  | c :: cs' => calls p cs' (fst (call p c m))
  end.

(** Unmounting runs the cleanup of the effect in force. *)
Definition unmount (m : Mounted) : list Listener :=
  Popover.cleanup (effectOf m) (listeners m).

End PopoverLifecycle.

(* ------------------------------------------------------------------ *)
(** ** Slider: percentages and the default marks *)

Module SliderMarks.
Import Dom.

(** [getPercentage] *)
Definition getPercentage (p : Slider.SliderProps) (value : Q) : Q :=
  ((value - Slider.min p) / (Slider.max p - Slider.min p)) * 100.

(** The loop of [renderMarks] that fills [defaultMarks]:
    [for (let i = min; i <= max; i += step) defaultMarks[i] = null].
    The loop need not end, so it runs on fuel: [None] when the fuel is used
    up before the loop condition fails, otherwise the keys it has set, in
    the order it set them. *)
Fixpoint defaultMarks (fuel : nat) (i max step : Q) : option (list Q) :=
  match fuel with
  | O => None
  | S fuel' =>
      if Qlt_le_dec max i then Some []
      else option_map (cons i) (defaultMarks fuel' (i + step) max step)
  end.

(** The marks [renderMarks] draws when [showMarks] is on and no custom marks
    are given: each default mark with its [left] percentage. *)
Definition renderDefaultMarks (fuel : nat) (p : Slider.SliderProps)
    : option (list (Q * Q)) :=
  if Slider.showMarks p then
    option_map (map (fun markValue => (markValue, getPercentage p markValue)))
               (defaultMarks fuel (Slider.min p) (Slider.max p) (Slider.step p))
  else Some [].

End SliderMarks.

(* ------------------------------------------------------------------ *)
(** ** Popper: its listeners and the click outside *)

Module PopperEvents.
Import Dom.

Definition updatePosition_fn (render : nat) := mkHandler "Popper.updatePosition" render.
Definition handleClickOutside_fn (render : nat) :=
  mkHandler "Popper.handleClickOutside" render.

(** The position effect of render [render], after its first
    [updatePosition()]: the registry, and whether a cleanup was returned. *)
Definition positionEffect (render : nat) (p : Popper.PopperProps)
    (popperElement : option Element) (reg : list Listener)
    : list Listener * bool :=
  match Popper.referenceElement p, popperElement with
  | Some _, Some _ =>
      if negb (Popper.isOpen p) then (reg, false)
      else
        let reg := addEventListener window "resize" (updatePosition_fn render) reg in
        let reg := addEventListener window "scroll" (updatePosition_fn render) reg in
        (reg, true)
  | _, _ => (reg, false)
  end.

Definition positionCleanup (render : nat) (reg : list Listener) : list Listener :=
  let reg := removeEventListener window "resize" (updatePosition_fn render) reg in
  let reg := removeEventListener window "scroll" (updatePosition_fn render) reg in
  reg.

(** The click-outside effect. *)
Definition clickOutsideEffect (render : nat) (p : Popper.PopperProps)
    (reg : list Listener) : list Listener * bool :=
  match Popper.onClickOutside p with
  | Some _ =>
      if negb (Popper.isOpen p) then (reg, false)
      else (addEventListener document "mousedown" (handleClickOutside_fn render) reg,
            true)
  | None => (reg, false)
  end.

Definition clickOutsideCleanup (render : nat) (reg : list Listener) : list Listener :=
  removeEventListener document "mousedown" (handleClickOutside_fn render) reg.

(** Both effects of a render, then both cleanups that were returned. *)
Definition effects (render : nat) (p : Popper.PopperProps)
    (popperElement : option Element) (reg : list Listener)
    : list Listener * (bool * bool) :=
  let '(reg, c1) := positionEffect render p popperElement reg in
  let '(reg, c2) := clickOutsideEffect render p reg in
  (reg, (c1, c2)).

Definition cleanups (render : nat) (cs : bool * bool) (reg : list Listener)
    : list Listener :=
  let reg := if fst cs then positionCleanup render reg else reg in
  let reg := if snd cs then clickOutsideCleanup render reg else reg in
  reg.

(** [handleClickOutside], which exists only under an [onClickOutside]:
    [inPopper] and [inReference] are the two [contains(event.target)]. *)
Definition handleClickOutside (p : Popper.PopperProps) (popperRef : option Element)
    (inPopper inReference : bool) : list Handler :=
  match Popper.onClickOutside p with
  | None => []
  | Some onClickOutside =>
      match popperRef, Popper.referenceElement p with
      | Some _, Some _ =>
          if negb inPopper && negb inReference then [onClickOutside] else []
      | _, _ => []
      end
  end.

End PopperEvents.

(* ------------------------------------------------------------------ *)
(** ** Drawer (src/components/Drawer/index.tsx, Drawer part) *)

Module Drawer.
Import Dom.

Record DrawerProps := mkProps {
  open : bool;
  onClose : option Handler;
  children : ReactNode;
  anchor : string;
  variant : string;
  width : string;
  height : string;
  className : string;
  zIndex : Z
}.

Definition defaultProps (open : bool) (children : ReactNode) : DrawerProps :=
  {| open := open; onClose := None; children := children; anchor := "left";
     variant := "temporary"; width := "300px"; height := "300px";
     className := ""; zIndex := 1000%Z |}.

Definition optionalCall (cb : option Handler) : list Handler :=
  match cb with Some h => [h] | None => [] end.

Definition handleClickOutside_fn (render : nat) :=
  mkHandler "Drawer.handleClickOutside" render.
Definition handleEscapeKey_fn (render : nat) :=
  mkHandler "Drawer.handleEscapeKey" render.

(** [handleClickOutside]: [inside] is [drawerRef.current.contains(target)]. *)
Definition handleClickOutside (p : DrawerProps) (drawerRef : option Element)
    (inside : bool) : list Handler :=
  match drawerRef with
  | Some _ => if negb inside then optionalCall (onClose p) else []
  | None => []
  end.

Definition handleEscapeKey (p : DrawerProps) (key : string) : list Handler :=
  if key =? "Escape" then optionalCall (onClose p) else [].

(** The listener effect: the registry, and whether a cleanup was returned. *)
Definition effect (render : nat) (p : DrawerProps) (reg : list Listener)
    : list Listener * bool :=
  if negb (variant p =? "temporary") || negb (open p) then (reg, false)
  else
    let reg := addEventListener document "mousedown" (handleClickOutside_fn render) reg in
    let reg := addEventListener document "keydown" (handleEscapeKey_fn render) reg in
    (reg, true).

Definition cleanup (render : nat) (returned : bool) (reg : list Listener)
    : list Listener :=
  if returned then
    let reg := removeEventListener document "mousedown" (handleClickOutside_fn render) reg in
    let reg := removeEventListener document "keydown" (handleEscapeKey_fn render) reg in
    reg
  else reg.

(** [React.CSSProperties] of the panel. *)
Record PositionStyles := mkStyle {
  st_zIndex : Z;
  st_width : string;
  st_height : string
}.

Definition getPositionStyles (p : DrawerProps) : PositionStyles :=
  if (anchor p =? "left") || (anchor p =? "right") then
    {| st_zIndex := zIndex p; st_width := width p; st_height := "100%" |}
  else
    {| st_zIndex := zIndex p; st_width := "100%"; st_height := height p |}.

(** [filter(Boolean)] on class names: [undefined] and [''] go. *)
Definition truthy (c : option string) : bool :=
  match c with
  | Some s => negb (s =? "")
  | None => false
  end.

(** [getDrawerClassNames]; [styles] is the object of Drawer.module.css. *)
Definition getDrawerClassNames (styles : string -> option string) (p : DrawerProps)
    : string :=
  let baseClasses :=
    [ styles "drawer";
      styles ("anchor-" ++ anchor p);
      styles (variant p);
      if open p then styles "open" else Some "";
      Some (className p) ] in
  String.concat " "
    (flat_map (fun c => match c with Some s => [s] | None => [] end)
              (filter truthy baseClasses)).

(** The rendered panel [div]; [closeButton] is the button whose [onClick]
    is [onClose]. *)
Record Panel := mkPanel {
  panel_className : string;
  panel_style : PositionStyles;
  closeButton : bool;
  panel_children : ReactNode
}.

(** What the component returns: the panel, the backdrop (whose [onClick] is
    [onClose]) when there is one, and whether all is rendered in a portal
    on [document.body]. *)
Record Rendered := mkRendered {
  portal : bool;
  backdrop : bool;
  panel : Panel
}.

(** The component's return value.  The early [return null] for a closed
    drawer is commented out in the source. *)
Definition render (styles : string -> option string) (p : DrawerProps) : Rendered :=
  if variant p =? "permanent" then
    {| portal := false; backdrop := false;
       panel := {| panel_className := getDrawerClassNames styles p;
                   panel_style := getPositionStyles p;
                   closeButton := false;
                   panel_children := children p |} |}
  else
    {| portal := variant p =? "temporary";
       backdrop := (variant p =? "temporary") && open p;
       panel := {| panel_className := getDrawerClassNames styles p;
                   panel_style := getPositionStyles p;
                   closeButton := variant p =? "persistent";
                   panel_children := children p |} |}.

End Drawer.

(* ------------------------------------------------------------------ *)
(** ** Timers *)

Module Timers.

(** The timeouts set and neither fired nor cleared, and the next id
    [setTimeout] hands out. *)
Record Timers := mkTimers { pending : list nat; nextId : nat }.

Definition none : Timers := {| pending := []; nextId := 1 |}.

(** [setTimeout(callback, delay)]: the id, and the timers with it. *)
Definition setTimeout (t : Timers) : nat * Timers :=
  (nextId t, {| pending := (pending t ++ [nextId t])%list; nextId := S (nextId t) |}).

(** [clearTimeout(id)]: nothing happens for an id that is not pending. *)
Definition clearTimeout (id : nat) (t : Timers) : Timers :=
  {| pending := filter (fun x => negb (Nat.eqb id x)) (pending t);
     nextId := nextId t |}.

Definition isPending (id : nat) (t : Timers) : bool :=
  existsb (Nat.eqb id) (pending t).

End Timers.

(* ------------------------------------------------------------------ *)
(** ** Alert (src/components/Drawer/index.tsx, Alert part) *)

Module Alert.
Import Dom.

Record AlertProps := mkProps {
  message : string;
  description : option string;
  severity : string;
  dismissible : bool;
  autoHideDuration : Q;
  actionText : option string;
  onAction : option Handler;
  onClose : option Handler;
  className : string
}.

(** A mounted Alert: the [visible] state, the [timer] variable of the
    effect, and the timeouts of the page. *)
Record Mounted := mkMounted {
  visible : bool;
  timer : option nat;
  timers : Timers.Timers
}.

(** [handleClose] *)
Definition handleClose (p : AlertProps) (m : Mounted) : Mounted * list Handler :=
  ({| visible := false; timer := timer m; timers := timers m |},
   match onClose p with Some h => [h] | None => [] end).

(** The first render ([visible] starts [true]) and the effect. *)
Definition mount (p : AlertProps) (t : Timers.Timers) : Mounted :=
  if Qlt_le_dec 0 (autoHideDuration p) then
    let '(id, t) := Timers.setTimeout t in
    {| visible := true; timer := Some id; timers := t |}
  else
    {| visible := true; timer := None; timers := t |}.

(** The cleanup of the effect (on unmount; the props are fixed). *)
Definition cleanup (m : Mounted) : Timers.Timers :=
  match timer m with
  | Some id => Timers.clearTimeout id (timers m)
  | None => timers m
  end.

(** What can happen to a mounted Alert: a click on the close button, a click
    on the action button, a timeout of the page coming due. *)
Inductive Event := clickClose | clickAction | timeout (id : nat).

(** The buttons exist only while the Alert renders, the close button only
    when [dismissible], the action button only with a non-empty
    [actionText] and an [onAction]; a timeout runs its callback only if it is the Alert's own
    and still pending. *)
Definition react (p : AlertProps) (e : Event) (m : Mounted)
    : Mounted * list Handler :=
  match e with
  | clickClose =>
      if visible m && dismissible p then handleClose p m else (m, [])
  | clickAction =>
      match actionText p, onAction p with
      | Some text, Some h =>
          if visible m && negb (text =? "") then (m, [h]) else (m, [])
      | _, _ => (m, [])
      end
  | timeout id =>
      match timer m with
      | Some own =>
          if Nat.eqb id own && Timers.isPending id (timers m) then
            handleClose p
              {| visible := visible m; timer := timer m;
                 timers := Timers.clearTimeout id (timers m) |}
          else (m, [])
      | None => (m, [])
      end
  end.

Fixpoint run (p : AlertProps) (es : list Event) (m : Mounted)
    : Mounted * list Handler :=
  match es with
  | [] => (m, [])
  | e :: es' =>
      let '(m', out) := react p e m in
      let '(m'', outs) := run p es' m' in
      (m'', (out ++ outs)%list)
  end.

End Alert.

(* ------------------------------------------------------------------ *)
(** ** Tooltip *)

Module Tooltip.
Import Dom.

Record TooltipProps := mkProps {
  content : ReactNode;
  children : ReactNode;
  position : string;
  showArrow : bool;
  className : string;
  delay : Q;
  disabled : bool;
  maxWidth : Q
}.

Definition defaultProps (content children : ReactNode) : TooltipProps :=
  {| content := content; children := children; position := "top";
     showArrow := true; className := ""; delay := 300; disabled := false;
     maxWidth := 250 |}.

(** [isVisible], [timerRef.current], and the timeouts of the page. *)
Record TooltipState := mkState {
  isVisible : bool;
  timerRef : option nat;
  timers : Timers.Timers
}.

Definition initialState : TooltipState :=
  {| isVisible := false; timerRef := None; timers := Timers.none |}.

Definition showTooltip (p : TooltipProps) (st : TooltipState) : TooltipState :=
  if disabled p then st
  else
    let t := match timerRef st with
             | Some id => Timers.clearTimeout id (timers st)
             | None => timers st
             end in
    let '(id, t) := Timers.setTimeout t in
    {| isVisible := isVisible st; timerRef := Some id; timers := t |}.

Definition hideTooltip (st : TooltipState) : TooltipState :=
  match timerRef st with
  | Some id =>
      {| isVisible := false; timerRef := None;
         timers := Timers.clearTimeout id (timers st) |}
  | None =>
      {| isVisible := false; timerRef := None; timers := timers st |}
  end.

(** A pending timeout comes due: its callback is [setIsVisible(true)]. *)
Definition timeout (id : nat) (st : TooltipState) : TooltipState :=
  if Timers.isPending id (timers st) then
    {| isVisible := true; timerRef := timerRef st;
       timers := Timers.clearTimeout id (timers st) |}
  else st.

(** The cleanup on unmount. *)
Definition unmount (st : TooltipState) : Timers.Timers :=
  match timerRef st with
  | Some id => Timers.clearTimeout id (timers st)
  | None => timers st
  end.

(** Mouse enter or focus; mouse leave or blur; a timeout coming due. *)
Inductive Event := enter | leave | due (id : nat).

Definition react (p : TooltipProps) (e : Event) (st : TooltipState) : TooltipState :=
  match e with
  | enter => showTooltip p st
  | leave => hideTooltip st
  | due id => timeout id st
  end.

Definition run (p : TooltipProps) (es : list Event) (st : TooltipState)
    : TooltipState :=
  fold_left (fun st e => react p e st) es st.

(** The four inset properties of the tooltip's inline style, in px; [None]
    is the empty string the effect resets them to. *)
Record Insets := mkInsets {
  i_top : option Q;
  i_right : option Q;
  i_bottom : option Q;
  i_left : option Q
}.

(** The positioning effect: [None] when it returns before touching the
    style.  [tooltipRect] is measured after the reset. *)
Definition positionEffect (p : TooltipProps) (isVisible : bool)
    (tooltipRef triggerRef : option Element) (win : Window) : option Insets :=
  if negb isVisible then None
  else
    match tooltipRef, triggerRef with
    | Some tooltipElement, Some triggerElement =>
        let triggerRect := getBoundingClientRect triggerElement in
        let tooltipRect := getBoundingClientRect tooltipElement in
        let spacing := 8 in
        if position p =? "top" then
          Some {| i_top := None; i_right := None;
                  i_bottom := Some (innerHeight win - top triggerRect + spacing);
                  i_left := Some (left triggerRect + width triggerRect / 2
                                  - width tooltipRect / 2) |}
        else if position p =? "right" then
          Some {| i_top := Some (top triggerRect + height triggerRect / 2
                                 - height tooltipRect / 2);
                  i_right := None; i_bottom := None;
                  i_left := Some (right triggerRect + spacing) |}
        else if position p =? "bottom" then
          Some {| i_top := Some (bottom triggerRect + spacing);
                  i_right := None; i_bottom := None;
                  i_left := Some (left triggerRect + width triggerRect / 2
                                  - width tooltipRect / 2) |}
        else if position p =? "left" then
          Some {| i_top := Some (top triggerRect + height triggerRect / 2
                                 - height tooltipRect / 2);
                  i_right := Some (innerWidth win - left triggerRect + spacing);
                  i_bottom := None; i_left := None |}
        else
          Some {| i_top := None; i_right := None; i_bottom := None; i_left := None |}
    | _, _ => None
    end.

End Tooltip.

(* ------------------------------------------------------------------ *)
(** ** Modal: keyboard, backdrop, listener *)

Module ModalEvents.
Import Dom.

(** What [handleKeyDown] and [handleBackdropClick] do. *)
Inductive Effect :=
| call (h : Handler)
| focus (e : Element)
| event_preventDefault.

(** [a === b] on elements. *)
Definition sameElement (a : option Element) (b : Element) : bool :=
  match a with
  | Some a => Nat.eqb (nodeId a) (nodeId b)
  | None => false
  end.

(** The focus trap of [handleKeyDown], on the non-empty result
    [first :: rest] of [querySelectorAll]. *)
Definition trapFocus (first : Element) (rest : list Element)
    (activeElement : option Element) (shiftKey : bool) : list Effect :=
  let firstElement := first in
  let lastElement := last rest first in
  if shiftKey && sameElement activeElement firstElement then
    [focus lastElement; event_preventDefault]
  else if negb shiftKey && sameElement activeElement lastElement then
    [focus firstElement; event_preventDefault]
  else [].

(** [handleKeyDown]: [focusable] is the result of [querySelectorAll] on
    [modalRef.current], [None] when [modalRef.current] is null. *)
Definition handleKeyDown (p : Modal.ModalProps) (focusable : option (list Element))
    (activeElement : option Element) (key : string) (shiftKey : bool)
    : list Effect :=
  if negb (Modal.isOpen p) then []
  else
    ((if Modal.closeOnEsc p && (key =? "Escape") then [call (Modal.onClose p)] else [])
     ++ (if key =? "Tab" then
           match focusable with
           | Some (first :: rest) => trapFocus first rest activeElement shiftKey
           | Some [] => []
           | None => []
           end
         else []))%list.

(** [handleBackdropClick]: [onCurrentTarget] is
    [event.target === event.currentTarget]. *)
Definition handleBackdropClick (p : Modal.ModalProps) (onCurrentTarget : bool)
    : list Effect :=
  if Modal.closeOnBackdropClick p && onCurrentTarget
  then [call (Modal.onClose p)] else [].

Definition handleKeyDown_fn (render : nat) := mkHandler "Modal.handleKeyDown" render.

(** The keyboard effect and its cleanup. *)
Definition effect (render : nat) (reg : list Listener) : list Listener :=
  addEventListener document "keydown" (handleKeyDown_fn render) reg.

Definition cleanup (render : nat) (reg : list Listener) : list Listener :=
  removeEventListener document "keydown" (handleKeyDown_fn render) reg.

(** Whether the component renders anything: [!mounted || !isOpen] gives
    [null]. *)
Definition renders (p : Modal.ModalProps) (mounted : bool) : bool :=
  negb (negb mounted || negb (Modal.isOpen p)).

(** [document.body.classList] under the calls of the focus effect. *)
Definition applyToBody (classList : list string) (c : Modal.DomCall) : list string :=
  match c with
  | Modal.focus _ => classList
  | Modal.body_classList_add cls =>
      if existsb (String.eqb cls) classList then classList
      else (classList ++ [cls])%list
  | Modal.body_classList_remove cls =>
      filter (fun x => negb (String.eqb cls x)) classList
  end.

End ModalEvents.

(* ================================================================== *)
(** * The vocabulary of the properties: scenario values, projections,
      lifecycle states *)

(** The twelve placements: a side, optionally with [-start] or [-end]. *)
Definition twelvePlacements : list string :=
  [ "top"; "top-start"; "top-end";
    "bottom"; "bottom-start"; "bottom-end";
    "left"; "left-start"; "left-end";
    "right"; "right-start"; "right-end" ].

Definition validPlacement (placement : string) : bool :=
  existsb (String.eqb placement) twelvePlacements.

(** The 800x600 viewport at the origin, not scrolled. *)
Definition viewport800x600 : Dom.Window := Dom.mkWindow 800 600 0 0.

(** [{ name: 'preventOverflow', options: { boundary: 'viewport' } }] *)
Definition preventOverflow : Popper.PopperModifier :=
  Popper.mkModifier "preventOverflow" (Some (Popper.mkOptions (Some "viewport"))).

(** An open Popper with the given anchor, placement, modifiers and offset,
    and the defaults for the rest. *)
Definition popperAt (anchor : Dom.DOMRect) (placement : string)
    (modifiers : list Popper.PopperModifier) (offset : Q * Q)
    : Popper.PopperProps :=
  {| Popper.referenceElement := Some (Dom.mkElement 1 anchor true true);
     Popper.children := "content";
     Popper.isOpen := true;
     Popper.placement := placement;
     Popper.modifiers := modifiers;
     Popper.usePortal := true;
     Popper.zIndex := 1000%Z;
     Popper.className := "";
     Popper.onClickOutside := None;
     Popper.offset := offset;
     Popper.matchWidth := false |}.

(** The effective placement a rendered Popper reports: its [data-placement]. *)
Definition placementUsed (styles_popper : string) (p : Popper.PopperProps)
    (popperStyles : Popper.PopperStyles) : option string :=
  option_map Popper.data_placement
    (Popper.renderedDiv (Popper.render styles_popper p popperStyles)).

(** The anchor of the flip example: top 580, height 20, against the bottom
    edge of the 800x600 viewport; the content is 120x100. *)
Definition anchorAtBottomEdge : Dom.DOMRect := Dom.mkRect 580 100 50 20.
Definition content120x100 : Dom.Element :=
  Dom.mkElement 2 (Dom.mkRect 0 0 120 100) true true.

Definition Popper_withPlacement (p : Popper.PopperProps) (placement : string)
    : Popper.PopperProps :=
  {| Popper.referenceElement := Popper.referenceElement p;
     Popper.children := Popper.children p;
     Popper.isOpen := Popper.isOpen p;
     Popper.placement := placement;
     Popper.modifiers := Popper.modifiers p;
     Popper.usePortal := Popper.usePortal p;
     Popper.zIndex := Popper.zIndex p;
     Popper.className := Popper.className p;
     Popper.onClickOutside := Popper.onClickOutside p;
     Popper.offset := Popper.offset p;
     Popper.matchWidth := Popper.matchWidth p |}.

Definition Popover_withPosition (p : Popover.PopoverProps) (position : string)
    : Popover.PopoverProps :=
  {| Popover.trigger := Popover.trigger p;
     Popover.content := Popover.content p;
     Popover.externalIsOpen := Popover.externalIsOpen p;
     Popover.onOpen := Popover.onOpen p;
     Popover.onClose := Popover.onClose p;
     Popover.position := position;
     Popover.closeOnClickOutside := Popover.closeOnClickOutside p;
     Popover.closeOnEsc := Popover.closeOnEsc p;
     Popover.closeOnScroll := Popover.closeOnScroll p;
     Popover.className := Popover.className p;
     Popover.contentClassName := Popover.contentClassName p;
     Popover.hasArrow := Popover.hasArrow p;
     Popover.offset := Popover.offset p;
     Popover.zIndex := Popover.zIndex p;
     Popover.controlled := Popover.controlled p |}.

(** What the Popper's viewport modifier establishes on the leading edges. *)
Definition leadingEdgesPadded (tl : Q * Q) : Prop := 8 <= fst tl /\ 8 <= snd tl.

(** The Popover of the examples: uncontrolled, default props, with the
    callbacks [onOpen] and [onClose] of the caller. *)
Definition onOpen_cb : Dom.Handler := Dom.mkHandler "onOpen" 0.
Definition onClose_cb : Dom.Handler := Dom.mkHandler "onClose" 0.

Definition popoverWithCallbacks : Popover.PopoverProps :=
  {| Popover.trigger := "trigger"; Popover.content := "content";
     Popover.externalIsOpen := None;
     Popover.onOpen := Some onOpen_cb; Popover.onClose := Some onClose_cb;
     Popover.position := "bottom";
     Popover.closeOnClickOutside := true; Popover.closeOnEsc := true;
     Popover.closeOnScroll := false;
     Popover.className := ""; Popover.contentClassName := "";
     Popover.hasArrow := true; Popover.offset := 8; Popover.zIndex := 10%Z;
     Popover.controlled := false |}.

Definition popoverOpen : Popover.PopoverState := Popover.mkState true.

(** The lifecycle states of the specification, and the edges of its chain
    [Closed -> Opening -> Open -> Closing -> Closed]. *)
Inductive OverlayState := Closed | Opening | Open | Closing.


(** The lifecycle state of a Popover: the code keeps one boolean. *)
Definition overlayState (p : Popover.PopoverProps) (st : Popover.PopoverState)
    : OverlayState :=
  if Popover.isOpen p st then Open else Closed.

(** The transitions a sequence of calls takes: state before, call, state
    after. *)
Fixpoint transitions (p : Popover.PopoverProps) (cs : list Popover.Call)
    (st : Popover.PopoverState)
    : list (OverlayState * Popover.Call * OverlayState) :=
  match cs with
  | [] => []
  | c :: cs' =>
      let st' := fst (Popover.step p c st) in
      (overlayState p st, c, overlayState p st') :: transitions p cs' st'
  end.


(** A button that had focus when the Modal opened and has since been
    removed from the document. *)
Definition detachedButton : Dom.Element :=
  Dom.mkElement 7 (Dom.mkRect 0 0 0 0) false true.

Definition modalPanel : Dom.Element :=
  Dom.mkElement 8 (Dom.mkRect 100 200 400 300) true true.

Definition onChange_cb : Dom.Handler := Dom.mkHandler "onChange" 0.

(** A slider from 0 to 100 in steps of 1 that reports changes. *)
Definition sliderProps (range : bool) : Slider.SliderProps :=
  {| Slider.min := 0; Slider.max := 100; Slider.step := 1;
     Slider.defaultValue := if range then Slider.pair 20 80 else Slider.single 20;
     Slider.value := None; Slider.disabled := false; Slider.showMarks := false;
     Slider.range := range;
     Slider.onChange := Some onChange_cb;
     Slider.onDragStart := None; Slider.onDragEnd := None;
     Slider.className := ""; Slider.trackClassName := "";
     Slider.thumbClassName := "" |}.

(** Its track: 200px wide, at the left edge. *)
Definition track200 : Dom.Element :=
  Dom.mkElement 3 (Dom.mkRect 0 0 200 4) true true.

(** The listeners a Popover render can register. *)
Definition popoverListeners (render : nat) : list Dom.Listener :=
  [ Dom.mkListener Dom.window "resize" (Popover.updatePosition_fn render);
    Dom.mkListener Dom.window "scroll" (Popover.handleClose_fn render);
    Dom.mkListener Dom.document "mousedown" (Popover.handleClickOutside_fn render);
    Dom.mkListener Dom.document "keydown" (Popover.handleEscKey_fn render) ].

(** No listener of any Popover render. *)
Definition noPopoverListener (x : Dom.Listener) : Prop :=
  forall render, ~ In x (popoverListeners render).

(** What holds of a mounted Popover between any two events: the registry is
    the one it was mounted on, followed by listeners of the effect in force,
    and by none when the Popover is closed. *)
Definition listenersInvariant (p : Popover.PopoverProps) (reg0 : list Dom.Listener)
    (m : PopoverLifecycle.Mounted) : Prop :=
  exists ys,
    PopoverLifecycle.listeners m = (reg0 ++ ys)%list
    /\ Forall (fun y => In y (popoverListeners (PopoverLifecycle.effectOf m))) ys
    /\ (Popover.isOpen p (PopoverLifecycle.state m) = false -> ys = []).

Definition onClickAway_cb : Dom.Handler := Dom.mkHandler "onClickAway" 0.

(** Several listeners added, or removed, one after the other. *)
Definition addAll (ls : list Dom.Listener) (reg : list Dom.Listener)
    : list Dom.Listener :=
  fold_left (fun reg l =>
               Dom.addEventListener (Dom.target l) (Dom.type l) (Dom.callback l) reg)
            ls reg.

Definition removeAll (ls : list Dom.Listener) (reg : list Dom.Listener)
    : list Dom.Listener :=
  fold_left (fun reg l =>
               Dom.removeEventListener (Dom.target l) (Dom.type l) (Dom.callback l) reg)
            ls reg.

(** The two listeners of a thumb drag. *)
Definition dragListeners (start : nat) : list Dom.Listener :=
  [ Dom.mkListener Dom.document "mousemove" (Slider.handleDrag_fn start);
    Dom.mkListener Dom.document "mouseup" (Slider.handleDragEnd_fn start) ].

(** A pair a range slider can show: ordered, and inside the slider. *)
Definition validPair (p : Slider.SliderProps) (lo hi : Q) : Prop :=
  Slider.min p <= lo /\ lo <= hi /\ hi <= Slider.max p.

(** Two boxes share some area. *)
Definition overlap (a b : Dom.DOMRect) : Prop :=
  Dom.left a < Dom.right b /\ Dom.left b < Dom.right a
  /\ Dom.top a < Dom.bottom b /\ Dom.top b < Dom.bottom a.

(** A box of the size of [content] with its top left corner at
    [(top, left)]. *)
Definition boxAt (tl : Q * Q) (content : Dom.DOMRect) : Dom.DOMRect :=
  Dom.mkRect (fst tl) (snd tl) (Dom.width content) (Dom.height content).

(** A placement, taken apart: the side of the anchor the content goes to,
    and how it is aligned along that side. *)
Inductive Side := side_top | side_right | side_bottom | side_left.
Inductive Alignment := align_center | align_start | align_end.

Definition sideName (s : Side) : string :=
  match s with
  | side_top => "top" | side_right => "right"
  | side_bottom => "bottom" | side_left => "left"
  end.

Definition placementName (s : Side) (a : Alignment) : string :=
  sideName s ++ match a with
                | align_center => ""
                | align_start => "-start"
                | align_end => "-end"
                end.

(** The coordinate across the side: the content's edge flush with the
    anchor's, [offset] further out. *)
Definition mainAxis (s : Side) (anchor content : Dom.DOMRect) (offset : Q) : Q :=
  match s with
  | side_top => Dom.top anchor - Dom.height content - offset
  | side_bottom => Dom.bottom anchor + offset
  | side_left => Dom.left anchor - Dom.width content - offset
  | side_right => Dom.right anchor + offset
  end.

(** The coordinate along the side: leading edges aligned, midpoints
    aligned, or trailing edges aligned. *)
Definition crossAxis (s : Side) (a : Alignment) (anchor content : Dom.DOMRect) : Q :=
  match s with
  | side_top | side_bottom =>
      match a with
      | align_start => Dom.left anchor
      | align_center => Dom.left anchor + Dom.width anchor / 2 - Dom.width content / 2
      | align_end => Dom.right anchor - Dom.width content
      end
  | side_left | side_right =>
      match a with
      | align_start => Dom.top anchor
      | align_center => Dom.top anchor + Dom.height anchor / 2 - Dom.height content / 2
      | align_end => Dom.bottom anchor - Dom.height content
      end
  end.

(** The listeners a Popper render can register. *)
Definition popperListeners (render : nat) : list Dom.Listener :=
  [ Dom.mkListener Dom.window "resize" (PopperEvents.updatePosition_fn render);
    Dom.mkListener Dom.window "scroll" (PopperEvents.updatePosition_fn render);
    Dom.mkListener Dom.document "mousedown" (PopperEvents.handleClickOutside_fn render) ].

(** The inset of the arrow on the edge of the content that faces the
    trigger: the bottom edge for content above the trigger, and so on. *)
Definition facingInset (s : Side) (arrow : Popover.ArrowStyle) : option string :=
  match s with
  | side_top => Popover.a_bottom arrow
  | side_bottom => Popover.a_top arrow
  | side_left => Popover.a_right arrow
  | side_right => Popover.a_left arrow
  end.

(** No callback [h] directly after another [h] in a log. *)
Fixpoint neverTwiceInARow (h : Dom.Handler) (log : list Dom.Handler) : Prop :=
  match log with
  | a :: (b :: _) as rest => ~ (a = h /\ b = h) /\ neverTwiceInARow h rest
  | _ => True
  end.

(** The listeners a Drawer render can register. *)
Definition drawerListeners (render : nat) : list Dom.Listener :=
  [ Dom.mkListener Dom.document "mousedown" (Drawer.handleClickOutside_fn render);
    Dom.mkListener Dom.document "keydown" (Drawer.handleEscapeKey_fn render) ].

(** What a user can do to a Drawer: press a mouse button somewhere in the
    document ([inside] the drawer or not), press a key, click the backdrop,
    click the close button. *)
Inductive DrawerEvent :=
| drawer_mousedown (drawerRef : option Dom.Element) (inside : bool)
| drawer_keydown (key : string)
| drawer_clickBackdrop
| drawer_clickCloseButton.

(** The callbacks a Drawer invokes on an event: a document listener runs
    only if the effect registered it, a button only if it is rendered. *)
Definition drawerReacts (styles : string -> option string) (p : Drawer.DrawerProps)
    (ev : DrawerEvent) : list Dom.Handler :=
  match ev with
  | drawer_mousedown drawerRef inside =>
      if snd (Drawer.effect 1 p []) then Drawer.handleClickOutside p drawerRef inside
      else []
  | drawer_keydown key =>
      if snd (Drawer.effect 1 p []) then Drawer.handleEscapeKey p key else []
  | drawer_clickBackdrop =>
      if Drawer.backdrop (Drawer.render styles p)
      then Drawer.optionalCall (Drawer.onClose p) else []
  | drawer_clickCloseButton =>
      if Drawer.closeButton (Drawer.panel (Drawer.render styles p))
      then Drawer.optionalCall (Drawer.onClose p) else []
  end.

(** What is still to come from an Alert: one notification while it is
    visible and can be dismissed by hand, one while its timeout is
    pending. *)
Definition alertOwnPending (m : Alert.Mounted) : bool :=
  match Alert.timer m with
  | Some id => Timers.isPending id (Alert.timers m)
  | None => false
  end.

(** Whether an Alert renders its action button: [actionText && onAction]. *)
Definition alertActionButton (p : Alert.AlertProps) : bool :=
  match Alert.actionText p, Alert.onAction p with
  | Some text, Some _ => negb (text =? "")
  | _, _ => false
  end.

Definition alertBudget (m : Alert.Mounted) : nat :=
  (if Alert.visible m then 1 else 0) + (if alertOwnPending m then 1 else 0).

(** What holds of a Tooltip between any two events: at most one timeout is
    pending, and it is the one [timerRef] holds. *)
Definition oneTimer (st : Tooltip.TooltipState) : Prop :=
  Timers.pending (Tooltip.timers st) = []
  \/ exists id, Timers.pending (Tooltip.timers st) = [id]
                /\ Tooltip.timerRef st = Some id.

(** [document.body.classList.contains(cls)] after some calls of the focus
    effect. *)
Definition bodyHasClass (cls : string) (calls : list Modal.DomCall)
    (classList : list string) : bool :=
  existsb (String.eqb cls) (fold_left ModalEvents.applyToBody calls classList).

(** A ClickAwayListener whose effect has run [n] times, each run but the
    last followed by its cleanup, and then the last cleanup: renders 1 to
    [n]. *)
Fixpoint remounts (n : nat) (p : ClickAwayListener.ClickAwayListenerProps)
    (reg : list Dom.Listener) : list Dom.Listener :=
  match n with
  | O => reg
  | S k => ClickAwayListener.mountThenCleanup (S k) p (remounts k p reg)
  end.

(* ================================================================== *)
(** * Properties *)

(** ** Popper: position and reported placement *)

Lemma applyModifier_other (win : Dom.Window) (r : Dom.DOMRect) (tl : Q * Q)
    (m : Popper.PopperModifier) :
  Popper.isPreventOverflow m = false -> Popper.applyModifier win r tl m = tl.
Proof. intros H. unfold Popper.applyModifier. now rewrite H. Qed.

(** A position that [preventOverflow] leaves alone is left alone by every
    list of modifiers. *)
Lemma modifiers_fixpoint (win : Dom.Window) (r : Dom.DOMRect) (tl : Q * Q) :
  Popper.applyModifier win r tl preventOverflow = tl ->
  forall ms, fold_left (Popper.applyModifier win r) ms tl = tl.
Proof.
  intros Hfix ms. induction ms as [|m ms IH]; simpl; [reflexivity|].
  assert (Hm : Popper.applyModifier win r tl m = tl).
  { destruct (Popper.isPreventOverflow m) eqn:E.
    - unfold Popper.applyModifier in *. rewrite E. exact Hfix.
    - now apply applyModifier_other. }
  now rewrite Hm.
Qed.

(** C3. Anchor [{top:100, left:100, width:50, height:20}], content 120x40,
    placement [bottom-start], offset [[0, 8]], the 800x600 viewport: the
    stored position is top 128px, left 100px, and the rendered element
    reports [bottom-start]; this for every list of modifiers, the
    viewport-padding one included, and wherever the content was measured. *)
Theorem C3_bottom_start_scenario :
  forall (contentTop contentLeft : Q) (ms : list Popper.PopperModifier)
         (st : Popper.PopperStyles) (cls : string),
    let p := popperAt (Dom.mkRect 100 100 50 20) "bottom-start" ms (0, 8) in
    let content := Dom.mkElement 2 (Dom.mkRect contentTop contentLeft 120 40) true true in
    Popper.updatePosition p (Some content) viewport800x600
    = Some {| Popper.s_position := "absolute";
              Popper.s_top := Dom.px 128;
              Popper.s_left := Dom.px 100;
              Popper.s_transform := "translate3d(0, 0, 0)";
              Popper.s_width := Dom.literal "auto" |}
    /\ placementUsed cls p st = Some "bottom-start".
Proof.
  intros contentTop contentLeft ms st cls p content. split; [|reflexivity].
  unfold Popper.updatePosition, p, popperAt, content. cbn -[fold_left Qplus Qminus Qdiv].
  rewrite (modifiers_fixpoint viewport800x600 _ (128, 100)).
  - reflexivity.
  - reflexivity.
Qed.






(** C9. The rendered Popper carries no inline style, and what is rendered
    does not depend on anything the position computation reads or stores:
    two Poppers that agree on [isOpen], [usePortal], [placement],
    [className] and [children] render the same, whatever their reference
    element, popper element, modifiers, offset, window and stored styles. *)
Theorem C9_rendered_popper_ignores_position :
  forall (cls : string) (p1 p2 : Popper.PopperProps)
         (el1 el2 : option Dom.Element) (w1 w2 : Dom.Window)
         (s1 s2 : Popper.PopperStyles),
    Popper.isOpen p1 = Popper.isOpen p2 ->
    Popper.usePortal p1 = Popper.usePortal p2 ->
    Popper.placement p1 = Popper.placement p2 ->
    Popper.className p1 = Popper.className p2 ->
    Popper.children p1 = Popper.children p2 ->
    Popper.render cls p1 (Popper.reposition p1 el1 w1 s1)
    = Popper.render cls p2 (Popper.reposition p2 el2 w2 s2)
    /\ option_map Popper.div_style
         (Popper.renderedDiv (Popper.render cls p1 (Popper.reposition p1 el1 w1 s1)))
       = (if Popper.isOpen p1 then Some None else None)
    /\ placementUsed cls p1 (Popper.reposition p1 el1 w1 s1)
       = (if Popper.isOpen p1 then Some (Popper.placement p1) else None).
Proof.
  intros cls p1 p2 el1 el2 w1 w2 s1 s2 Ho Hp Hpl Hc Hch.
  unfold placementUsed, Popper.render, Popper.popperContent.
  rewrite <- Ho, <- Hp, <- Hpl, <- Hc, <- Hch.
  destruct (Popper.isOpen p1); simpl; [|repeat split; reflexivity].
  destruct (Popper.usePortal p1); repeat split; reflexivity.
Qed.

(** C9, at an instance: the same open Popper before any measurement and
    after one at the flip example, and against a second Popper anchored and
    offset elsewhere. *)
Lemma C9_rendered_popper_ignores_position_witness :
  Popper.render "popper"
    (popperAt anchorAtBottomEdge "bottom" [preventOverflow] (0, 8))
    (Popper.reposition
       (popperAt anchorAtBottomEdge "bottom" [preventOverflow] (0, 8))
       (Some content120x100) viewport800x600 Popper.initialStyles)
  = Popper.render "popper"
      (popperAt (Dom.mkRect 100 100 50 20) "bottom" [] (4, 16))
      (Popper.reposition
         (popperAt (Dom.mkRect 100 100 50 20) "bottom" [] (4, 16))
         None viewport800x600 Popper.initialStyles).
Proof.
  apply (C9_rendered_popper_ignores_position "popper"
           (popperAt anchorAtBottomEdge "bottom" [preventOverflow] (0, 8))
           (popperAt (Dom.mkRect 100 100 50 20) "bottom" [] (4, 16))
           (Some content120x100) None viewport800x600 viewport800x600
           Popper.initialStyles Popper.initialStyles);
    reflexivity.
Defined.

(** ** Unknown placements *)

(** Every comparison of the two [switch]es fails on an unknown placement. *)
Lemma unknown_placement_tests (placement : string) :
  validPlacement placement = false ->
  Forall (fun known => (placement =? known)%string = false) twelvePlacements.
Proof.
  unfold validPlacement. intros H. apply Forall_forall. intros known Hin.
  destruct (placement =? known)%string eqn:E; [|reflexivity].
  assert (Hex : existsb (String.eqb placement) twelvePlacements = true)
    by (apply existsb_exists; exists known; split; assumption).
  congruence.
Qed.

Ltac use_unknown H :=
  pose proof (unknown_placement_tests _ H) as Htests;
  unfold twelvePlacements in Htests;
  repeat match goal with
         | Hf : Forall _ (_ :: _) |- _ => inversion Hf; subst; clear Hf
         end.

Lemma Popper_unknown_placement (placement : string) (refRect popperRect : Dom.DOMRect)
    (offsetX offsetY : Q) :
  validPlacement placement = false ->
  Popper.placementPosition placement refRect popperRect offsetX offsetY
  = Popper.placementPosition "bottom-start" refRect popperRect offsetX offsetY.
Proof.
  intros H. use_unknown H. unfold Popper.placementPosition.
  repeat match goal with
         | Hq : (placement =? _)%string = false |- _ => rewrite Hq; clear Hq
         end.
  reflexivity.
Qed.

Lemma Popover_unknown_position (position : string) (triggerRect contentRect : Dom.DOMRect)
    (offset : Q) :
  validPlacement position = false ->
  Popover.positionOf position triggerRect contentRect offset
  = Popover.positionOf "bottom" triggerRect contentRect offset.
Proof.
  intros H. use_unknown H. unfold Popover.positionOf.
  repeat match goal with
         | Hq : (position =? _)%string = false |- _ => rewrite Hq; clear Hq
         end.
  reflexivity.
Qed.

(** C7, as stated, fails: [diagonal] is none of the twelve placements, and
    the Popper positions it without complaint, exactly where [bottom-start]
    goes (the scenario of C3: top 128, left 100). *)
Lemma C7_counterexample :
  validPlacement "diagonal" = false
  /\ Popper.updatePosition
       (popperAt (Dom.mkRect 100 100 50 20) "diagonal" [] (0, 8))
       (Some (Dom.mkElement 2 (Dom.mkRect 0 0 120 40) true true))
       viewport800x600
     = Some {| Popper.s_position := "absolute";
               Popper.s_top := Dom.px 128;
               Popper.s_left := Dom.px 100;
               Popper.s_transform := "translate3d(0, 0, 0)";
               Popper.s_width := Dom.literal "auto" |}
  /\ placementUsed "popper"
       (popperAt (Dom.mkRect 100 100 50 20) "diagonal" [] (0, 8))
       Popper.initialStyles
     = Some "diagonal".
Proof. repeat split; reflexivity. Qed.

(** C7, amended. A placement outside the twelve raises nothing: both
    [switch]es take their [default] branch.  The Popper stores the position
    of [bottom-start] (and still reports the unknown value as its
    placement); the Popover writes the top and left of [bottom]. *)
Theorem C7_unknown_placement_defaults :
  forall (placement : string),
    validPlacement placement = false ->
    (forall (p : Popper.PopperProps) (popperElement : option Dom.Element)
            (win : Dom.Window),
        Popper.updatePosition (Popper_withPlacement p placement) popperElement win
        = Popper.updatePosition (Popper_withPlacement p "bottom-start") popperElement win)
    /\ (forall (anchor : Dom.DOMRect) (ms : list Popper.PopperModifier)
               (off : Q * Q) (popper : Dom.Element) (win : Dom.Window),
           Popper.updatePosition (popperAt anchor placement ms off) (Some popper) win
           <> None)
    /\ (forall (cls : string) (p : Popper.PopperProps) (st : Popper.PopperStyles),
           placementUsed cls (Popper_withPlacement p placement) st
           = if Popper.isOpen p then Some placement else None)
    /\ (forall (p : Popover.PopoverProps) (st : Popover.PopoverState)
               (triggerRef contentRef : option Dom.Element)
               (arrow : option Popover.ArrowStyle) (win : Dom.Window),
           let r := Popover.updatePosition (Popover_withPosition p placement)
                      st triggerRef contentRef arrow win in
           let r' := Popover.updatePosition (Popover_withPosition p "bottom")
                       st triggerRef contentRef arrow win in
           option_map Popover.style_top r = option_map Popover.style_top r'
           /\ option_map Popover.style_left r = option_map Popover.style_left r').
Proof.
  intros placement H. repeat split.
  - intros p popperElement win. unfold Popper.updatePosition. simpl.
    destruct (Popper.referenceElement p); [|reflexivity].
    destruct popperElement; [|reflexivity].
    destruct (Popper.offset p) as [offsetX offsetY].
    now rewrite (Popper_unknown_placement placement _ _ _ _ H).
  - intros anchor ms [offsetX offsetY] popper win.
    unfold Popper.updatePosition. simpl.
    destruct (fold_left _ _ _). discriminate.
  - intros cls p st. unfold placementUsed, Popper.render, Popper.popperContent.
    simpl. destruct (Popper.isOpen p); simpl; [|reflexivity].
    destruct (Popper.usePortal p); reflexivity.
  - unfold Popover.updatePosition, Popover.isOpen.
    cbn [Popover_withPosition Popover.position Popover.controlled
         Popover.externalIsOpen Popover.offset Popover.hasArrow].
    destruct triggerRef; [|reflexivity]. destruct contentRef; [|reflexivity].
    rewrite (Popover_unknown_position placement _ _ _ H).
    destruct (negb _); [reflexivity|].
    destruct (Popover.positionOf _ _ _ _). reflexivity.
  - unfold Popover.updatePosition, Popover.isOpen.
    cbn [Popover_withPosition Popover.position Popover.controlled
         Popover.externalIsOpen Popover.offset Popover.hasArrow].
    destruct triggerRef; [|reflexivity]. destruct contentRef; [|reflexivity].
    rewrite (Popover_unknown_position placement _ _ _ H).
    destruct (negb _); [reflexivity|].
    destruct (Popover.positionOf _ _ _ _). reflexivity.
Qed.

(** C7, at [diagonal]. *)
Lemma C7_unknown_placement_defaults_witness :
  validPlacement "diagonal" = false
  /\ Popper.updatePosition
       (Popper_withPlacement (popperAt (Dom.mkRect 100 100 50 20) "bottom" [] (0, 8))
          "diagonal")
       (Some content120x100) viewport800x600
     = Popper.updatePosition
         (Popper_withPlacement (popperAt (Dom.mkRect 100 100 50 20) "bottom" [] (0, 8))
            "bottom-start")
         (Some content120x100) viewport800x600.
Proof.
  split; [reflexivity|].
  apply (C7_unknown_placement_defaults "diagonal"). reflexivity.
Defined.

(** ** Containment in the viewport *)

(** The Popover's clamp, on one axis: content that fits between the two
    10px margins ends up between them. *)
Lemma keepInViewport_contained (coordinate size viewportSize : Q) :
  size <= viewportSize - 20 ->
  10 <= Popover.keepInViewport coordinate size viewportSize
  /\ Popover.keepInViewport coordinate size viewportSize + size <= viewportSize - 10.
Proof.
  intros Hfit. unfold Popover.keepInViewport.
  destruct (Qlt_le_dec coordinate 10) as [Hlow|Hlow].
  - split; lra.
  - destruct (Qlt_le_dec (viewportSize - 10) (coordinate + size)) as [Hhigh|Hhigh];
      split; lra.
Qed.

(** The clamp moves a coordinate only when the box leaves the margins. *)
Lemma keepInViewport_inside (coordinate size viewportSize : Q) :
  10 <= coordinate -> coordinate + size <= viewportSize - 10 ->
  Popover.keepInViewport coordinate size viewportSize = coordinate.
Proof.
  intros Hlow Hhigh. unfold Popover.keepInViewport.
  destruct (Qlt_le_dec coordinate 10); [lra|].
  destruct (Qlt_le_dec (viewportSize - 10) (coordinate + size)); [lra|reflexivity].
Qed.

Lemma Popover_contained (p : Popover.PopoverProps) (st : Popover.PopoverState)
    (triggerElement contentElement : Dom.Element)
    (arrow : option Popover.ArrowStyle) (win : Dom.Window) :
  let contentRect := Dom.getBoundingClientRect contentElement in
  Dom.width contentRect <= Dom.innerWidth win - 20 ->
  Dom.height contentRect <= Dom.innerHeight win - 20 ->
  Popover.isOpen p st = true ->
  exists r,
    Popover.updatePosition p st (Some triggerElement) (Some contentElement) arrow win
    = Some r
    /\ 10 <= Popover.style_left r
    /\ Popover.style_left r + Dom.width contentRect <= Dom.innerWidth win - 10
    /\ 10 <= Popover.style_top r
    /\ Popover.style_top r + Dom.height contentRect <= Dom.innerHeight win - 10.
Proof.
  intros contentRect Hw Hh Hopen. unfold Popover.updatePosition.
  rewrite Hopen. cbn [negb].
  destruct (Popover.positionOf _ _ _ _) as [t l].
  eexists. split; [reflexivity|]. cbn [Popover.style_left Popover.style_top].
  pose proof (keepInViewport_contained l _ _ Hw) as [? ?].
  pose proof (keepInViewport_contained t _ _ Hh) as [? ?].
  fold contentRect. repeat split; assumption.
Qed.

Lemma preventOverflow_establishes (win : Dom.Window) (r : Dom.DOMRect) (tl : Q * Q)
    (m : Popper.PopperModifier) :
  Popper.isPreventOverflow m = true ->
  leadingEdgesPadded (Popper.applyModifier win r tl m).
Proof.
  intros Hm. unfold Popper.applyModifier. rewrite Hm. destruct tl as [t l].
  unfold leadingEdgesPadded. cbv zeta. cbn [fst snd].
  split.
  - destruct (Qlt_le_dec (Dom.innerHeight win) (t + Dom.height r));
      match goal with |- context [Qlt_le_dec ?a 8] => destruct (Qlt_le_dec a 8) end;
      lra.
  - destruct (Qlt_le_dec (Dom.innerWidth win) (l + Dom.width r));
      match goal with |- context [Qlt_le_dec ?a 8] => destruct (Qlt_le_dec a 8) end;
      lra.
Qed.

Lemma modifiers_preserve (win : Dom.Window) (r : Dom.DOMRect)
    (ms : list Popper.PopperModifier) :
  forall tl, leadingEdgesPadded tl ->
             leadingEdgesPadded (fold_left (Popper.applyModifier win r) ms tl).
Proof.
  induction ms as [|m ms IH]; intros tl Htl; simpl; [assumption|].
  apply IH. destruct (Popper.isPreventOverflow m) eqn:E.
  - now apply preventOverflow_establishes.
  - now rewrite applyModifier_other.
Qed.

Lemma modifiers_establish (win : Dom.Window) (r : Dom.DOMRect)
    (ms : list Popper.PopperModifier) :
  existsb Popper.isPreventOverflow ms = true ->
  forall tl, leadingEdgesPadded (fold_left (Popper.applyModifier win r) ms tl).
Proof.
  induction ms as [|m ms IH]; simpl; [discriminate|].
  intros H tl. destruct (Popper.isPreventOverflow m) eqn:E.
  - apply modifiers_preserve. now apply preventOverflow_establishes.
  - simpl in H. rewrite applyModifier_other by assumption. now apply IH.
Qed.

Lemma Popper_leading_edges (p : Popper.PopperProps) (reference popper : Dom.Element)
    (win : Dom.Window) :
  Popper.referenceElement p = Some reference ->
  existsb Popper.isPreventOverflow (Popper.modifiers p) = true ->
  exists s t l,
    Popper.updatePosition p (Some popper) win = Some s
    /\ Popper.s_top s = Dom.px t /\ Popper.s_left s = Dom.px l
    /\ 8 + Dom.scrollY win <= t /\ 8 + Dom.scrollX win <= l.
Proof.
  intros Href Hmod. unfold Popper.updatePosition. rewrite Href.
  destruct (Popper.offset p) as [offsetX offsetY].
  pose proof (modifiers_establish win (Dom.getBoundingClientRect popper) _ Hmod
                (Popper.placementPosition (Popper.placement p)
                   (Dom.getBoundingClientRect reference)
                   (Dom.getBoundingClientRect popper) offsetX offsetY)) as [Ht Hl].
  destruct (fold_left _ _ _) as [t l]. cbn [fst snd] in Ht, Hl.
  eexists. exists (t + Dom.scrollY win), (l + Dom.scrollX win).
  repeat split; lra.
Qed.

(** Without a modifier nothing is clamped. *)
Lemma Popper_unclamped (p : Popper.PopperProps) (reference popper : Dom.Element)
    (win : Dom.Window) :
  Popper.referenceElement p = Some reference ->
  Popper.modifiers p = [] ->
  exists s,
    Popper.updatePosition p (Some popper) win = Some s
    /\ Popper.s_top s
       = Dom.px (fst (Popper.placementPosition (Popper.placement p)
                        (Dom.getBoundingClientRect reference)
                        (Dom.getBoundingClientRect popper)
                        (fst (Popper.offset p)) (snd (Popper.offset p)))
                 + Dom.scrollY win)
    /\ Popper.s_left s
       = Dom.px (snd (Popper.placementPosition (Popper.placement p)
                        (Dom.getBoundingClientRect reference)
                        (Dom.getBoundingClientRect popper)
                        (fst (Popper.offset p)) (snd (Popper.offset p)))
                 + Dom.scrollX win).
Proof.
  intros Href Hmod. unfold Popper.updatePosition. rewrite Href, Hmod.
  destruct (Popper.offset p) as [offsetX offsetY]. cbn [fold_left fst snd].
  destruct (Popper.placementPosition _ _ _ _ _) as [t l].
  eexists. repeat split; reflexivity.
Qed.

(** C4, as stated, fails: a Popper with its default (empty) list of
    modifiers, anchored at left 750 in the 800x600 viewport with 120x40
    content (which fits), is stored at left 750: its right edge, 870, is
    beyond [800 - 8]. *)
Lemma C4_counterexample :
  let p := popperAt (Dom.mkRect 100 750 50 20) "bottom-start" [] (0, 8) in
  let content := Dom.mkElement 2 (Dom.mkRect 0 0 120 40) true true in
  Popper.modifiers p = Popper.modifiers (Popper.defaultProps None "")
  /\ 120 <= 800 - 2 * 8
  /\ Popper.updatePosition p (Some content) viewport800x600
     = Some {| Popper.s_position := "absolute";
               Popper.s_top := Dom.px 128;
               Popper.s_left := Dom.px 750;
               Popper.s_transform := "translate3d(0, 0, 0)";
               Popper.s_width := Dom.literal "auto" |}
  /\ ~ (750 + 120 <= 800 - 8).
Proof.
  cbv zeta. repeat split; try reflexivity; lra.
Qed.

(** C4, amended. The Popover keeps content that fits between its fixed 10px
    margins inside them, on both axes and for every position.  The Popper
    clamps only under a [preventOverflow] modifier bound to the viewport
    (none by default): then its top and left, before the scroll offsets are
    added, are at least 8; without modifiers the stored position is the
    unclamped one of the placement. *)
Theorem C4_containment_amended :
  forall (p : Popover.PopoverProps) (st : Popover.PopoverState)
         (triggerElement contentElement : Dom.Element)
         (arrow : option Popover.ArrowStyle) (win : Dom.Window)
         (pp : Popper.PopperProps) (reference popper : Dom.Element),
    Dom.width (Dom.getBoundingClientRect contentElement) <= Dom.innerWidth win - 20 ->
    Dom.height (Dom.getBoundingClientRect contentElement) <= Dom.innerHeight win - 20 ->
    Popover.isOpen p st = true ->
    Popper.referenceElement pp = Some reference ->
    (exists r,
        Popover.updatePosition p st (Some triggerElement) (Some contentElement) arrow win
        = Some r
        /\ 10 <= Popover.style_left r
        /\ Popover.style_left r + Dom.width (Dom.getBoundingClientRect contentElement)
           <= Dom.innerWidth win - 10
        /\ 10 <= Popover.style_top r
        /\ Popover.style_top r + Dom.height (Dom.getBoundingClientRect contentElement)
           <= Dom.innerHeight win - 10)
    /\ (existsb Popper.isPreventOverflow (Popper.modifiers pp) = true ->
        exists s t l,
          Popper.updatePosition pp (Some popper) win = Some s
          /\ Popper.s_top s = Dom.px t /\ Popper.s_left s = Dom.px l
          /\ 8 + Dom.scrollY win <= t /\ 8 + Dom.scrollX win <= l)
    /\ (Popper.modifiers pp = [] ->
        exists s,
          Popper.updatePosition pp (Some popper) win = Some s
          /\ Popper.s_top s
             = Dom.px (fst (Popper.placementPosition (Popper.placement pp)
                              (Dom.getBoundingClientRect reference)
                              (Dom.getBoundingClientRect popper)
                              (fst (Popper.offset pp)) (snd (Popper.offset pp)))
                       + Dom.scrollY win)
          /\ Popper.s_left s
             = Dom.px (snd (Popper.placementPosition (Popper.placement pp)
                              (Dom.getBoundingClientRect reference)
                              (Dom.getBoundingClientRect popper)
                              (fst (Popper.offset pp)) (snd (Popper.offset pp)))
                       + Dom.scrollX win)).
Proof.
  intros p st triggerElement contentElement arrow win pp reference popper
         Hw Hh Hopen Href.
  split; [|split].
  - now apply Popover_contained.
  - intros Hmod. now apply Popper_leading_edges with (reference := reference).
  - intros Hmod. now apply Popper_unclamped.
Qed.

(** C4, at an instance: an open Popover whose trigger sits at left 750 and
    whose 120x40 content would reach 870, and a Popper with the viewport
    modifier on the same anchor. *)
Lemma C4_containment_amended_witness :
  (120 <= 800 - 20 /\ 40 <= 600 - 20)
  /\ exists r,
      Popover.updatePosition popoverWithCallbacks popoverOpen
        (Some (Dom.mkElement 1 (Dom.mkRect 100 750 50 20) true true))
        (Some (Dom.mkElement 2 (Dom.mkRect 0 0 120 40) true true))
        None viewport800x600
      = Some r
      /\ 10 <= Popover.style_left r
      /\ Popover.style_left r + 120 <= 800 - 10
      /\ 10 <= Popover.style_top r
      /\ Popover.style_top r + 40 <= 600 - 10.
Proof.
  split; [split; lra|].
  apply (C4_containment_amended popoverWithCallbacks popoverOpen
           (Dom.mkElement 1 (Dom.mkRect 100 750 50 20) true true)
           (Dom.mkElement 2 (Dom.mkRect 0 0 120 40) true true)
           None viewport800x600
           (popperAt (Dom.mkRect 100 750 50 20) "bottom-start" [preventOverflow] (0, 8))
           (Dom.mkElement 1 (Dom.mkRect 100 750 50 20) true true)
           (Dom.mkElement 2 (Dom.mkRect 0 0 120 40) true true));
    [cbn; lra | cbn; lra | reflexivity | reflexivity].
Defined.

(** The Popper's viewport modifier tests the trailing edges against the
    viewport itself: a box ending at 796 of 800 is left where it is. *)
Example Popper_trailing_edge_at_796 :
  option_map Popper.s_left
    (Popper.updatePosition
       (popperAt (Dom.mkRect 100 700 50 20) "bottom-start" [preventOverflow] (0, 8))
       (Some (Dom.mkElement 2 (Dom.mkRect 0 0 96 40) true true))
       viewport800x600)
  = Some (Dom.px 700).
Proof. reflexivity. Qed.

(** ** Popover: closing and the open flag *)

(** C5, as stated, fails: on an open Popover the second of two [close]
    calls invokes [onClose] again, and [close] on a closed Popover invokes
    it too. *)
Lemma C5_counterexample :
  snd (Popover.run popoverWithCallbacks [Popover.close; Popover.close] popoverOpen)
  = [onClose_cb; onClose_cb]
  /\ snd (Popover.run popoverWithCallbacks [Popover.close] popoverOpen)
     = [onClose_cb]
  /\ Popover.handleClose popoverWithCallbacks Popover.initialState
     = (Popover.initialState, [onClose_cb]).
Proof. repeat split; reflexivity. Qed.

(** C5, amended. Closing twice leaves the Popover in the state closing once
    leaves it in, and an uncontrolled Popover is then closed; but every call
    of [handleClose] invokes [onClose] when the caller supplied one, the
    second call and a call on a closed Popover included. *)
Theorem C5_close_twice :
  forall (p : Popover.PopoverProps) (st : Popover.PopoverState),
    let once := Popover.handleClose p st in
    let twice := Popover.handleClose p (fst once) in
    fst twice = fst once
    /\ Popover.isOpen p (fst twice) = Popover.isOpen p (fst once)
    /\ (if Popover.controlled p
        then fst once = st
        else Popover.isOpen p (fst once) = false)
    /\ snd once = Popover.optionalCall (Popover.onClose p)
    /\ snd twice = Popover.optionalCall (Popover.onClose p)
    /\ snd (Popover.run p [Popover.close; Popover.close] st)
       = (Popover.optionalCall (Popover.onClose p)
          ++ Popover.optionalCall (Popover.onClose p))%list /\
    forall h, Popover.onClose p = Some h ->
              snd (Popover.run p [Popover.close; Popover.close] st) = [h; h].
Proof.
  intros p st. cbv zeta. unfold Popover.run, Popover.step, Popover.handleClose, Popover.isOpen.
  destruct (Popover.controlled p) eqn:Hc; cbn [fst snd]; rewrite ?Hc; cbn [fst snd];
    rewrite ?app_nil_r; repeat split; try reflexivity;
    intros h Hh; rewrite Hh; reflexivity.
Qed.

(** The transitions agree with the states [run] visits. *)
Lemma transitions_run (p : Popover.PopoverProps) (cs : list Popover.Call) :
  forall st,
    map (fun tr => fst (fst tr)) (transitions p cs st)
    = removelast (map (overlayState p) (fst (Popover.run p cs st)))
    /\ List.length (fst (Popover.run p cs st)) = S (List.length cs).
Proof.
  induction cs as [|c cs IH]; intros st; [split; reflexivity|].
  cbn [transitions Popover.run map].
  destruct (Popover.step p c st) as [st' out] eqn:Hstep. cbn [fst].
  destruct (IH st') as [IH1 IH2].
  destruct (Popover.run p cs st') as [sts outs] eqn:Hrun. cbn [fst] in *.
  split.
  - cbn [map fst]. rewrite IH1. destruct sts as [|s sts]; [discriminate|].
    reflexivity.
  - cbn [List.length]. now rewrite IH2.
Qed.



(** [updatePosition] computes a position and sets no state: [reposition]
    is the identity on the Popover's state and notifies nobody. *)
Lemma reposition_keeps_state (p : Popover.PopoverProps) (st : Popover.PopoverState) :
  Popover.step p Popover.reposition st = (st, []).
Proof. reflexivity. Qed.

(** ** Modal: the focus snapshot *)

(** C8, as stated, fails: after an open/close cycle in which the element
    that had focus was detached, the closing run still calls [focus()] on
    it, and the snapshot is still held afterwards. *)
Lemma C8_counterexample :
  Dom.isConnected detachedButton = false
  /\ Modal.runs
       [ (true, Modal.mkReads (Some modalPanel) (Some detachedButton));
         (false, Modal.mkReads None None) ]
       None
     = (Some detachedButton,
        [ Modal.focus modalPanel;
          Modal.body_classList_add "overflow-hidden";
          Modal.focus detachedButton;
          Modal.body_classList_remove "overflow-hidden" ])
  /\ fst (Modal.focusEffect false (Modal.mkReads None None) (Some detachedButton))
     <> None.
Proof.
  repeat split; try reflexivity. discriminate.
Qed.

(** C8, amended. On every close the Modal calls [focus()] on the snapshot
    exactly when one is held and has a [focus] method; it makes no
    attachment test, so attached and detached elements are treated alike.
    The close leaves the snapshot in place; it is the next open that
    overwrites it with the then active element, so one slot holds at most
    one snapshot, the one of the latest open. *)
Theorem C8_focus_restore :
  forall (dom : Modal.Reads) (previousActiveElement : option Dom.Element)
         (e : Dom.Element),
    fst (Modal.focusEffect false dom previousActiveElement) = previousActiveElement
    /\ (In (Modal.focus e) (snd (Modal.focusEffect false dom (Some e)))
        <-> Dom.hasFocus e = true)
    /\ snd (Modal.focusEffect false dom None)
       = [Modal.body_classList_remove "overflow-hidden"]
    /\ fst (Modal.focusEffect true dom previousActiveElement)
       = Modal.activeElement dom
    /\ (forall closing : Modal.Reads,
           fst (Modal.runs [(true, dom); (false, closing)] previousActiveElement)
           = Modal.activeElement dom).
Proof.
  intros dom prev e. unfold Modal.focusEffect. cbn [fst snd].
  repeat split; try reflexivity.
  - destruct (Dom.hasFocus e); [reflexivity|].
    cbn. intros [H|[]]. discriminate.
  - intros He. rewrite He. now left.
Qed.

(** ** Slider: clicks on the track and thumb drags *)

(** A click at a quarter of the track: the range slider [20, 80] keeps its
    value and reports nothing; the single slider at 20 goes to 25 and
    reports it; dragging the lower thumb of the range slider there gives
    [25, 80], reported. *)
Example slider_quarter_click :
  Slider.handleTrackClick (sliderProps true) (Slider.initialState (sliderProps true))
    (Some track200) 50
  = (Slider.mkState (Slider.pair 20 80) None, [])
  /\ Slider.handleTrackClick (sliderProps false) (Slider.initialState (sliderProps false))
       (Some track200) 50
     = (Slider.mkState (Slider.single 25) None,
        [Slider.calledWith onChange_cb (Slider.single 25)])
  /\ Slider.handleDrag (sliderProps true) (Slider.initialState (sliderProps true))
       Slider.thumb_min (Some track200) 50
     = (Slider.mkState (Slider.pair 25 80) None,
        [Slider.calledWith onChange_cb (Slider.pair 25 80)]).
Proof. repeat split; reflexivity. Qed.

(** C10. On a range slider holding a pair, a click on the track leaves the
    state as it is and invokes no callback, wherever the click lands and
    whether or not the slider is disabled, controlled or mounted.  The other
    paths do store and report a value: a click on a slider holding a single
    value, and a thumb drag, on a range slider too. *)
Theorem C10_range_track_click_commits_nothing :
  forall (p : Slider.SliderProps) (st : Slider.SliderState)
         (trackRef : option Dom.Element) (clientX minVal maxVal : Q),
    Slider.range p = true ->
    Slider.internalValue st = Slider.pair minVal maxVal ->
    Slider.handleTrackClick p st trackRef clientX = (st, [])
    /\ (forall (track : Dom.Element) (thumbType : Slider.Thumb),
           exists lo hi,
             Slider.handleDrag p st thumbType (Some track) clientX
             = (Slider.commit p st (Slider.pair lo hi),
                Slider.optionalCallWith (Slider.onChange p) (Slider.pair lo hi)))
    /\ (forall (p1 : Slider.SliderProps) (st1 : Slider.SliderState)
               (track : Dom.Element) (v : Q),
           Slider.disabled p1 = false ->
           Slider.internalValue st1 = Slider.single v ->
           exists newValue,
             Slider.handleTrackClick p1 st1 (Some track) clientX
             = (Slider.commit p1 st1 (Slider.single newValue),
                Slider.optionalCallWith (Slider.onChange p1) (Slider.single newValue))).
Proof.
  intros p st trackRef clientX minVal maxVal Hrange Hpair. repeat split.
  - unfold Slider.handleTrackClick. rewrite Hpair, Hrange.
    destruct trackRef; [|reflexivity]. destruct (Slider.disabled p); reflexivity.
  - intros track thumbType. unfold Slider.handleDrag. rewrite Hpair, Hrange.
    destruct thumbType; eexists; eexists; reflexivity.
  - intros p1 st1 track v Hen Hsingle. unfold Slider.handleTrackClick.
    rewrite Hen, Hsingle. eexists. reflexivity.
Qed.

(** C10, at the range slider [20, 80] clicked at a quarter of its track. *)
Lemma C10_range_track_click_commits_nothing_witness :
  Slider.range (sliderProps true) = true
  /\ Slider.handleTrackClick (sliderProps true)
       (Slider.initialState (sliderProps true)) (Some track200) 50
     = (Slider.initialState (sliderProps true), []).
Proof.
  split; [reflexivity|].
  apply (C10_range_track_click_commits_nothing (sliderProps true)
           (Slider.initialState (sliderProps true)) (Some track200) 50 20 80);
    reflexivity.
Defined.

(** ** Listeners: what the cleanups remove *)

Section Registry.
Import Dom.

Lemma EventTarget_eqb_eq (a b : EventTarget) :
  EventTarget_eqb a b = true <-> a = b.
Proof. destruct a, b; simpl; split; congruence. Qed.

Lemma Handler_eqb_eq (a b : Handler) : Handler_eqb a b = true <-> a = b.
Proof.
  destruct a as [fa ca], b as [fb cb]. unfold Handler_eqb. simpl.
  rewrite andb_true_iff, String.eqb_eq, Nat.eqb_eq.
  split; [intros [-> ->]; reflexivity | intros H; inversion H; auto].
Qed.

Lemma Listener_eqb_eq (a b : Listener) : Listener_eqb a b = true <-> a = b.
Proof.
  destruct a as [ta ya ha], b as [tb yb hb]. unfold Listener_eqb. simpl.
  rewrite !andb_true_iff, EventTarget_eqb_eq, String.eqb_eq, Handler_eqb_eq.
  split; [intros [[-> ->] ->]; reflexivity | intros H; inversion H; auto].
Qed.

(** [addEventListener] only ever appends, and only its own listener. *)
Lemma addEventListener_appends (tg : EventTarget) (ty : string) (cb : Handler)
    (reg : list Listener) :
  exists ys, addEventListener tg ty cb reg = (reg ++ ys)%list
             /\ Forall (eq (mkListener tg ty cb)) ys.
Proof.
  unfold addEventListener. destruct (existsb _ reg).
  - exists []. now rewrite app_nil_r.
  - exists [mkListener tg ty cb]. split; [reflexivity|]. now constructor.
Qed.

Lemma addEventListener_In (tg : EventTarget) (ty : string) (cb : Handler)
    (reg : list Listener) :
  In (mkListener tg ty cb) (addEventListener tg ty cb reg).
Proof.
  unfold addEventListener.
  destruct (existsb _ reg) eqn:E.
  - apply existsb_exists in E. destruct E as [x [Hin Heq]].
    apply Listener_eqb_eq in Heq. now subst.
  - apply in_or_app. right. now left.
Qed.

Lemma addEventListener_keeps (tg : EventTarget) (ty : string) (cb : Handler)
    (reg : list Listener) (x : Listener) :
  In x reg -> In x (addEventListener tg ty cb reg).
Proof.
  intros H. unfold addEventListener. destruct (existsb _ reg); [assumption|].
  apply in_or_app. now left.
Qed.

Lemma removeEventListener_app (tg : EventTarget) (ty : string) (cb : Handler)
    (a b : list Listener) :
  removeEventListener tg ty cb (a ++ b)
  = (removeEventListener tg ty cb a ++ removeEventListener tg ty cb b)%list.
Proof. apply filter_app. Qed.

(** Removing a listener that is not registered changes nothing. *)
Lemma removeEventListener_absent (tg : EventTarget) (ty : string) (cb : Handler)
    (reg : list Listener) :
  ~ In (mkListener tg ty cb) reg -> removeEventListener tg ty cb reg = reg.
Proof.
  intros H. unfold removeEventListener. induction reg as [|x reg IH]; [reflexivity|].
  simpl. destruct (Listener_eqb _ x) eqn:E.
  - apply Listener_eqb_eq in E. subst. exfalso. apply H. now left.
  - simpl. f_equal. apply IH. intros Hin. apply H. now right.
Qed.

Lemma removeEventListener_not_In (tg : EventTarget) (ty : string) (cb : Handler)
    (reg : list Listener) :
  ~ In (mkListener tg ty cb) (removeEventListener tg ty cb reg).
Proof.
  unfold removeEventListener. intros H. apply filter_In in H. destruct H as [_ H].
  assert (E : Listener_eqb (mkListener tg ty cb) (mkListener tg ty cb) = true)
    by now apply Listener_eqb_eq.
  rewrite E in H. discriminate.
Qed.

Lemma removeEventListener_subset (tg : EventTarget) (ty : string) (cb : Handler)
    (reg : list Listener) (x : Listener) :
  In x (removeEventListener tg ty cb reg) -> In x reg.
Proof. unfold removeEventListener. intros H. now apply filter_In in H. Qed.

End Registry.

Lemma Popover_effect_appends (render : nat) (p : Popover.PopoverProps)
    (st : Popover.PopoverState) (reg : list Dom.Listener) :
  exists ys, Popover.effect render p st reg = (reg ++ ys)%list
             /\ Forall (fun y => In y (popoverListeners render)) ys.
Proof.
  unfold Popover.effect. destruct (Popover.isOpen p st).
  2:{ exists []. now rewrite app_nil_r. }
  destruct (addEventListener_appends Dom.window "resize"
              (Popover.updatePosition_fn render) reg) as [y1 [-> H1]].
  assert (S2 : exists y2,
             (if Popover.closeOnScroll p
              then Dom.addEventListener Dom.window "scroll"
                     (Popover.handleClose_fn render) (reg ++ y1)%list
              else (reg ++ y1)%list) = ((reg ++ y1) ++ y2)%list
             /\ Forall (eq (Dom.mkListener Dom.window "scroll"
                              (Popover.handleClose_fn render))) y2).
  { destruct (Popover.closeOnScroll p).
    - apply addEventListener_appends.
    - exists []. now rewrite app_nil_r. }
  destruct S2 as [y2 [-> H2]].
  assert (S3 : exists y3,
             (if Popover.closeOnClickOutside p
              then Dom.addEventListener Dom.document "mousedown"
                     (Popover.handleClickOutside_fn render) ((reg ++ y1) ++ y2)%list
              else ((reg ++ y1) ++ y2)%list) = (((reg ++ y1) ++ y2) ++ y3)%list
             /\ Forall (eq (Dom.mkListener Dom.document "mousedown"
                              (Popover.handleClickOutside_fn render))) y3).
  { destruct (Popover.closeOnClickOutside p).
    - apply addEventListener_appends.
    - exists []. now rewrite app_nil_r. }
  destruct S3 as [y3 [-> H3]].
  assert (S4 : exists y4,
             (if Popover.closeOnEsc p
              then Dom.addEventListener Dom.document "keydown"
                     (Popover.handleEscKey_fn render) (((reg ++ y1) ++ y2) ++ y3)%list
              else (((reg ++ y1) ++ y2) ++ y3)%list)
             = ((((reg ++ y1) ++ y2) ++ y3) ++ y4)%list
             /\ Forall (eq (Dom.mkListener Dom.document "keydown"
                              (Popover.handleEscKey_fn render))) y4).
  { destruct (Popover.closeOnEsc p).
    - apply addEventListener_appends.
    - exists []. now rewrite app_nil_r. }
  destruct S4 as [y4 [-> H4]].
  exists (y1 ++ y2 ++ y3 ++ y4)%list. split; [now rewrite <- !app_assoc|].
  repeat (apply Forall_app; split);
    match goal with
    | Hf : Forall (eq _) ?y |- Forall _ ?y =>
        eapply Forall_impl; [|exact Hf]; intros a <-; simpl; tauto
    end.
Qed.

(** The cleanup removes each of the render's four listeners, and nothing
    else. *)
Lemma Popover_cleanup_spec (render : nat) (reg : list Dom.Listener) (x : Dom.Listener) :
  In x (Popover.cleanup render reg)
  <-> In x reg /\ ~ In x (popoverListeners render).
Proof.
  unfold Popover.cleanup, Dom.removeEventListener.
  rewrite !filter_In, !negb_true_iff. unfold popoverListeners. simpl.
  split.
  - intros [[[[Hin H1] H2] H3] H4]. split; [assumption|].
    intros [E|[E|[E|[E|[]]]]]; apply Listener_eqb_eq in E; congruence.
  - intros [Hin Hnot]. repeat split; try assumption;
      match goal with
      | |- Dom.Listener_eqb ?a x = false =>
          destruct (Dom.Listener_eqb a x) eqn:E; [|reflexivity];
          apply Listener_eqb_eq in E; exfalso; apply Hnot; tauto
      end.
Qed.

(** The cleanup of a render takes away that render's listeners and leaves a
    registry that held none of them as it was. *)
Lemma Popover_cleanup_own (render : nat) (reg ys : list Dom.Listener) :
  Forall (fun x => ~ In x (popoverListeners render)) reg ->
  Forall (fun y => In y (popoverListeners render)) ys ->
  Popover.cleanup render (reg ++ ys) = reg.
Proof.
  intros Hfresh Hys.
  unfold Popover.cleanup. rewrite !removeEventListener_app.
  fold (Popover.cleanup render reg). fold (Popover.cleanup render ys).
  assert (Hreg : Popover.cleanup render reg = reg).
  { unfold Popover.cleanup.
    rewrite Forall_forall in Hfresh.
    rewrite (removeEventListener_absent _ _ _ reg);
      [|intros Hin; apply (Hfresh _ Hin); simpl; tauto].
    rewrite (removeEventListener_absent _ _ _ reg);
      [|intros Hin; apply (Hfresh _ Hin); simpl; tauto].
    rewrite (removeEventListener_absent _ _ _ reg);
      [|intros Hin; apply (Hfresh _ Hin); simpl; tauto].
    rewrite (removeEventListener_absent _ _ _ reg);
      [|intros Hin; apply (Hfresh _ Hin); simpl; tauto].
    reflexivity. }
  assert (Hown : Popover.cleanup render ys = []).
  { destruct (Popover.cleanup render ys) as [|x rest] eqn:E; [reflexivity|].
    assert (Hx : In x (Popover.cleanup render ys)) by (rewrite E; now left).
    apply Popover_cleanup_spec in Hx. destruct Hx as [Hin Hnot].
    rewrite Forall_forall in Hys. exfalso. apply Hnot. now apply Hys. }
  rewrite Hreg, Hown. apply app_nil_r.
Qed.

(** The Popover's pair of effect and cleanup is complete: a registry that
    held none of the render's listeners before the effect is back to what it
    was after the cleanup, whichever dismissal options are on. *)
Lemma Popover_cleanup_complete (render : nat) (p : Popover.PopoverProps)
    (st : Popover.PopoverState) (reg : list Dom.Listener) :
  Forall (fun x => ~ In x (popoverListeners render)) reg ->
  Popover.cleanup render (Popover.effect render p st reg) = reg.
Proof.
  intros Hfresh.
  destruct (Popover_effect_appends render p st reg) as [ys [-> Hys]].
  now apply Popover_cleanup_own.
Qed.

(** A closed Popover registers nothing. *)
Lemma Popover_effect_closed (render : nat) (p : Popover.PopoverProps)
    (st : Popover.PopoverState) (reg : list Dom.Listener) :
  Popover.isOpen p st = false -> Popover.effect render p st reg = reg.
Proof. intros H. unfold Popover.effect. now rewrite H. Qed.

Lemma effect_establishes_invariant (p : Popover.PopoverProps)
    (reg0 : list Dom.Listener) (st : Popover.PopoverState) (r n : nat) :
  listenersInvariant p reg0
    (PopoverLifecycle.mkMounted st n r (Popover.effect r p st reg0)).
Proof.
  destruct (Popover_effect_appends r p st reg0) as [ys [Heq Hys]].
  exists ys. cbn [PopoverLifecycle.listeners PopoverLifecycle.effectOf
                  PopoverLifecycle.state].
  repeat split; try assumption.
  intros Hclosed. rewrite (Popover_effect_closed r p st reg0 Hclosed) in Heq.
  rewrite <- (app_nil_r reg0) in Heq at 1. now apply app_inv_head in Heq.
Qed.

Lemma mount_invariant (p : Popover.PopoverProps) (reg0 : list Dom.Listener) :
  listenersInvariant p reg0 (PopoverLifecycle.mount p reg0).
Proof. apply effect_establishes_invariant. Qed.

Lemma call_invariant (p : Popover.PopoverProps) (reg0 : list Dom.Listener)
    (c : Popover.Call) (m : PopoverLifecycle.Mounted) :
  Forall noPopoverListener reg0 ->
  listenersInvariant p reg0 m ->
  listenersInvariant p reg0 (fst (PopoverLifecycle.call p c m)).
Proof.
  intros Hfresh [ys [Hl [Hys Hclosed]]]. unfold PopoverLifecycle.call.
  destruct (Popover.step p c (PopoverLifecycle.state m)) as [st' out].
  destruct (Bool.eqb _ _) eqn:E; cbn [fst].
  - apply Bool.eqb_prop in E. exists ys.
    cbn [PopoverLifecycle.listeners PopoverLifecycle.effectOf PopoverLifecycle.state].
    repeat split; try assumption. intros H. apply Hclosed. congruence.
  - rewrite Hl, Popover_cleanup_own; [apply effect_establishes_invariant| |assumption].
    eapply Forall_impl; [|exact Hfresh]. intros x Hx. apply Hx.
Qed.

(** Every sequence of toggle, close and reposition calls on a mounted
    Popover keeps the invariant; so whenever the Popover is closed the
    registry is the one it was mounted on, and unmounting restores it from
    any state. *)
Lemma Popover_listeners_invariant (p : Popover.PopoverProps)
    (reg0 : list Dom.Listener) (cs : list Popover.Call) :
  Forall noPopoverListener reg0 ->
  let m := PopoverLifecycle.calls p cs (PopoverLifecycle.mount p reg0) in
  (Popover.isOpen p (PopoverLifecycle.state m) = false ->
   PopoverLifecycle.listeners m = reg0)
  /\ PopoverLifecycle.unmount m = reg0.
Proof.
  intros Hfresh.
  assert (Hinv : forall m, listenersInvariant p reg0 m ->
                           listenersInvariant p reg0 (PopoverLifecycle.calls p cs m)).
  { induction cs as [|c cs IH]; intros m Hm; [exact Hm|].
    cbn [PopoverLifecycle.calls]. apply IH. now apply call_invariant. }
  cbv zeta. destruct (Hinv _ (mount_invariant p reg0)) as [ys [Hl [Hys Hclosed]]].
  split.
  - intros H. rewrite Hl, (Hclosed H). apply app_nil_r.
  - unfold PopoverLifecycle.unmount. rewrite Hl. apply Popover_cleanup_own; [|assumption].
    eapply Forall_impl; [|exact Hfresh]. intros x Hx. apply Hx.
Qed.

(** The loop of the ClickAwayListener effect adds listeners and never
    touches [registeredEvents]. *)
Lemma ClickAwayListener_loop (h : Dom.Handler) (evs : list string) :
  forall (reg : list Dom.Listener) (rs : list ClickAwayListener.Registered),
    fold_left
      (fun (acc : list Dom.Listener * list ClickAwayListener.Registered)
           (eventName : string) =>
         let '(reg, registeredEvents) := acc in
         (Dom.addEventListener Dom.document eventName h reg, registeredEvents))
      evs (reg, rs)
    = (fold_left (fun reg eventName =>
                    Dom.addEventListener Dom.document eventName h reg) evs reg,
       rs).
Proof.
  induction evs as [|ev evs IH]; intros reg rs; simpl; [reflexivity|]. apply IH.
Qed.

Lemma ClickAwayListener_loop_keeps (h : Dom.Handler) (evs : list string) :
  forall (reg : list Dom.Listener) (x : Dom.Listener),
    In x reg ->
    In x (fold_left (fun reg eventName =>
                       Dom.addEventListener Dom.document eventName h reg) evs reg).
Proof.
  induction evs as [|ev evs IH]; intros reg x Hx; simpl; [assumption|].
  apply IH. now apply addEventListener_keeps.
Qed.

Lemma ClickAwayListener_loop_registers (h : Dom.Handler) (evs : list string) :
  forall (reg : list Dom.Listener) (ev : string),
    In ev evs ->
    In (Dom.mkListener Dom.document ev h)
       (fold_left (fun reg eventName =>
                     Dom.addEventListener Dom.document eventName h reg) evs reg).
Proof.
  induction evs as [|e evs IH]; intros reg ev Hin; simpl; [contradiction|].
  destruct Hin as [->|Hin].
  - apply ClickAwayListener_loop_keeps. apply addEventListener_In.
  - now apply IH.
Qed.

(** Whatever events an enabled ClickAwayListener listens for, each of its
    listeners is still registered after the cleanup: the array the cleanup
    walks is empty. *)
Lemma ClickAwayListener_cleanup_removes_nothing (render : nat)
    (p : ClickAwayListener.ClickAwayListenerProps) (reg : list Dom.Listener) :
  ClickAwayListener.mountThenCleanup render p reg
  = fst (ClickAwayListener.effect render p reg)
  /\ (ClickAwayListener.disabled p = false ->
      snd (ClickAwayListener.effect render p reg) = Some []
      /\ forall ev, In ev (ClickAwayListener.events p) ->
           In (Dom.mkListener Dom.document ev (ClickAwayListener.handleClickAway_fn render))
              (ClickAwayListener.mountThenCleanup render p reg)).
Proof.
  unfold ClickAwayListener.mountThenCleanup, ClickAwayListener.effect.
  destruct (ClickAwayListener.disabled p).
  - split; [reflexivity|discriminate].
  - rewrite ClickAwayListener_loop. cbn [fst snd ClickAwayListener.cleanup fold_left].
    split; [reflexivity|]. intros _. split; [reflexivity|].
    intros ev Hin. now apply ClickAwayListener_loop_registers.
Qed.

(** C2. The claim holds for the Popover and fails for the
    ClickAwayListener.  With its default events, mounted on an empty
    registry and then cleaned up, the ClickAwayListener's [mousedown] and
    [touchstart] listeners are both still attached to the document, for
    every render and every callback.  A Popover mounted on an empty registry
    has, after any sequence of calls, no listener left when it is closed,
    and none after it is unmounted. *)
Theorem C2_ClickAwayListener_listeners_remain :
  forall (render : nat) (children : ReactNode) (onClickAway : Dom.Handler)
         (cs : list Popover.Call),
    ClickAwayListener.mountThenCleanup render
      (ClickAwayListener.defaultProps children onClickAway) []
    = [ Dom.mkListener Dom.document "mousedown"
          (ClickAwayListener.handleClickAway_fn render);
        Dom.mkListener Dom.document "touchstart"
          (ClickAwayListener.handleClickAway_fn render) ]
    /\ (let m := PopoverLifecycle.calls popoverWithCallbacks cs
                   (PopoverLifecycle.mount popoverWithCallbacks []) in
        PopoverLifecycle.unmount m = []
        /\ (Popover.isOpen popoverWithCallbacks (PopoverLifecycle.state m) = false ->
            PopoverLifecycle.listeners m = [])).
Proof.
  intros render children onClickAway cs. split; [reflexivity|].
  cbv zeta.
  destruct (Popover_listeners_invariant popoverWithCallbacks [] cs) as [Hclosed Hunmount];
    [constructor|].
  split; assumption.
Qed.

(** The listeners a ClickAwayListener leaves behind add up: a second run of
    the effect (a new [onClickAway] is a changed dependency) after the
    cleanup of the first leaves four. *)
Example ClickAwayListener_listeners_add_up :
  ClickAwayListener.mountThenCleanup 2
    (ClickAwayListener.defaultProps "menu" onClickAway_cb)
    (ClickAwayListener.mountThenCleanup 1
       (ClickAwayListener.defaultProps "menu" onClickAway_cb) [])
  = [ Dom.mkListener Dom.document "mousedown" (ClickAwayListener.handleClickAway_fn 1);
      Dom.mkListener Dom.document "touchstart" (ClickAwayListener.handleClickAway_fn 1);
      Dom.mkListener Dom.document "mousedown" (ClickAwayListener.handleClickAway_fn 2);
      Dom.mkListener Dom.document "touchstart" (ClickAwayListener.handleClickAway_fn 2) ].
Proof. reflexivity. Qed.

(** An open Popover with the default dismissal options holds its three
    listeners (there is none on scroll); closing it gives them all back. *)
Example Popover_open_then_close :
  let opened := PopoverLifecycle.calls popoverWithCallbacks [Popover.toggle]
                  (PopoverLifecycle.mount popoverWithCallbacks []) in
  PopoverLifecycle.listeners opened
  = [ Dom.mkListener Dom.window "resize" (Popover.updatePosition_fn 2);
      Dom.mkListener Dom.document "mousedown" (Popover.handleClickOutside_fn 2);
      Dom.mkListener Dom.document "keydown" (Popover.handleEscKey_fn 2) ]
  /\ PopoverLifecycle.listeners
       (PopoverLifecycle.calls popoverWithCallbacks [Popover.close] opened)
     = [].
Proof. split; reflexivity. Qed.

(* ================================================================== *)
(** * Further properties of the overlay code *)

(** ** Slider: values, percentages, marks, drags *)

(** The clamp at the end of [getValueFromPercentage]. *)
Lemma value_within_range (p : Slider.SliderProps) (percentage : Q) :
  Slider.min p <= Slider.max p ->
  Slider.min p <= Slider.getValueFromPercentage p percentage
  /\ Slider.getValueFromPercentage p percentage <= Slider.max p.
Proof.
  intros Hmm.
  unfold Slider.getValueFromPercentage, Slider.Math_min, Slider.Math_max. cbv zeta.
  set (stepped := Slider.Math_round _ * Slider.step p).
  destruct (Qlt_le_dec (Slider.min p) stepped);
    match goal with
    | |- context [Qlt_le_dec ?a ?b] => destruct (Qlt_le_dec a b)
    end; split; lra.
Qed.

(** X1. Whatever percentage comes in, a click beyond either end of the track
    included, the value computed from it lies between [min] and [max],
    provided [min <= max] and [step] is not 0 (with a step of 0 the code
    divides by zero and the value is NaN). *)
Theorem Slider_value_within_range :
  forall (p : Slider.SliderProps) (percentage : Q),
    Slider.min p <= Slider.max p ->
    ~ Slider.step p == 0 ->
    Slider.min p <= Slider.getValueFromPercentage p percentage
    /\ Slider.getValueFromPercentage p percentage <= Slider.max p.
Proof.
  intros p percentage Hmm Hstep.
  unfold Slider.getValueFromPercentage, Slider.Math_min, Slider.Math_max. cbv zeta.
  set (stepped := Slider.Math_round _ * Slider.step p).
  destruct (Qlt_le_dec (Slider.min p) stepped) as [Hlow|Hlow];
    destruct (Qlt_le_dec _ (Slider.max p)) as [Hhigh|Hhigh]; split; lra.
Qed.

Lemma Slider_value_within_range_witness :
  (0 <= 100 /\ ~ 1 == 0)
  /\ 0 <= Slider.getValueFromPercentage (sliderProps false) 250
  /\ Slider.getValueFromPercentage (sliderProps false) 250 <= 100.
Proof.
  split; [split; [lra|discriminate]|].
  apply (Slider_value_within_range (sliderProps false) 250);
    [cbn; lra|discriminate].
Defined.

(** X2. For a [step] that is not 0, the value computed from a percentage is
    [min], [max], or a whole multiple of [step]: the grid starts at 0, not
    at [min]. *)
Theorem Slider_value_on_step_grid :
  forall (p : Slider.SliderProps) (percentage : Q),
    ~ Slider.step p == 0 ->
    let v := Slider.getValueFromPercentage p percentage in
    v = Slider.min p \/ v = Slider.max p
    \/ exists k : Z, v = inject_Z k * Slider.step p.
Proof.
  intros p percentage Hstep.
  unfold Slider.getValueFromPercentage, Slider.Math_min, Slider.Math_max,
    Slider.Math_round. cbv zeta.
  match goal with
  | |- context [Qlt_le_dec (Slider.min p) ?s] => destruct (Qlt_le_dec (Slider.min p) s)
  end;
    match goal with
    | |- context [Qlt_le_dec ?a ?b] => destruct (Qlt_le_dec a b)
    end; auto.
  right. right. eexists. reflexivity.
Qed.

(** X2, on a slider from 5 to 100 in steps of 10: a click at 12% of the
    track gives 20, the second multiple of 10, and not 15. *)
Lemma Slider_value_on_step_grid_witness :
  let p := {| Slider.min := 5; Slider.max := 100; Slider.step := 10;
              Slider.defaultValue := Slider.single 5; Slider.value := None;
              Slider.disabled := false; Slider.showMarks := false;
              Slider.range := false; Slider.onChange := None;
              Slider.onDragStart := None; Slider.onDragEnd := None;
              Slider.className := ""; Slider.trackClassName := "";
              Slider.thumbClassName := "" |} in
  Slider.getValueFromPercentage p 12 = 20
  /\ (Slider.getValueFromPercentage p 12 = Slider.min p
      \/ Slider.getValueFromPercentage p 12 = Slider.max p
      \/ exists k : Z, Slider.getValueFromPercentage p 12 = inject_Z k * Slider.step p).
Proof.
  cbv zeta. split; [reflexivity|].
  apply (Slider_value_on_step_grid
           {| Slider.min := 5; Slider.max := 100; Slider.step := 10;
              Slider.defaultValue := Slider.single 5; Slider.value := None;
              Slider.disabled := false; Slider.showMarks := false;
              Slider.range := false; Slider.onChange := None;
              Slider.onDragStart := None; Slider.onDragEnd := None;
              Slider.className := ""; Slider.trackClassName := "";
              Slider.thumbClassName := "" |} 12).
  discriminate.
Defined.

(** Rounding a whole number gives it back. *)
Lemma Math_round_whole (x : Q) (k : Z) :
  x == inject_Z k -> Slider.Math_round x == inject_Z k.
Proof.
  intros Hx. unfold Slider.Math_round.
  assert (Hk : Qfloor (x + (1 # 2)) = k).
  { pose proof (Qfloor_le (x + (1 # 2))) as Hlo.
    pose proof (Qlt_floor (x + (1 # 2))) as Hhi.
    set (f := Qfloor (x + (1 # 2))) in *.
    rewrite inject_Z_plus in Hhi.
    destruct (Z_lt_le_dec k f) as [Hlt|Hle].
    - assert (H1 : (k + 1 <= f)%Z) by lia.
      rewrite Zle_Qle, inject_Z_plus in H1. change (inject_Z 1) with 1 in H1. lra.
    - destruct (Z_lt_le_dec f k) as [Hlt|Hge]; [|lia].
      assert (H1 : (f + 1 <= k)%Z) by lia.
      rewrite Zle_Qle, inject_Z_plus in H1. change (inject_Z 1) with 1 in *. lra. }
  now rewrite Hk.
Qed.

(** X3. In exact arithmetic the two conversions are inverse on the values
    the slider can hold: a value between [min] and [max] that is a whole
    multiple of [step] comes back from its own percentage. *)
Theorem Slider_percentage_round_trip :
  forall (p : Slider.SliderProps) (v : Q) (k : Z),
    Slider.min p < Slider.max p ->
    ~ Slider.step p == 0 ->
    v == inject_Z k * Slider.step p ->
    Slider.min p <= v -> v <= Slider.max p ->
    Slider.getValueFromPercentage p (SliderMarks.getPercentage p v) == v.
Proof.
  intros p v k Hmm Hstep Hv Hlo Hhi.
  unfold Slider.getValueFromPercentage, SliderMarks.getPercentage. cbv zeta.
  set (raw := Slider.min p + _ / 100 * (Slider.max p - Slider.min p)).
  assert (Hraw : raw == v).
  { unfold raw. field. lra. }
  assert (Hq : raw / Slider.step p == inject_Z k).
  { rewrite Hraw, Hv. field. exact Hstep. }
  pose proof (Math_round_whole _ _ Hq) as Hr.
  set (stepped := Slider.Math_round (raw / Slider.step p) * Slider.step p).
  assert (Hs : stepped == v).
  { unfold stepped. rewrite Hr, Hv. reflexivity. }
  unfold Slider.Math_min, Slider.Math_max.
  destruct (Qlt_le_dec (Slider.min p) stepped);
    match goal with
    | |- context [Qlt_le_dec ?a ?b] => destruct (Qlt_le_dec a b)
    end; lra.
Qed.

Lemma Slider_percentage_round_trip_witness :
  Slider.getValueFromPercentage (sliderProps false)
    (SliderMarks.getPercentage (sliderProps false) 37) == 37.
Proof.
  apply (Slider_percentage_round_trip (sliderProps false) 37 37);
    cbn; try lra. reflexivity.
Defined.

(** X4. A thumb drag on a range slider moves one end only and never lets the
    thumbs cross: the lower thumb stops at the upper value, the upper thumb
    at the lower one.  A pair that was ordered and inside [min, max] stays
    so.  This for a [step] and a track width that are not 0: a zero divisor
    makes the dragged value NaN in the code. *)
Theorem Slider_drag_keeps_pair_valid :
  forall (p : Slider.SliderProps) (st : Slider.SliderState)
         (thumbType : Slider.Thumb) (track : Dom.Element)
         (clientX minVal maxVal : Q),
    Slider.range p = true ->
    Slider.internalValue st = Slider.pair minVal maxVal ->
    ~ Slider.step p == 0 ->
    ~ Dom.width (Dom.getBoundingClientRect track) == 0 ->
    exists lo hi,
      Slider.handleDrag p st thumbType (Some track) clientX
      = (Slider.commit p st (Slider.pair lo hi),
         Slider.optionalCallWith (Slider.onChange p) (Slider.pair lo hi))
      /\ lo <= hi
      /\ match thumbType with
         | Slider.thumb_min => hi = maxVal
         | Slider.thumb_max => lo = minVal
         end
      /\ (validPair p minVal maxVal -> validPair p lo hi).
Proof.
  intros p st thumbType track clientX minVal maxVal Hrange Hpair Hstep Hwidth.
  unfold Slider.handleDrag. rewrite Hpair, Hrange. cbv zeta.
  set (newValue := Slider.getValueFromPercentage p _).
  assert (Hnew : Slider.min p <= Slider.max p ->
                 Slider.min p <= newValue /\ newValue <= Slider.max p)
    by (intros H; apply value_within_range; exact H).
  destruct thumbType; eexists; eexists; (split; [reflexivity|]);
    unfold Slider.Math_min, Slider.Math_max, validPair.
  - destruct (Qlt_le_dec maxVal newValue); (split; [lra|]);
      (split; [reflexivity|]); intros [H1 [H2 H3]];
      destruct Hnew as [Hn1 Hn2]; try lra; repeat split; lra.
  - destruct (Qlt_le_dec newValue minVal); (split; [lra|]);
      (split; [reflexivity|]); intros [H1 [H2 H3]];
      destruct Hnew as [Hn1 Hn2]; try lra; repeat split; lra.
Qed.

Lemma Slider_drag_keeps_pair_valid_witness :
  exists lo hi,
    Slider.handleDrag (sliderProps true) (Slider.initialState (sliderProps true))
      Slider.thumb_min (Some track200) 190
    = (Slider.commit (sliderProps true) (Slider.initialState (sliderProps true))
         (Slider.pair lo hi),
       Slider.optionalCallWith (Slider.onChange (sliderProps true)) (Slider.pair lo hi))
    /\ lo <= hi.
Proof.
  destruct (Slider_drag_keeps_pair_valid (sliderProps true)
              (Slider.initialState (sliderProps true)) Slider.thumb_min track200
              190 20 80 eq_refl eq_refl) as [lo [hi [H1 [H2 _]]]];
    [discriminate|discriminate|].
  exists lo, hi. split; assumption.
Defined.

(** ** Registries: adding and removing in bulk *)

Lemma Listener_eta (l : Dom.Listener) :
  Dom.mkListener (Dom.target l) (Dom.type l) (Dom.callback l) = l.
Proof. destruct l; reflexivity. Qed.

Lemma addAll_appends (ls : list Dom.Listener) :
  forall reg, exists ys, addAll ls reg = (reg ++ ys)%list
                         /\ Forall (fun y => In y ls) ys.
Proof.
  induction ls as [|l ls IH]; intros reg.
  - exists []. split; [symmetry; apply app_nil_r|constructor].
  - cbn [addAll fold_left].
    destruct (addEventListener_appends (Dom.target l) (Dom.type l) (Dom.callback l) reg)
      as [y1 [-> H1]].
    destruct (IH (reg ++ y1)%list) as [y2 [Heq H2]].
    unfold addAll in Heq. rewrite Heq.
    exists (y1 ++ y2)%list. split; [now rewrite app_assoc|].
    apply Forall_app. split.
    + eapply Forall_impl; [|exact H1]. intros a <-. rewrite Listener_eta. now left.
    + eapply Forall_impl; [|exact H2]. intros a Ha. now right.
Qed.

Lemma removeAll_app (ls : list Dom.Listener) :
  forall a b, removeAll ls (a ++ b) = (removeAll ls a ++ removeAll ls b)%list.
Proof.
  induction ls as [|l ls IH]; intros a b; [reflexivity|].
  cbn [removeAll fold_left]. rewrite removeEventListener_app. apply IH.
Qed.

Lemma removeAll_absent (ls : list Dom.Listener) :
  forall reg, Forall (fun l => ~ In l reg) ls -> removeAll ls reg = reg.
Proof.
  induction ls as [|l ls IH]; intros reg H; [reflexivity|].
  inversion H as [|? ? Hl Hls]; subst. cbn [removeAll fold_left].
  rewrite removeEventListener_absent; [now apply IH|].
  now rewrite Listener_eta.
Qed.

Lemma removeAll_In (ls : list Dom.Listener) :
  forall reg x, In x (removeAll ls reg) -> In x reg /\ ~ In x ls.
Proof.
  induction ls as [|l ls IH]; intros reg x Hx; [split; [exact Hx|intros []]|].
  cbn [removeAll fold_left] in Hx. apply IH in Hx. destruct Hx as [Hin Hnot].
  split.
  - eapply removeEventListener_subset. exact Hin.
  - intros [->|Hl]; [|now apply Hnot].
    rewrite <- (Listener_eta x) in Hin at 1.
    now apply removeEventListener_not_In in Hin.
Qed.

(** Removing a superset of what was added gives back a registry that held
    none of the removed listeners. *)
Lemma removeAll_addAll (added removed reg : list Dom.Listener) :
  incl added removed ->
  Forall (fun l => ~ In l reg) removed ->
  removeAll removed (addAll added reg) = reg.
Proof.
  intros Hincl Hfresh.
  destruct (addAll_appends added reg) as [ys [-> Hys]].
  rewrite removeAll_app, (removeAll_absent removed reg Hfresh).
  assert (Hnil : removeAll removed ys = []).
  { destruct (removeAll removed ys) as [|x rest] eqn:E; [reflexivity|].
    assert (Hx : In x (removeAll removed ys)) by (rewrite E; now left).
    apply removeAll_In in Hx. destruct Hx as [Hin Hnot].
    rewrite Forall_forall in Hys. exfalso. apply Hnot, Hincl. now apply Hys. }
  rewrite Hnil. apply app_nil_r.
Qed.

(** X5. A thumb drag takes its two document listeners away again: after
    [handleDragEnd] the registry is what it was before the drag started, the
    value is untouched and no thumb is active.  On a disabled slider the
    drag does not start: no state change, no callback, no listener. *)
Theorem Slider_drag_listeners_removed :
  forall (start : nat) (p : Slider.SliderProps) (st : Slider.SliderState)
         (thumbType : Slider.Thumb) (reg : list Dom.Listener),
    Forall (fun l => ~ In l reg) (dragListeners start) ->
    (if Slider.disabled p
     then Slider.handleThumbDragStart start p st thumbType reg = (st, [], reg)
     else
       let '(st1, out1, reg1) := Slider.handleThumbDragStart start p st thumbType reg in
       let '(st2, out2, reg2) := Slider.handleDragEnd start p st1 reg1 in
       Slider.activeDragThumb st1 = Some thumbType
       /\ (forall l, In l (dragListeners start) -> In l reg1)
       /\ reg2 = reg
       /\ st2 = {| Slider.internalValue := Slider.internalValue st;
                   Slider.activeDragThumb := None |}
       /\ (out1 ++ out2)%list
          = (Slider.optionalCall (Slider.onDragStart p)
             ++ Slider.optionalCall (Slider.onDragEnd p))%list).
Proof.
  intros start p st thumbType reg Hfresh.
  unfold Slider.handleThumbDragStart, Slider.handleDragEnd.
  destruct (Slider.disabled p); [reflexivity|].
  cbn [Slider.activeDragThumb Slider.internalValue].
  repeat split.
  - intros l [<-|[<-|[]]].
    + apply addEventListener_keeps, addEventListener_In.
    + apply addEventListener_In.
  - apply (removeAll_addAll (dragListeners start) (dragListeners start) reg);
      [apply incl_refl|exact Hfresh].
Qed.

Lemma Slider_drag_listeners_removed_witness :
  let '(st1, out1, reg1) :=
    Slider.handleThumbDragStart 1 (sliderProps true)
      (Slider.initialState (sliderProps true)) Slider.thumb_max [] in
  let '(st2, out2, reg2) := Slider.handleDragEnd 1 (sliderProps true) st1 reg1 in
  reg2 = [].
Proof.
  pose proof (Slider_drag_listeners_removed 1 (sliderProps true)
                (Slider.initialState (sliderProps true)) Slider.thumb_max []) as H.
  cbn in H. apply H. repeat constructor; intros [].
Defined.

(** X6. On a slider with [min < max] the percentage of a value grows with
    the value, is 0 at [min] and 100 at [max]: thumbs and filled track of
    values inside the slider lie inside the track, and the filled track of
    an ordered pair has a width of at least 0. *)
Theorem Slider_percentage_monotone :
  forall (p : Slider.SliderProps) (a b : Q),
    Slider.min p < Slider.max p ->
    a <= b ->
    SliderMarks.getPercentage p a <= SliderMarks.getPercentage p b
    /\ SliderMarks.getPercentage p (Slider.min p) == 0
    /\ SliderMarks.getPercentage p (Slider.max p) == 100
    /\ 0 <= SliderMarks.getPercentage p b - SliderMarks.getPercentage p a.
Proof.
  intros p a b Hmm Hab. unfold SliderMarks.getPercentage.
  set (d := Slider.max p - Slider.min p).
  assert (Hd : 0 < d) by (unfold d; lra).
  assert (Hmono : (a - Slider.min p) / d * 100 <= (b - Slider.min p) / d * 100).
  { apply Qmult_le_compat_r; [|lra].
    unfold Qdiv. apply Qmult_le_compat_r; [lra|].
    apply Qlt_le_weak, Qinv_lt_0_compat. exact Hd. }
  repeat split.
  - exact Hmono.
  - field. lra.
  - unfold d. field. lra.
  - lra.
Qed.

Lemma Slider_percentage_monotone_witness :
  SliderMarks.getPercentage (sliderProps true) 20
  <= SliderMarks.getPercentage (sliderProps true) 80.
Proof.
  apply (Slider_percentage_monotone (sliderProps true) 20 80); cbn; lra.
Defined.

(** The marks loop, while it runs: with [n] steps left to pass [max] and
    more fuel than that, it ends, and every key it set lies between the
    start and [max]. *)
Lemma defaultMarks_ends (max step : Q) (n : nat) :
  0 < step ->
  forall (i : Q) (fuel : nat),
    max - i < inject_Z (Z.of_nat n) * step ->
    (n < fuel)%nat ->
    exists marks,
      SliderMarks.defaultMarks fuel i max step = Some marks
      /\ Forall (fun m => i <= m /\ m <= max) marks
      /\ (List.length marks <= n)%nat.
Proof.
  intros Hstep. induction n as [|n IH]; intros i fuel Hn Hfuel.
  - destruct fuel as [|fuel]; [lia|]. cbn [SliderMarks.defaultMarks].
    change (inject_Z (Z.of_nat 0)) with 0 in Hn.
    destruct (Qlt_le_dec max i); [|lra].
    exists []. repeat split; [constructor|cbn; lia].
  - destruct fuel as [|fuel]; [lia|]. cbn [SliderMarks.defaultMarks].
    destruct (Qlt_le_dec max i) as [Hmax|Hmax].
    + exists []. repeat split; [constructor|cbn; lia].
    + destruct (IH (i + step) fuel) as [marks [Heq [Hall Hlen]]].
      * rewrite Nat2Z.inj_succ, <- Z.add_1_r, inject_Z_plus in Hn.
        change (inject_Z 1) with 1 in Hn. lra.
      * lia.
      * rewrite Heq. exists (i :: marks). repeat split.
        -- constructor; [split; lra|].
           eapply Forall_impl; [|exact Hall]. intros m [H1 H2]. split; lra.
        -- cbn [List.length]. lia.
Qed.

(** X7. With a positive [step] the loop that sets the default marks ends
    (in exact arithmetic): some amount of fuel is enough, and the marks it
    sets all lie between [min] and [max], the first one being [min] itself
    when [min <= max]. *)
Theorem Slider_default_marks_terminate :
  forall (p : Slider.SliderProps),
    0 < Slider.step p ->
    exists (fuel : nat) (marks : list Q),
      SliderMarks.defaultMarks fuel (Slider.min p) (Slider.max p) (Slider.step p)
      = Some marks
      /\ Forall (fun m => Slider.min p <= m /\ m <= Slider.max p) marks
      /\ (Slider.min p <= Slider.max p -> hd_error marks = Some (Slider.min p)).
Proof.
  intros p Hstep.
  set (x := (Slider.max p - Slider.min p) / Slider.step p).
  set (n := Z.to_nat (Qfloor x + 1)).
  assert (Hbound : Slider.max p - Slider.min p < inject_Z (Z.of_nat n) * Slider.step p).
  { pose proof (Qlt_floor x) as Hx.
    assert (Hle : (Qfloor x + 1 <= Z.of_nat n)%Z) by (unfold n; lia).
    rewrite Zle_Qle in Hle.
    assert (Hxn : x < inject_Z (Z.of_nat n)) by lra.
    assert (E : Slider.max p - Slider.min p == x * Slider.step p)
      by (unfold x; field; lra).
    assert (Hmul : x * Slider.step p < inject_Z (Z.of_nat n) * Slider.step p)
      by (apply Qmult_lt_compat_r; assumption).
    lra. }
  destruct (defaultMarks_ends (Slider.max p) (Slider.step p) n Hstep
              (Slider.min p) (S n) Hbound) as [marks [Heq [Hall _]]]; [lia|].
  exists (S n), marks. repeat split; try assumption.
  intros Hmm. cbn [SliderMarks.defaultMarks] in Heq.
  destruct (Qlt_le_dec (Slider.max p) (Slider.min p)); [lra|].
  destruct (SliderMarks.defaultMarks n _ _ _); [|discriminate].
  cbn in Heq. injection Heq as <-. reflexivity.
Qed.

Lemma Slider_default_marks_terminate_witness :
  exists (fuel : nat) (marks : list Q),
    SliderMarks.defaultMarks fuel 0 100 1 = Some marks
    /\ Forall (fun m => 0 <= m /\ m <= 100) marks
    /\ (0 <= 100 -> hd_error marks = Some 0).
Proof.
  apply (Slider_default_marks_terminate (sliderProps false)). cbn. lra.
Defined.

(** X8. With a [step] of zero or less on a slider with [min <= max], the
    loop that sets the default marks never ends: no amount of fuel is
    enough, so a slider asked to show marks without custom ones never
    finishes rendering. *)
Theorem Slider_default_marks_diverge :
  forall (p : Slider.SliderProps) (fuel : nat),
    Slider.step p <= 0 ->
    Slider.min p <= Slider.max p ->
    SliderMarks.defaultMarks fuel (Slider.min p) (Slider.max p) (Slider.step p) = None
    /\ (Slider.showMarks p = true -> SliderMarks.renderDefaultMarks fuel p = None).
Proof.
  intros p fuel Hstep Hmm.
  assert (H : forall i, i <= Slider.max p ->
                        SliderMarks.defaultMarks fuel i (Slider.max p) (Slider.step p)
                        = None).
  { induction fuel as [|fuel IH]; intros i Hi; [reflexivity|].
    cbn [SliderMarks.defaultMarks].
    destruct (Qlt_le_dec (Slider.max p) i); [lra|].
    rewrite IH; [reflexivity|lra]. }
  split; [now apply H|].
  intros Hshow. unfold SliderMarks.renderDefaultMarks. rewrite Hshow.
  now rewrite H.
Qed.

Lemma Slider_default_marks_diverge_witness :
  SliderMarks.defaultMarks 1000 0 100 0 = None.
Proof.
  apply (Slider_default_marks_diverge
           {| Slider.min := 0; Slider.max := 100; Slider.step := 0;
              Slider.defaultValue := Slider.single 0; Slider.value := None;
              Slider.disabled := false; Slider.showMarks := true;
              Slider.range := false; Slider.onChange := None;
              Slider.onDragStart := None; Slider.onDragEnd := None;
              Slider.className := ""; Slider.trackClassName := "";
              Slider.thumbClassName := "" |} 1000); cbn; lra.
Defined.

(** ** Popper: geometry, modifiers, listeners *)

(** X9. Before any modifier, the Popper never puts its content over the
    reference element: for every placement, an unknown one included, and
    every pair of offsets that are not negative, the content box at the
    computed position shares no area with the reference box. *)
Theorem Popper_unclamped_clear_of_reference :
  forall (placement : string) (refRect popperRect : Dom.DOMRect)
         (offsetX offsetY : Q),
    0 <= offsetX -> 0 <= offsetY ->
    ~ overlap
        (boxAt (Popper.placementPosition placement refRect popperRect offsetX offsetY)
               popperRect)
        refRect.
Proof.
  intros placement refRect popperRect offsetX offsetY Hx Hy.
  unfold Popper.placementPosition.
  repeat match goal with
         | |- context [(placement =? ?s)%string] =>
             destruct (placement =? s)%string
         end;
    unfold overlap, boxAt, Dom.right, Dom.bottom; cbn [fst snd Dom.top Dom.left
      Dom.width Dom.height]; intros [H1 [H2 [H3 H4]]]; lra.
Qed.

Lemma Popper_unclamped_clear_of_reference_witness :
  ~ overlap
      (boxAt (Popper.placementPosition "left-end" (Dom.mkRect 100 100 50 20)
                (Dom.mkRect 0 0 120 40) 0 8)
             (Dom.mkRect 0 0 120 40))
      (Dom.mkRect 100 100 50 20).
Proof.
  apply (Popper_unclamped_clear_of_reference "left-end"); lra.
Defined.

(** X10. The twelve cases of the Popper's [switch] are four rules for the
    main axis times three for the cross axis.  On the main axis the content
    is flush against the chosen side of the reference, pushed out by the
    offset of that axis; on the cross axis it is aligned by its leading
    edge, its midpoint or its trailing edge, shifted by the other offset.
    The twelve names are exactly the valid placements. *)
Theorem Popper_switch_is_side_times_alignment :
  forall (s : Side) (a : Alignment) (refRect popperRect : Dom.DOMRect)
         (offsetX offsetY : Q),
    let tl := Popper.placementPosition (placementName s a) refRect popperRect
                offsetX offsetY in
    validPlacement (placementName s a) = true
    /\ match s with
       | side_top | side_bottom =>
           fst tl == mainAxis s refRect popperRect offsetY
           /\ snd tl == crossAxis s a refRect popperRect + offsetX
       | side_left | side_right =>
           snd tl == mainAxis s refRect popperRect offsetX
           /\ fst tl == crossAxis s a refRect popperRect + offsetY
       end.
Proof.
  intros s a refRect popperRect offsetX offsetY.
  destruct s, a; cbv zeta; (split; [reflexivity|]);
    cbn [placementName sideName append Popper.placementPosition String.eqb
         Ascii.eqb Bool.eqb fst snd mainAxis crossAxis];
    unfold Dom.right, Dom.bottom; split; field.
Qed.

(** Every valid placement is the name of a side and an alignment. *)
Lemma validPlacement_is_named (placement : string) :
  validPlacement placement = true ->
  exists s a, placement = placementName s a.
Proof.
  unfold validPlacement, twelvePlacements. intros H.
  apply existsb_exists in H. destruct H as [x [Hin Heq]].
  apply String.eqb_eq in Heq. subst x.
  repeat (destruct Hin as [<-|Hin];
          [ first [ now exists side_top, align_center
                  | now exists side_top, align_start
                  | now exists side_top, align_end
                  | now exists side_bottom, align_center
                  | now exists side_bottom, align_start
                  | now exists side_bottom, align_end
                  | now exists side_left, align_center
                  | now exists side_left, align_start
                  | now exists side_left, align_end
                  | now exists side_right, align_center
                  | now exists side_right, align_start
                  | now exists side_right, align_end ] | ]).
  destruct Hin.
Qed.

Lemma applyModifier_preventOverflow (win : Dom.Window) (r : Dom.DOMRect) (tl : Q * Q)
    (m : Popper.PopperModifier) :
  Popper.isPreventOverflow m = true ->
  Popper.applyModifier win r tl m = Popper.applyModifier win r tl preventOverflow.
Proof. intros H. unfold Popper.applyModifier. now rewrite H. Qed.

(** The viewport modifier changes nothing when applied a second time. *)
Lemma preventOverflow_idempotent (win : Dom.Window) (r : Dom.DOMRect) (tl : Q * Q) :
  Popper.applyModifier win r (Popper.applyModifier win r tl preventOverflow)
    preventOverflow
  = Popper.applyModifier win r tl preventOverflow.
Proof.
  destruct tl as [t l]. unfold Popper.applyModifier.
  change (Popper.isPreventOverflow preventOverflow) with true. cbv iota zeta.
  set (vw := Dom.innerWidth win). set (vh := Dom.innerHeight win).
  set (w := Dom.width r). set (h := Dom.height r).
  f_equal.
  - destruct (Qlt_le_dec vh (t + h)) as [A|A].
    + destruct (Qlt_le_dec (vh - h - 8) 8) as [B|B].
      * destruct (Qlt_le_dec vh (8 + h)) as [C|C].
        -- destruct (Qlt_le_dec (vh - h - 8) 8); [reflexivity|lra].
        -- destruct (Qlt_le_dec 8 8); [lra|reflexivity].
      * destruct (Qlt_le_dec vh (vh - h - 8 + h)); [lra|].
        destruct (Qlt_le_dec (vh - h - 8) 8); [lra|reflexivity].
    + destruct (Qlt_le_dec t 8) as [B|B].
      * destruct (Qlt_le_dec vh (8 + h)) as [C|C].
        -- destruct (Qlt_le_dec (vh - h - 8) 8); [reflexivity|lra].
        -- destruct (Qlt_le_dec 8 8); [lra|reflexivity].
      * destruct (Qlt_le_dec vh (t + h)); [lra|].
        destruct (Qlt_le_dec t 8); [lra|reflexivity].
  - destruct (Qlt_le_dec vw (l + w)) as [A|A].
    + destruct (Qlt_le_dec (vw - w - 8) 8) as [B|B].
      * destruct (Qlt_le_dec vw (8 + w)) as [C|C].
        -- destruct (Qlt_le_dec (vw - w - 8) 8); [reflexivity|lra].
        -- destruct (Qlt_le_dec 8 8); [lra|reflexivity].
      * destruct (Qlt_le_dec vw (vw - w - 8 + w)); [lra|].
        destruct (Qlt_le_dec (vw - w - 8) 8); [lra|reflexivity].
    + destruct (Qlt_le_dec l 8) as [B|B].
      * destruct (Qlt_le_dec vw (8 + w)) as [C|C].
        -- destruct (Qlt_le_dec (vw - w - 8) 8); [reflexivity|lra].
        -- destruct (Qlt_le_dec 8 8); [lra|reflexivity].
      * destruct (Qlt_le_dec vw (l + w)); [lra|].
        destruct (Qlt_le_dec l 8); [lra|reflexivity].
Qed.

Lemma modifiers_collapse (win : Dom.Window) (popperRect : Dom.DOMRect)
    (ms : list Popper.PopperModifier) :
  forall tl : Q * Q,
    fold_left (Popper.applyModifier win popperRect) ms tl
    = if existsb Popper.isPreventOverflow ms
      then Popper.applyModifier win popperRect tl preventOverflow
      else tl.
Proof.
  induction ms as [|m ms IH]; intros tl; [reflexivity|].
  cbn [fold_left existsb]. destruct (Popper.isPreventOverflow m) eqn:E.
  - cbn [orb]. rewrite (applyModifier_preventOverflow _ _ _ _ E).
    apply modifiers_fixpoint. apply preventOverflow_idempotent.
  - cbn [orb]. rewrite applyModifier_other by assumption. apply IH.
Qed.

(** X11. Only the viewport modifier counts, and it counts once: a list of
    modifiers that holds it, any number of times and among any others,
    moves a position exactly as the single modifier does. *)
Theorem Popper_modifiers_collapse :
  forall (win : Dom.Window) (popperRect : Dom.DOMRect)
         (ms : list Popper.PopperModifier) (tl : Q * Q),
    fold_left (Popper.applyModifier win popperRect) ms tl
    = if existsb Popper.isPreventOverflow ms
      then Popper.applyModifier win popperRect tl preventOverflow
      else tl.
Proof.
  intros win popperRect ms. induction ms as [|m ms IH]; intros tl; [reflexivity|].
  cbn [fold_left existsb]. destruct (Popper.isPreventOverflow m) eqn:E; cbn [orb].
  - rewrite (applyModifier_preventOverflow _ _ _ _ E), IH.
    destruct (existsb Popper.isPreventOverflow ms); [|reflexivity].
    apply preventOverflow_idempotent.
  - rewrite applyModifier_other by assumption. apply IH.
Qed.

(** X12. Under the viewport modifier, content that fits beside one 8px
    margin stays inside the viewport: whatever the placement computed, the
    stored position (scroll offsets taken off) has top and left of at least
    8 and its far edges within [innerHeight] and [innerWidth]. *)
Theorem Popper_preventOverflow_inside_viewport :
  forall (p : Popper.PopperProps) (reference popper : Dom.Element)
         (win : Dom.Window),
    Popper.referenceElement p = Some reference ->
    existsb Popper.isPreventOverflow (Popper.modifiers p) = true ->
    Dom.width (Dom.getBoundingClientRect popper) + 8 <= Dom.innerWidth win ->
    Dom.height (Dom.getBoundingClientRect popper) + 8 <= Dom.innerHeight win ->
    exists s t l,
      Popper.updatePosition p (Some popper) win = Some s
      /\ Popper.s_top s = Dom.px (t + Dom.scrollY win)
      /\ Popper.s_left s = Dom.px (l + Dom.scrollX win)
      /\ 8 <= t /\ t + Dom.height (Dom.getBoundingClientRect popper) <= Dom.innerHeight win
      /\ 8 <= l /\ l + Dom.width (Dom.getBoundingClientRect popper) <= Dom.innerWidth win.
Proof.
  intros p reference popper win Href Hmod Hw Hh.
  unfold Popper.updatePosition. rewrite Href.
  destruct (Popper.offset p) as [offsetX offsetY].
  rewrite modifiers_collapse, Hmod.
  destruct (Popper.placementPosition _ _ _ _ _) as [t0 l0].
  unfold Popper.applyModifier.
  change (Popper.isPreventOverflow preventOverflow) with true. cbv iota zeta.
  eexists. eexists. eexists. split; [reflexivity|].
  cbn [Popper.s_top Popper.s_left].
  split; [reflexivity|]. split; [reflexivity|].
  repeat split;
    repeat match goal with
           | |- context [Qlt_le_dec ?a ?b] => destruct (Qlt_le_dec a b)
           end; lra.
Qed.

Lemma Popper_preventOverflow_inside_viewport_witness :
  exists s t l,
    Popper.updatePosition
      (popperAt anchorAtBottomEdge "bottom" [preventOverflow] (0, 8))
      (Some content120x100) viewport800x600 = Some s
    /\ Popper.s_top s = Dom.px (t + 0)
    /\ Popper.s_left s = Dom.px (l + 0)
    /\ 8 <= t /\ t + 100 <= 600
    /\ 8 <= l /\ l + 120 <= 800.
Proof.
  apply (Popper_preventOverflow_inside_viewport
           (popperAt anchorAtBottomEdge "bottom" [preventOverflow] (0, 8))
           (Dom.mkElement 1 anchorAtBottomEdge true true) content120x100
           viewport800x600); [reflexivity|reflexivity|cbn; lra|cbn; lra].
Defined.

(** X13. The Popper gives back every listener it takes: after the cleanups
    of a render's two effects, a registry that held none of that render's
    listeners is what it was before the effects, whether the Popper is open
    or not, measured or not, with or without [onClickOutside]. *)
Theorem Popper_listeners_removed :
  forall (render : nat) (p : Popper.PopperProps)
         (popperElement : option Dom.Element) (reg : list Dom.Listener),
    Forall (fun l => ~ In l reg) (popperListeners render) ->
    PopperEvents.cleanups render
      (snd (PopperEvents.effects render p popperElement reg))
      (fst (PopperEvents.effects render p popperElement reg))
    = reg.
Proof.
  intros render p popperElement reg Hfresh.
  assert (H1 : Forall (fun l => ~ In l reg) (firstn 2 (popperListeners render)))
    by (inversion Hfresh as [|? ? A Hr]; inversion Hr as [|? ? B _];
        repeat constructor; assumption).
  assert (H3 : Forall (fun l => ~ In l reg) (skipn 2 (popperListeners render)))
    by (inversion Hfresh as [|? ? A Hr]; inversion Hr as [|? ? B Hr'];
        exact Hr').
  unfold PopperEvents.effects, PopperEvents.cleanups, PopperEvents.positionEffect,
    PopperEvents.clickOutsideEffect.
  destruct (Popper.referenceElement p), popperElement, (Popper.onClickOutside p),
    (Popper.isOpen p); cbn [negb fst snd]; try reflexivity;
    first
      [ apply (removeAll_addAll (popperListeners render) (popperListeners render) reg);
        [apply incl_refl|exact Hfresh]
      | apply (removeAll_addAll (firstn 2 (popperListeners render))
                 (firstn 2 (popperListeners render)) reg);
        [apply incl_refl|exact H1]
      | apply (removeAll_addAll (skipn 2 (popperListeners render))
                 (skipn 2 (popperListeners render)) reg);
        [apply incl_refl|exact H3] ].
Qed.

Lemma Popper_listeners_removed_witness :
  PopperEvents.cleanups 1
    (snd (PopperEvents.effects 1
            (popperAt anchorAtBottomEdge "bottom" [] (0, 8)) (Some content120x100) []))
    (fst (PopperEvents.effects 1
            (popperAt anchorAtBottomEdge "bottom" [] (0, 8)) (Some content120x100) []))
  = [].
Proof.
  apply (Popper_listeners_removed 1). repeat constructor; intros [].
Defined.

(** ** Popover: geometry, arrow, callbacks *)

(** X14. The twelve cases of the Popover's [switch] are four rules for the
    main axis times three for the cross axis: flush against the chosen side
    of the trigger and [offset] further out; along the side, leading edges,
    midpoints or trailing edges aligned, with no offset. *)
Theorem Popover_switch_is_side_times_alignment :
  forall (s : Side) (a : Alignment) (triggerRect contentRect : Dom.DOMRect)
         (offset : Q),
    let tl := Popover.positionOf (placementName s a) triggerRect contentRect offset in
    match s with
    | side_top | side_bottom =>
        fst tl == mainAxis s triggerRect contentRect offset
        /\ snd tl == crossAxis s a triggerRect contentRect
    | side_left | side_right =>
        snd tl == mainAxis s triggerRect contentRect offset
        /\ fst tl == crossAxis s a triggerRect contentRect
    end.
Proof.
  intros s a triggerRect contentRect offset.
  destruct s, a; cbv zeta;
    cbn [placementName sideName append Popover.positionOf String.eqb
         Ascii.eqb Bool.eqb fst snd mainAxis crossAxis];
    unfold Dom.right, Dom.bottom; split; field.
Qed.

(** The position of the Popover before the viewport test is clear of the
    trigger. *)
Lemma positionOf_clear_of_trigger (position : string)
    (triggerRect contentRect : Dom.DOMRect) (offset : Q) :
  0 <= offset ->
  ~ overlap (boxAt (Popover.positionOf position triggerRect contentRect offset)
                   contentRect)
            triggerRect.
Proof.
  intros Hoff. unfold Popover.positionOf.
  repeat match goal with
         | |- context [(position =? ?s)%string] =>
             destruct (position =? s)%string
         end;
    unfold overlap, boxAt, Dom.right, Dom.bottom; cbn [fst snd Dom.top Dom.left
      Dom.width Dom.height]; intros [H1 [H2 [H3 H4]]]; lra.
Qed.

(** X15. Where there is room, the open Popover goes exactly where its
    position says and does not cover the trigger: if the content box at the
    computed position keeps 10px from every edge of the viewport, that
    position is written unchanged, and for an offset that is not negative
    the box shares no area with the trigger. *)
Theorem Popover_with_room_clear_of_trigger :
  forall (p : Popover.PopoverProps) (st : Popover.PopoverState)
         (triggerElement contentElement : Dom.Element)
         (arrow : option Popover.ArrowStyle) (win : Dom.Window),
    let triggerRect := Dom.getBoundingClientRect triggerElement in
    let contentRect := Dom.getBoundingClientRect contentElement in
    let tl := Popover.positionOf (Popover.position p) triggerRect contentRect
                (Popover.offset p) in
    Popover.isOpen p st = true ->
    10 <= fst tl -> fst tl + Dom.height contentRect <= Dom.innerHeight win - 10 ->
    10 <= snd tl -> snd tl + Dom.width contentRect <= Dom.innerWidth win - 10 ->
    exists r,
      Popover.updatePosition p st (Some triggerElement) (Some contentElement) arrow win
      = Some r
      /\ Popover.style_top r = fst tl
      /\ Popover.style_left r = snd tl
      /\ (0 <= Popover.offset p ->
          ~ overlap (boxAt (Popover.style_top r, Popover.style_left r) contentRect)
                    triggerRect).
Proof.
  intros p st triggerElement contentElement arrow win triggerRect contentRect tl
         Hopen Ht1 Ht2 Hl1 Hl2.
  pose proof (positionOf_clear_of_trigger (Popover.position p) triggerRect
                contentRect (Popover.offset p)) as Hclear.
  fold tl in Hclear.
  unfold Popover.updatePosition. rewrite Hopen. cbn [negb].
  fold triggerRect contentRect tl. destruct tl as [t l]. cbn [fst snd] in *.
  rewrite (keepInViewport_inside l _ _ Hl1 Hl2), (keepInViewport_inside t _ _ Ht1 Ht2).
  eexists. split; [reflexivity|]. cbn [Popover.style_top Popover.style_left].
  split; [reflexivity|]. split; [reflexivity|]. exact Hclear.
Qed.

Lemma Popover_with_room_clear_of_trigger_witness :
  exists r,
    Popover.updatePosition popoverWithCallbacks popoverOpen
      (Some (Dom.mkElement 1 (Dom.mkRect 100 100 50 20) true true))
      (Some (Dom.mkElement 2 (Dom.mkRect 0 0 120 40) true true))
      None viewport800x600
    = Some r
    /\ Popover.style_top r
       = fst (Popover.positionOf "bottom" (Dom.mkRect 100 100 50 20)
                (Dom.mkRect 0 0 120 40) 8)
    /\ Popover.style_left r
       = snd (Popover.positionOf "bottom" (Dom.mkRect 100 100 50 20)
                (Dom.mkRect 0 0 120 40) 8)
    /\ ~ overlap (boxAt (Popover.style_top r, Popover.style_left r)
                        (Dom.mkRect 0 0 120 40))
                 (Dom.mkRect 100 100 50 20).
Proof.
  destruct (Popover_with_room_clear_of_trigger popoverWithCallbacks popoverOpen
              (Dom.mkElement 1 (Dom.mkRect 100 100 50 20) true true)
              (Dom.mkElement 2 (Dom.mkRect 0 0 120 40) true true)
              None viewport800x600)
    as [r [Hr [Ht [Hl Hclear]]]];
    try first [reflexivity | vm_compute; discriminate].
  exists r. split; [exact Hr|]. split; [exact Ht|]. split; [exact Hl|].
  apply Hclear. vm_compute; discriminate.
Defined.

(** X16. The arrow of a Popover depends on the side only: for each of the
    twelve positions it sits in the middle of the content's edge that faces
    the trigger, 6px outside it, whatever the alignment. *)
Theorem Popover_arrow_faces_trigger :
  forall (s : Side) (a : Alignment) (arrow : Popover.ArrowStyle),
    Popover.arrowStyleOf (placementName s a) arrow
    = Popover.arrowStyleOf (sideName s) arrow
    /\ facingInset s (Popover.arrowStyleOf (placementName s a) arrow) = Some "-6px"
    /\ match s with
       | side_top | side_bottom =>
           Popover.a_left (Popover.arrowStyleOf (placementName s a) arrow) = Some "50%"
       | side_left | side_right =>
           Popover.a_top (Popover.arrowStyleOf (placementName s a) arrow) = Some "50%"
       end.
Proof.
  intros s a arrow. destruct s, a; repeat split; reflexivity.
Qed.

(** X17. An uncontrolled Popover never reports two openings in a row:
    whatever sequence of toggle, close and reposition calls it receives, in
    the callbacks it invokes no [onOpen] directly follows another; and a
    Popover that starts open does not begin with [onOpen]. *)
Theorem Popover_never_opens_twice :
  forall (p : Popover.PopoverProps) (ho hc : Dom.Handler)
         (cs : list Popover.Call) (st : Popover.PopoverState),
    Popover.controlled p = false ->
    Popover.onOpen p = Some ho -> Popover.onClose p = Some hc -> ho <> hc ->
    neverTwiceInARow ho (snd (Popover.run p cs st))
    /\ (Popover.internalIsOpen st = true ->
        hd_error (snd (Popover.run p cs st)) <> Some ho).
Proof.
  intros p ho hc cs st Hc Ho Hcl Hne. revert st.
  induction cs as [|c cs IH]; intros st.
  - cbn. split; [exact I|discriminate].
  - cbn [Popover.run].
    destruct (Popover.step p c st) as [st' out] eqn:Hstep.
    destruct (IH st') as [IH1 IH2].
    destruct (Popover.run p cs st') as [sts outs]. cbn [snd] in *.
    unfold Popover.step, Popover.handleToggle, Popover.handleClose in Hstep.
    rewrite Hc, Ho, Hcl in Hstep.
    destruct c.
    + destruct (Popover.internalIsOpen st) eqn:Hst; cbn in Hstep;
        injection Hstep as <- <-; cbn [app].
      * split; [|intros _ H; injection H as H; apply Hne; now symmetry].
        destruct outs as [|b outs']; [exact I|]. split; [|exact IH1].
        intros [H _]. apply Hne. now symmetry.
      * split; [|discriminate].
        destruct outs as [|b outs']; [exact I|]. split; [|exact IH1].
        intros [_ H]. apply (IH2 eq_refl). cbn. now rewrite H.
    + cbn in Hstep. injection Hstep as <- <-. cbn [app].
      split; [|intros _ H; injection H as H; apply Hne; now symmetry].
      destruct outs as [|b outs']; [exact I|]. split; [|exact IH1].
      intros [H _]. apply Hne. now symmetry.
    + injection Hstep as <- <-. cbn [app]. split; [exact IH1|exact IH2].
Qed.

Lemma Popover_never_opens_twice_witness :
  neverTwiceInARow onOpen_cb
    (snd (Popover.run popoverWithCallbacks
            [Popover.toggle; Popover.reposition; Popover.toggle; Popover.close;
             Popover.toggle]
            Popover.initialState)).
Proof.
  apply (Popover_never_opens_twice popoverWithCallbacks onOpen_cb onClose_cb);
    [reflexivity|reflexivity|reflexivity|discriminate].
Defined.

(** ** Drawer *)

(** X18. A Drawer listens to the document only while it is temporary and
    open, and gives back what it took: the effect of any other drawer
    leaves the registry alone and returns no cleanup, and after the cleanup
    of a temporary open one a registry that held none of the render's
    listeners is what it was. *)
Theorem Drawer_listeners_removed :
  forall (render : nat) (p : Drawer.DrawerProps) (reg : list Dom.Listener),
    Forall (fun l => ~ In l reg) (drawerListeners render) ->
    Drawer.cleanup render (snd (Drawer.effect render p reg))
      (fst (Drawer.effect render p reg)) = reg
    /\ snd (Drawer.effect render p reg)
       = ((Drawer.variant p =? "temporary")%string && Drawer.open p)
    /\ (snd (Drawer.effect render p reg) = false ->
        fst (Drawer.effect render p reg) = reg)
    /\ (snd (Drawer.effect render p reg) = true ->
        forall l, In l (drawerListeners render) ->
                  In l (fst (Drawer.effect render p reg))).
Proof.
  intros render p reg Hfresh. unfold Drawer.effect, Drawer.cleanup.
  destruct (Drawer.variant p =? "temporary")%string, (Drawer.open p);
    cbn [negb orb andb fst snd]; repeat split; try discriminate.
  - apply (removeAll_addAll (drawerListeners render) (drawerListeners render) reg);
      [apply incl_refl|exact Hfresh].
  - intros _ l [<-|[<-|[]]].
    + apply addEventListener_keeps, addEventListener_In.
    + apply addEventListener_In.
Qed.

Lemma Drawer_listeners_removed_witness :
  Drawer.cleanup 1 (snd (Drawer.effect 1 (Drawer.defaultProps true "menu") []))
    (fst (Drawer.effect 1 (Drawer.defaultProps true "menu") [])) = [].
Proof.
  apply (Drawer_listeners_removed 1 (Drawer.defaultProps true "menu") []).
  repeat constructor; intros [].
Defined.

(** X19. A Drawer calls [onClose] only in the ways its variant allows.  If
    an event makes it invoke a callback, then either the drawer is
    temporary and open and the event is a mouse press outside it, the
    Escape key or a click on the backdrop, or the drawer is persistent and
    the event is a click on its close button.  A permanent drawer never
    calls [onClose]; a persistent one does so from its close button whether
    it is open or not. *)
Theorem Drawer_dismissal_by_variant :
  forall (styles : string -> option string) (p : Drawer.DrawerProps)
         (ev : DrawerEvent),
    drawerReacts styles p ev <> [] ->
    drawerReacts styles p ev = Drawer.optionalCall (Drawer.onClose p)
    /\ ((Drawer.variant p = "temporary" /\ Drawer.open p = true
         /\ (ev = drawer_clickBackdrop
             \/ ev = drawer_keydown "Escape"
             \/ exists el, ev = drawer_mousedown (Some el) false))
        \/ (Drawer.variant p = "persistent" /\ ev = drawer_clickCloseButton)).
Proof.
  intros styles p ev. unfold drawerReacts, Drawer.effect, Drawer.render.
  destruct (Drawer.variant p =? "permanent")%string eqn:Eperm.
  - apply String.eqb_eq in Eperm. rewrite Eperm.
    destruct ev; cbn; intros H; exfalso; now apply H.
  - destruct (Drawer.variant p =? "temporary")%string eqn:Etemp.
    + apply String.eqb_eq in Etemp. rewrite Etemp.
      change ("temporary" =? "persistent")%string with false.
      destruct (Drawer.open p); cbn [negb orb andb fst snd Drawer.backdrop
        Drawer.closeButton Drawer.panel];
        destruct ev as [drawerRef inside|key| |];
        try (intros H; exfalso; now apply H).
      * unfold Drawer.handleClickOutside. destruct drawerRef as [el|];
          [|intros H; exfalso; now apply H].
        destruct inside; cbn [negb]; [intros H; exfalso; now apply H|].
        intros _. split; [reflexivity|]. left. repeat split. right. right.
        now exists el.
      * unfold Drawer.handleEscapeKey.
        destruct (key =? "Escape")%string eqn:Ek;
          [|intros H; exfalso; now apply H].
        apply String.eqb_eq in Ek. subst key. intros _. split; [reflexivity|].
        left. repeat split. right. now left.
      * intros _. split; [reflexivity|]. left. repeat split. now left.
    + cbn [negb orb andb fst snd Drawer.backdrop Drawer.closeButton Drawer.panel].
      destruct ev; try (intros H; exfalso; now apply H).
      destruct (Drawer.variant p =? "persistent")%string eqn:Epers;
        [|intros H; exfalso; now apply H].
      apply String.eqb_eq in Epers. intros _. split; [reflexivity|].
      right. split; [assumption|reflexivity].
Qed.

Lemma Drawer_dismissal_by_variant_witness :
  drawerReacts (fun _ => None)
    {| Drawer.open := false; Drawer.onClose := Some onClose_cb;
       Drawer.children := "menu"; Drawer.anchor := "left";
       Drawer.variant := "persistent"; Drawer.width := "300px";
       Drawer.height := "300px"; Drawer.className := ""; Drawer.zIndex := 1000%Z |}
    drawer_clickCloseButton
  = [onClose_cb].
Proof.
  apply (Drawer_dismissal_by_variant (fun _ => None)
           {| Drawer.open := false; Drawer.onClose := Some onClose_cb;
              Drawer.children := "menu"; Drawer.anchor := "left";
              Drawer.variant := "persistent"; Drawer.width := "300px";
              Drawer.height := "300px"; Drawer.className := "";
              Drawer.zIndex := 1000%Z |}
           drawer_clickCloseButton).
  discriminate.
Defined.

(** ** Alert *)

Lemma isPending_cleared (id : nat) (t : Timers.Timers) :
  Timers.isPending id (Timers.clearTimeout id t) = false.
Proof.
  unfold Timers.isPending, Timers.clearTimeout. cbn [Timers.pending].
  destruct (existsb _ _) eqn:E; [|reflexivity].
  apply existsb_exists in E. destruct E as [x [Hin Hx]].
  apply filter_In in Hin. destruct Hin as [_ Hne]. now rewrite Hx in Hne.
Qed.

Lemma isPending_set (t : Timers.Timers) :
  Timers.isPending (fst (Timers.setTimeout t)) (snd (Timers.setTimeout t)) = true.
Proof.
  unfold Timers.isPending, Timers.setTimeout. cbn [fst snd Timers.pending].
  rewrite existsb_app. cbn. now rewrite Nat.eqb_refl, orb_true_r.
Qed.

(** Each callback an Alert without action button invokes uses up one unit of
    its budget, and an Alert that is hidden stays hidden. *)
Lemma Alert_react_budget (p : Alert.AlertProps) (e : Alert.Event) (m : Alert.Mounted) :
  alertActionButton p = false ->
  (List.length (snd (Alert.react p e m)) + alertBudget (fst (Alert.react p e m))
   <= alertBudget m)%nat
  /\ (Alert.visible m = false -> Alert.visible (fst (Alert.react p e m)) = false)
  /\ (snd (Alert.react p e m) <> [] -> Alert.visible (fst (Alert.react p e m)) = false).
Proof.
  intros Hact. unfold Alert.react, alertBudget, alertOwnPending.
  destruct e as [| |id].
  - destruct (Alert.visible m) eqn:Hv; cbn [andb].
    + destruct (Alert.dismissible p).
      * unfold Alert.handleClose. cbn [fst snd Alert.visible Alert.timer Alert.timers].
        repeat split; try reflexivity.
        destruct (Alert.onClose p); cbn; lia.
      * cbn [fst snd]. rewrite Hv.
        repeat split; try discriminate; try (cbn; lia);
        try (intros H; exfalso; now apply H).
    + cbn [fst snd]. rewrite Hv.
      repeat split; try reflexivity; try (cbn; lia);
      try (intros H; exfalso; now apply H).
  - assert (E : match Alert.actionText p, Alert.onAction p with
                | Some text, Some h =>
                    if Alert.visible m && negb (text =? "")
                    then (m, [h]) else (m, [])
                | _, _ => (m, [])
                end = (m, [])).
    { unfold alertActionButton in Hact.
      destruct (Alert.actionText p) as [text|]; [|reflexivity].
      destruct (Alert.onAction p) as [h|]; [|reflexivity].
      rewrite Hact, andb_false_r. reflexivity. }
    rewrite E. cbn [fst snd].
    repeat split; try (cbn; lia); try tauto;
    try (intros H; exfalso; now apply H).
  - destruct (Alert.timer m) as [own|] eqn:Ht.
    + destruct (Nat.eqb id own) eqn:Eid; cbn [andb].
      * apply Nat.eqb_eq in Eid. subst own.
        destruct (Timers.isPending id (Alert.timers m)) eqn:Ep.
        -- unfold Alert.handleClose.
           cbn [fst snd Alert.visible Alert.timer Alert.timers].
           rewrite isPending_cleared. repeat split; try reflexivity.
           destruct (Alert.onClose p), (Alert.visible m); cbn; lia.
        -- cbn [fst snd]. rewrite Ht, Ep.
           repeat split; try (cbn; lia); try tauto;
           try (intros H; exfalso; now apply H).
      * cbn [fst snd]. rewrite Ht.
        repeat split; try (cbn; lia); try tauto;
        try (intros H; exfalso; now apply H).
    + cbn [fst snd]. rewrite Ht.
      repeat split; try (cbn; lia); try tauto;
      try (intros H; exfalso; now apply H).
Qed.

Lemma Alert_run_budget (p : Alert.AlertProps) (es : list Alert.Event) :
  alertActionButton p = false ->
  forall m,
    (List.length (snd (Alert.run p es m)) + alertBudget (fst (Alert.run p es m))
     <= alertBudget m)%nat
    /\ (Alert.visible m = false \/ snd (Alert.run p es m) <> [] ->
        Alert.visible (fst (Alert.run p es m)) = false).
Proof.
  intros Hact. induction es as [|e es IH]; intros m.
  - cbn. split; [lia|]. intros [H|H]; [exact H|exfalso; now apply H].
  - cbn [Alert.run].
    destruct (Alert_react_budget p e m Hact) as [Hb [Hv Hout]].
    destruct (Alert.react p e m) as [m' out]. cbn [fst snd] in *.
    destruct (IH m') as [IHb IHv].
    destruct (Alert.run p es m') as [m'' outs]. cbn [fst snd] in *.
    split.
    + rewrite length_app. lia.
    + intros [H|H].
      * apply IHv. left. now apply Hv.
      * destruct out as [|o out'].
        -- apply IHv. right. exact H.
        -- apply IHv. left. apply Hout. discriminate.
Qed.

(** X20. An Alert that renders no action button (no [actionText], an empty
    one, or no [onAction]) invokes [onClose] at most twice over any sequence
    of clicks and timeouts after it is mounted, and at most once when it has
    no auto-hide duration; once it has invoked it, the Alert is hidden, and
    it never shows again. *)
Theorem Alert_closes_at_most_twice :
  forall (p : Alert.AlertProps) (es : list Alert.Event) (t : Timers.Timers),
    alertActionButton p = false ->
    let r := Alert.run p es (Alert.mount p t) in
    (List.length (snd r) <= 2)%nat
    /\ (Alert.autoHideDuration p <= 0 -> (List.length (snd r) <= 1)%nat)
    /\ (snd r <> [] -> Alert.visible (fst r) = false)
    /\ (forall es', Alert.visible (fst r) = false ->
                    Alert.visible (fst (Alert.run p es' (fst r))) = false).
Proof.
  intros p es t Hact. cbv zeta.
  destruct (Alert_run_budget p es Hact (Alert.mount p t)) as [Hb Hv].
  assert (Hm : (alertBudget (Alert.mount p t) <= 2)%nat).
  { unfold alertBudget. destruct (Alert.visible _), (alertOwnPending _); cbn; lia. }
  repeat split.
  - lia.
  - intros Hdur.
    assert (H1 : alertBudget (Alert.mount p t) = 1%nat).
    { unfold Alert.mount. destruct (Qlt_le_dec 0 (Alert.autoHideDuration p)); [lra|].
      reflexivity. }
    lia.
  - intros H. apply Hv. now right.
  - intros es' H. apply (Alert_run_budget p es' Hact). now left.
Qed.

Lemma Alert_closes_at_most_twice_witness :
  (List.length
     (snd (Alert.run
             {| Alert.message := "Saved"; Alert.description := None;
                Alert.severity := "info"; Alert.dismissible := true;
                Alert.autoHideDuration := 3000; Alert.actionText := None;
                Alert.onAction := None; Alert.onClose := Some onClose_cb;
                Alert.className := "" |}
             [Alert.clickClose; Alert.timeout 1; Alert.clickClose; Alert.timeout 1]
             (Alert.mount
                {| Alert.message := "Saved"; Alert.description := None;
                   Alert.severity := "info"; Alert.dismissible := true;
                   Alert.autoHideDuration := 3000; Alert.actionText := None;
                   Alert.onAction := None; Alert.onClose := Some onClose_cb;
                   Alert.className := "" |}
                Timers.none))) <= 2)%nat.
Proof.
  apply (Alert_closes_at_most_twice
           {| Alert.message := "Saved"; Alert.description := None;
              Alert.severity := "info"; Alert.dismissible := true;
              Alert.autoHideDuration := 3000; Alert.actionText := None;
              Alert.onAction := None; Alert.onClose := Some onClose_cb;
              Alert.className := "" |}
           [Alert.clickClose; Alert.timeout 1; Alert.clickClose; Alert.timeout 1]
           Timers.none).
  reflexivity.
Defined.

(** X21. Closing an Alert by hand does not cancel its auto-hide: if the
    Alert stays mounted, its timeout still comes due and [onClose] is
    invoked a second time.  Only the cleanup on unmount clears the
    timeout. *)
Theorem Alert_dismissed_then_timeout :
  forall (p : Alert.AlertProps) (t : Timers.Timers) (h : Dom.Handler),
    0 < Alert.autoHideDuration p ->
    Alert.dismissible p = true ->
    Alert.onClose p = Some h ->
    snd (Alert.run p [Alert.clickClose; Alert.timeout (Timers.nextId t)]
           (Alert.mount p t))
    = [h; h]
    /\ Alert.timer (Alert.mount p t) = Some (Timers.nextId t)
    /\ Timers.isPending (Timers.nextId t) (Alert.timers (Alert.mount p t)) = true
    /\ Timers.isPending (Timers.nextId t) (Alert.cleanup (Alert.mount p t)) = false.
Proof.
  intros p t h Hdur Hdis Hclose.
  pose proof (isPending_set t) as Hset. cbn [Timers.setTimeout fst snd] in Hset.
  unfold Alert.mount. destruct (Qlt_le_dec 0 (Alert.autoHideDuration p)); [|lra].
  cbn [Timers.setTimeout Alert.timer Alert.timers Alert.cleanup].
  repeat split.
  - cbn [Alert.run Alert.react Alert.visible andb]. rewrite Hdis.
    unfold Alert.handleClose at 1. rewrite Hclose.
    cbn [Alert.visible Alert.timer Alert.timers].
    rewrite Nat.eqb_refl, Hset. cbn [andb].
    unfold Alert.handleClose. rewrite Hclose. reflexivity.
  - exact Hset.
  - apply isPending_cleared.
Qed.

Lemma Alert_dismissed_then_timeout_witness :
  snd (Alert.run
         {| Alert.message := "Saved"; Alert.description := None;
            Alert.severity := "info"; Alert.dismissible := true;
            Alert.autoHideDuration := 3000; Alert.actionText := None;
            Alert.onAction := None; Alert.onClose := Some onClose_cb;
            Alert.className := "" |}
         [Alert.clickClose; Alert.timeout 1]
         (Alert.mount
            {| Alert.message := "Saved"; Alert.description := None;
               Alert.severity := "info"; Alert.dismissible := true;
               Alert.autoHideDuration := 3000; Alert.actionText := None;
               Alert.onAction := None; Alert.onClose := Some onClose_cb;
               Alert.className := "" |}
            Timers.none))
  = [onClose_cb; onClose_cb].
Proof.
  apply (Alert_dismissed_then_timeout
           {| Alert.message := "Saved"; Alert.description := None;
              Alert.severity := "info"; Alert.dismissible := true;
              Alert.autoHideDuration := 3000; Alert.actionText := None;
              Alert.onAction := None; Alert.onClose := Some onClose_cb;
              Alert.className := "" |}
           Timers.none onClose_cb); [cbn; lra|reflexivity|reflexivity].
Defined.

(** ** Tooltip *)

Lemma clearTimeout_single (id : nat) (next : nat) :
  Timers.clearTimeout id (Timers.mkTimers [id] next) = Timers.mkTimers [] next.
Proof.
  unfold Timers.clearTimeout. cbn. now rewrite Nat.eqb_refl.
Qed.

Lemma clearTimeout_none (id : nat) (t : Timers.Timers) :
  Timers.pending t = [] -> Timers.pending (Timers.clearTimeout id t) = [].
Proof. intros H. unfold Timers.clearTimeout. cbn. now rewrite H. Qed.

(** After the timeout in [timerRef] is cleared, none is pending. *)
Lemma oneTimer_cleared (st : Tooltip.TooltipState) :
  oneTimer st ->
  Timers.pending
    (match Tooltip.timerRef st with
     | Some id => Timers.clearTimeout id (Tooltip.timers st)
     | None => Tooltip.timers st
     end) = [].
Proof.
  intros [H|[id [H Href]]].
  - destruct (Tooltip.timerRef st); [now apply clearTimeout_none|exact H].
  - rewrite Href. destruct (Tooltip.timers st) as [pending next].
    cbn in H. subst pending. now rewrite clearTimeout_single.
Qed.

Lemma Tooltip_react_oneTimer (p : Tooltip.TooltipProps) (e : Tooltip.Event)
    (st : Tooltip.TooltipState) :
  oneTimer st -> oneTimer (Tooltip.react p e st).
Proof.
  intros Hinv. pose proof (oneTimer_cleared st Hinv) as Hclear.
  destruct e as [| |id]; cbn [Tooltip.react].
  - unfold Tooltip.showTooltip. destruct (Tooltip.disabled p); [exact Hinv|].
    unfold Timers.setTimeout. right.
    cbn [Tooltip.timers Tooltip.timerRef Timers.pending].
    rewrite Hclear. eexists. split; reflexivity.
  - unfold Tooltip.hideTooltip. left.
    destruct (Tooltip.timerRef st); cbn [Tooltip.timers]; exact Hclear.
  - unfold Tooltip.timeout.
    destruct (Timers.isPending id (Tooltip.timers st)) eqn:Ep; [|exact Hinv].
    left. cbn [Tooltip.timers].
    destruct Hinv as [H|[id0 [H Href]]].
    + now apply clearTimeout_none.
    + unfold Timers.isPending in Ep. rewrite H in Ep. cbn in Ep.
      rewrite orb_false_r in Ep. apply Nat.eqb_eq in Ep. subst id0.
      destruct (Tooltip.timers st) as [pending next]. cbn in H. subst pending.
      now rewrite clearTimeout_single.
Qed.

Lemma Tooltip_run_oneTimer (p : Tooltip.TooltipProps) (es : list Tooltip.Event) :
  forall st, oneTimer st -> oneTimer (Tooltip.run p es st).
Proof.
  unfold Tooltip.run. induction es as [|e es IH]; intros st H; [exact H|].
  cbn [fold_left]. apply IH. now apply Tooltip_react_oneTimer.
Qed.

(** X22. A Tooltip never has more than one timeout pending, however the
    pointer enters and leaves and whichever timeouts come due: a new hover
    clears the timeout of the one before, and the one pending is always the
    one [timerRef] holds. *)
Theorem Tooltip_one_timer :
  forall (p : Tooltip.TooltipProps) (es : list Tooltip.Event),
    let st := Tooltip.run p es Tooltip.initialState in
    (List.length (Timers.pending (Tooltip.timers st)) <= 1)%nat
    /\ (forall id, In id (Timers.pending (Tooltip.timers st)) ->
                   Tooltip.timerRef st = Some id)
    /\ Timers.pending (Tooltip.unmount st) = [].
Proof.
  intros p es st.
  assert (Hinv : oneTimer st)
    by (apply Tooltip_run_oneTimer; left; reflexivity).
  pose proof (oneTimer_cleared st Hinv) as Hclear.
  destruct Hinv as [H|[id [H Href]]]; rewrite H; repeat split.
  - cbn. lia.
  - intros id [].
  - exact Hclear.
  - cbn. lia.
  - intros id' [<-|[]]. exact Href.
  - exact Hclear.
Qed.

(** With no timeout pending, timeouts coming due change nothing. *)
Lemma Tooltip_dues_nothing (p : Tooltip.TooltipProps) (ids : list nat) :
  forall st, Timers.pending (Tooltip.timers st) = [] ->
             Tooltip.run p (map Tooltip.due ids) st = st.
Proof.
  unfold Tooltip.run. induction ids as [|id ids IH]; intros st H; [reflexivity|].
  cbn [map fold_left Tooltip.react]. unfold Tooltip.timeout, Timers.isPending.
  rewrite H. cbn [existsb]. now apply IH.
Qed.

(** X23. A hover that ends before the delay has passed never shows the
    Tooltip: after a leave, whatever went on before, no timeout that comes
    due makes the Tooltip visible. *)
Theorem Tooltip_leave_cancels_show :
  forall (p : Tooltip.TooltipProps) (es : list Tooltip.Event) (ids : list nat),
    let st := Tooltip.run p (es ++ Tooltip.leave :: map Tooltip.due ids)%list
                Tooltip.initialState in
    Tooltip.isVisible st = false
    /\ Timers.pending (Tooltip.timers st) = [].
Proof.
  intros p es ids. cbv zeta. unfold Tooltip.run. rewrite fold_left_app.
  fold (Tooltip.run p es Tooltip.initialState).
  set (before := Tooltip.run p es Tooltip.initialState).
  assert (Hinv : oneTimer before)
    by (apply Tooltip_run_oneTimer; left; reflexivity).
  cbn [fold_left Tooltip.react].
  assert (Hleft : Timers.pending (Tooltip.timers (Tooltip.hideTooltip before)) = []
                  /\ Tooltip.isVisible (Tooltip.hideTooltip before) = false).
  { pose proof (oneTimer_cleared before Hinv) as Hclear.
    unfold Tooltip.hideTooltip. destruct (Tooltip.timerRef before);
      cbn [Tooltip.timers Tooltip.isVisible]; split; try reflexivity; exact Hclear. }
  destruct Hleft as [Hp Hv].
  fold (Tooltip.run p (map Tooltip.due ids) (Tooltip.hideTooltip before)).
  rewrite (Tooltip_dues_nothing p ids _ Hp). split; assumption.
Qed.

(** X24. A disabled Tooltip never shows and never sets a timeout, whatever
    happens to it. *)
Theorem Tooltip_disabled_never_shows :
  forall (p : Tooltip.TooltipProps) (es : list Tooltip.Event),
    Tooltip.disabled p = true ->
    Tooltip.isVisible (Tooltip.run p es Tooltip.initialState) = false
    /\ Timers.pending (Tooltip.timers (Tooltip.run p es Tooltip.initialState)) = [].
Proof.
  intros p es Hdis.
  assert (H : forall st,
             Tooltip.isVisible st = false /\ Timers.pending (Tooltip.timers st) = [] ->
             Tooltip.isVisible (Tooltip.run p es st) = false
             /\ Timers.pending (Tooltip.timers (Tooltip.run p es st)) = []).
  { unfold Tooltip.run. induction es as [|e es IH]; intros st [Hv Hp]; [now split|].
    cbn [fold_left]. apply IH. destruct e as [| |id]; cbn [Tooltip.react].
    - unfold Tooltip.showTooltip. rewrite Hdis. now split.
    - unfold Tooltip.hideTooltip.
      destruct (Tooltip.timerRef st); cbn [Tooltip.isVisible Tooltip.timers];
        split; try reflexivity; [now apply clearTimeout_none|exact Hp].
    - unfold Tooltip.timeout, Timers.isPending. rewrite Hp. cbn [existsb].
      now split. }
  apply H. split; reflexivity.
Qed.

Lemma Tooltip_disabled_never_shows_witness :
  Tooltip.isVisible
    (Tooltip.run
       {| Tooltip.content := "Help"; Tooltip.children := "?";
          Tooltip.position := "top"; Tooltip.showArrow := true;
          Tooltip.className := ""; Tooltip.delay := 300;
          Tooltip.disabled := true; Tooltip.maxWidth := 250 |}
       [Tooltip.enter; Tooltip.due 1; Tooltip.enter]
       Tooltip.initialState) = false.
Proof.
  apply (Tooltip_disabled_never_shows
           {| Tooltip.content := "Help"; Tooltip.children := "?";
              Tooltip.position := "top"; Tooltip.showArrow := true;
              Tooltip.className := ""; Tooltip.delay := 300;
              Tooltip.disabled := true; Tooltip.maxWidth := 250 |}
           [Tooltip.enter; Tooltip.due 1; Tooltip.enter]).
  reflexivity.
Defined.

(** X25. A visible Tooltip is centred on its trigger and 8px away from it.
    For each of the four positions the effect sets one inset per axis and
    leaves the other two empty: across the side, the inset that puts the
    tooltip's near edge 8px from the trigger's edge (measured from the far
    edge of the viewport for [top] and [left]); along the side, the inset
    that puts the tooltip's midpoint on the trigger's. *)
Theorem Tooltip_centred_on_trigger :
  forall (p : Tooltip.TooltipProps) (s : Side)
         (tooltipElement triggerElement : Dom.Element) (win : Dom.Window),
    Tooltip.position p = sideName s ->
    let tooltipRect := Dom.getBoundingClientRect tooltipElement in
    let triggerRect := Dom.getBoundingClientRect triggerElement in
    exists a b,
      Tooltip.positionEffect p true (Some tooltipElement) (Some triggerElement) win
      = Some match s with
             | side_top => Tooltip.mkInsets None None (Some a) (Some b)
             | side_bottom => Tooltip.mkInsets (Some a) None None (Some b)
             | side_left => Tooltip.mkInsets (Some b) (Some a) None None
             | side_right => Tooltip.mkInsets (Some b) None None (Some a)
             end
      /\ match s with
         | side_top => Dom.innerHeight win - a == Dom.top triggerRect - 8
         | side_bottom => a == Dom.bottom triggerRect + 8
         | side_left => Dom.innerWidth win - a == Dom.left triggerRect - 8
         | side_right => a == Dom.right triggerRect + 8
         end
      /\ match s with
         | side_top | side_bottom =>
             b + Dom.width tooltipRect / 2
             == Dom.left triggerRect + Dom.width triggerRect / 2
         | side_left | side_right =>
             b + Dom.height tooltipRect / 2
             == Dom.top triggerRect + Dom.height triggerRect / 2
         end.
Proof.
  intros p s tooltipElement triggerElement win Hpos tooltipRect triggerRect.
  unfold Tooltip.positionEffect. rewrite Hpos. cbn [negb].
  destruct s; cbn [sideName String.eqb Ascii.eqb Bool.eqb];
    eexists; eexists; (split; [reflexivity|]);
    fold tooltipRect triggerRect; split; field.
Qed.

Lemma Tooltip_centred_on_trigger_witness :
  exists a b,
    Tooltip.positionEffect (Tooltip.defaultProps "Help" "?") true
      (Some (Dom.mkElement 2 (Dom.mkRect 0 0 120 40) true true))
      (Some (Dom.mkElement 1 (Dom.mkRect 100 100 50 20) true true))
      viewport800x600
    = Some (Tooltip.mkInsets None None (Some a) (Some b))
    /\ 600 - a == 100 - 8
    /\ b + 120 / 2 == 100 + 50 / 2.
Proof.
  apply (Tooltip_centred_on_trigger (Tooltip.defaultProps "Help" "?") side_top
           (Dom.mkElement 2 (Dom.mkRect 0 0 120 40) true true)
           (Dom.mkElement 1 (Dom.mkRect 100 100 50 20) true true)
           viewport800x600).
  reflexivity.
Defined.

(** ** Modal: keyboard, backdrop, scroll lock *)

Lemma last_In (A : Type) (rest : list A) (first : A) :
  In (last rest first) (first :: rest).
Proof.
  induction rest as [|x rest IH]; [now left|].
  destruct rest as [|y rest']; [right; now left|].
  change (last (x :: y :: rest') first) with (last (y :: rest') first).
  destruct IH as [H|H]; [now left|right; now right].
Qed.

(** X26. The Tab key is trapped inside an open Modal.  With the focusable
    elements [first :: rest]: Tab on the last one moves the focus to the
    first and Shift+Tab on the first moves it to the last, both cancelling
    the browser's own move; anywhere else the handler does nothing; and
    whatever it focuses is one of the Modal's focusable elements.  A Modal
    with nothing focusable, or not yet attached, leaves Tab alone. *)
Theorem Modal_focus_trap :
  forall (p : Modal.ModalProps) (first : Dom.Element) (rest : list Dom.Element)
         (activeElement : option Dom.Element) (shiftKey : bool),
    Modal.isOpen p = true ->
    let lastElement := last rest first in
    let effects := ModalEvents.handleKeyDown p (Some (first :: rest)) activeElement
                     "Tab" shiftKey in
    (forall e, In (ModalEvents.focus e) effects -> In e (first :: rest))
    /\ (shiftKey = false -> ModalEvents.sameElement activeElement lastElement = true ->
        effects = [ModalEvents.focus first; ModalEvents.event_preventDefault])
    /\ (shiftKey = true -> ModalEvents.sameElement activeElement first = true ->
        effects = [ModalEvents.focus lastElement; ModalEvents.event_preventDefault])
    /\ (shiftKey = false ->
        ModalEvents.sameElement activeElement lastElement = false -> effects = [])
    /\ (shiftKey = true ->
        ModalEvents.sameElement activeElement first = false -> effects = [])
    /\ ModalEvents.handleKeyDown p (Some []) activeElement "Tab" shiftKey = []
    /\ ModalEvents.handleKeyDown p None activeElement "Tab" shiftKey = [].
Proof.
  intros p first rest activeElement shiftKey Hopen lastElement effects.
  unfold effects, ModalEvents.handleKeyDown. rewrite Hopen. cbn [negb].
  change ("Tab" =? "Escape")%string with false.
  change ("Tab" =? "Tab")%string with true.
  rewrite andb_false_r. cbn [app].
  unfold ModalEvents.trapFocus. fold lastElement.
  repeat split.
  - intros e.
    destruct (shiftKey && ModalEvents.sameElement activeElement first).
    + intros [H|[H|[]]]; [|discriminate]. injection H as <-. apply last_In.
    + destruct (negb shiftKey && ModalEvents.sameElement activeElement lastElement).
      * intros [H|[H|[]]]; [|discriminate]. injection H as <-. now left.
      * intros [].
  - intros -> ->. reflexivity.
  - intros -> ->. reflexivity.
  - intros -> ->. reflexivity.
  - intros -> ->. reflexivity.
Qed.

Lemma Modal_focus_trap_witness :
  ModalEvents.handleKeyDown
    {| Modal.isOpen := true; Modal.onClose := onClose_cb; Modal.children := "body";
       Modal.title := None; Modal.showCloseButton := true;
       Modal.closeOnBackdropClick := true; Modal.closeOnEsc := true;
       Modal.className := ""; Modal.size := "md"; Modal.centered := true;
       Modal.hasBackdrop := true; Modal.backdropClassName := ""; Modal.id := None |}
    (Some [modalPanel; detachedButton]) (Some detachedButton) "Tab" false
  = [ModalEvents.focus modalPanel; ModalEvents.event_preventDefault].
Proof.
  apply (Modal_focus_trap
           {| Modal.isOpen := true; Modal.onClose := onClose_cb;
              Modal.children := "body"; Modal.title := None;
              Modal.showCloseButton := true; Modal.closeOnBackdropClick := true;
              Modal.closeOnEsc := true; Modal.className := ""; Modal.size := "md";
              Modal.centered := true; Modal.hasBackdrop := true;
              Modal.backdropClassName := ""; Modal.id := None |}
           modalPanel [detachedButton] (Some detachedButton) false);
    reflexivity.
Defined.

(** X27. The keyboard closes a Modal in one way only: [handleKeyDown]
    invokes [onClose] exactly when the Modal is open, [closeOnEsc] is on and
    the key is Escape, whatever has the focus; a closed Modal renders
    nothing, so it has no backdrop to click either.  A click closes it
    exactly when [closeOnBackdropClick] is on and the click is on the
    backdrop container itself. *)
Theorem Modal_dismissal :
  forall (p : Modal.ModalProps) (focusable : option (list Dom.Element))
         (activeElement : option Dom.Element) (key : string)
         (shiftKey onCurrentTarget mounted : bool),
    (In (ModalEvents.call (Modal.onClose p))
        (ModalEvents.handleKeyDown p focusable activeElement key shiftKey)
     <-> Modal.isOpen p = true /\ Modal.closeOnEsc p = true /\ key = "Escape")
    /\ (forall h, In (ModalEvents.call h)
                     (ModalEvents.handleKeyDown p focusable activeElement key shiftKey)
                  -> h = Modal.onClose p)
    /\ ModalEvents.handleBackdropClick p onCurrentTarget
       = (if Modal.closeOnBackdropClick p && onCurrentTarget
          then [ModalEvents.call (Modal.onClose p)] else [])
    /\ (Modal.isOpen p = false -> ModalEvents.renders p mounted = false).
Proof.
  intros p focusable activeElement key shiftKey onCurrentTarget mounted.
  assert (Htrap : forall first rest h,
             ~ In (ModalEvents.call h)
                  (ModalEvents.trapFocus first rest activeElement shiftKey)).
  { intros first rest h. unfold ModalEvents.trapFocus.
    destruct (shiftKey && _); [intros [H|[H|[]]]; discriminate|].
    destruct (negb shiftKey && _); [intros [H|[H|[]]]; discriminate|intros []]. }
  assert (Htab : forall h,
             ~ In (ModalEvents.call h)
                  (if (key =? "Tab")%string
                   then match focusable with
                        | Some (first :: rest) =>
                            ModalEvents.trapFocus first rest activeElement shiftKey
                        | _ => []
                        end
                   else [])).
  { intros h. destruct (key =? "Tab")%string; [|intros []].
    destruct focusable as [[|first rest]|]; try (intros []). apply Htrap. }
  unfold ModalEvents.handleKeyDown, ModalEvents.handleBackdropClick, ModalEvents.renders.
  split; [split|split; [|split]].
  - intros H. destruct (Modal.isOpen p); cbn [negb] in H; [|destruct H].
    apply in_app_or in H. destruct H as [H|H]; [|exfalso; exact (Htab _ H)].
    destruct (Modal.closeOnEsc p); cbn [andb] in H; [|destruct H].
    destruct (key =? "Escape")%string eqn:Ek; [|destruct H].
    apply String.eqb_eq in Ek. auto.
  - intros [Ho [He ->]]. rewrite Ho, He. cbn. now left.
  - intros h H. destruct (Modal.isOpen p); cbn [negb] in H; [|destruct H].
    apply in_app_or in H. destruct H as [H|H]; [|exfalso; exact (Htab _ H)].
    destruct (Modal.closeOnEsc p && (key =? "Escape")%string); [|destruct H].
    destruct H as [H|[]]. now injection H as <-.
  - reflexivity.
  - intros ->. now rewrite orb_true_r.
Qed.

Lemma runs_app (a b : list (bool * Modal.Reads)) :
  forall prev,
    snd (Modal.runs (a ++ b) prev)
    = (snd (Modal.runs a prev) ++ snd (Modal.runs b (fst (Modal.runs a prev))))%list.
Proof.
  induction a as [|[isOpen dom] a IH]; intros prev; [reflexivity|].
  cbn [app Modal.runs].
  destruct (Modal.focusEffect isOpen dom prev) as [prev1 calls1].
  specialize (IH prev1).
  destruct (Modal.runs (a ++ b) prev1) as [p2 c2].
  destruct (Modal.runs a prev1) as [p3 c3]. cbn [fst snd] in *.
  rewrite IH. apply app_assoc.
Qed.

(** One run of the focus effect leaves the class on the body exactly when
    the Modal is open, whatever the class list was. *)
Lemma focusEffect_sets_class (isOpen : bool) (dom : Modal.Reads)
    (prev : option Dom.Element) (classList : list string) :
  bodyHasClass "overflow-hidden" (snd (Modal.focusEffect isOpen dom prev)) classList
  = isOpen.
Proof.
  unfold bodyHasClass, Modal.focusEffect. destruct isOpen; cbn [snd].
  - rewrite fold_left_app.
    assert (E : fold_left ModalEvents.applyToBody
                  match Modal.modalRef dom with
                  | Some m => [Modal.focus m]
                  | None => []
                  end classList = classList)
      by (destruct (Modal.modalRef dom); reflexivity).
    rewrite E. cbn [fold_left ModalEvents.applyToBody].
    destruct (existsb _ classList) eqn:Ex; [exact Ex|].
    rewrite existsb_app. cbn. now rewrite orb_true_r.
  - rewrite fold_left_app.
    assert (E : fold_left ModalEvents.applyToBody
                  match prev with
                  | Some e => if Dom.hasFocus e then [Modal.focus e] else []
                  | None => []
                  end classList = classList)
      by (destruct prev as [e|]; [destruct (Dom.hasFocus e)|]; reflexivity).
    rewrite E. cbn [fold_left ModalEvents.applyToBody].
    destruct (existsb _ _) eqn:Ex; [|reflexivity].
    apply existsb_exists in Ex. destruct Ex as [x [Hin Hx]].
    apply filter_In in Hin. destruct Hin as [_ Hne]. now rewrite Hx in Hne.
Qed.

(** X28. The scroll lock of the page follows the last run of the focus
    effect: after any series of runs, [document.body] carries
    [overflow-hidden] exactly when the last run was for an open Modal,
    whatever classes the body had before.  So a Modal that is mounted
    closed, or closes, takes the class off even if something else had put
    it there. *)
Theorem Modal_scroll_lock_follows_last_run :
  forall (rs : list (bool * Modal.Reads)) (isOpen : bool) (dom : Modal.Reads)
         (prev : option Dom.Element) (classList : list string),
    bodyHasClass "overflow-hidden"
      (snd (Modal.runs (rs ++ [(isOpen, dom)]) prev)) classList
    = isOpen.
Proof.
  intros rs isOpen dom prev classList.
  rewrite runs_app. unfold bodyHasClass. rewrite fold_left_app.
  set (before := fold_left ModalEvents.applyToBody (snd (Modal.runs rs prev)) classList).
  set (prev' := fst (Modal.runs rs prev)).
  pose proof (focusEffect_sets_class isOpen dom prev' before) as H.
  unfold bodyHasClass in H. cbn [Modal.runs].
  destruct (Modal.focusEffect isOpen dom prev') as [p1 c1]. cbn [snd] in *.
  now rewrite app_nil_r.
Qed.

(** ** ClickAwayListener: listeners left behind *)

Lemma addEventListener_fresh (tg : Dom.EventTarget) (ty : string) (cb : Dom.Handler)
    (reg : list Dom.Listener) :
  ~ In (Dom.mkListener tg ty cb) reg ->
  Dom.addEventListener tg ty cb reg = (reg ++ [Dom.mkListener tg ty cb])%list.
Proof.
  intros H. unfold Dom.addEventListener.
  destruct (existsb _ reg) eqn:E; [|reflexivity].
  apply existsb_exists in E. destruct E as [x [Hin Hx]].
  apply Listener_eqb_eq in Hx. subst x. contradiction.
Qed.

(** The loop of the effect on listeners that are all new: as many more
    listeners as there are events. *)
Lemma ClickAwayListener_loop_length (h : Dom.Handler) (evs : list string) :
  NoDup evs ->
  forall reg,
    (forall ev, In ev evs -> ~ In (Dom.mkListener Dom.document ev h) reg) ->
    List.length (fold_left (fun reg eventName =>
                              Dom.addEventListener Dom.document eventName h reg)
                           evs reg)
    = (List.length reg + List.length evs)%nat.
Proof.
  induction 1 as [|ev evs Hnotin Hnodup IH]; intros reg Hfresh.
  - cbn. lia.
  - cbn [fold_left]. rewrite addEventListener_fresh by (apply Hfresh; now left).
    rewrite IH.
    + rewrite length_app. cbn. lia.
    + intros ev' Hin' Hin. apply in_app_or in Hin. destruct Hin as [Hin|[Heq|[]]].
      * apply (Hfresh ev'); [now right|exact Hin].
      * injection Heq as Heq. subst ev'. contradiction.
Qed.

Lemma ClickAwayListener_loop_origin (h : Dom.Handler) (evs : list string) :
  forall reg x,
    In x (fold_left (fun reg eventName =>
                       Dom.addEventListener Dom.document eventName h reg) evs reg) ->
    In x reg \/ Dom.callback x = h.
Proof.
  induction evs as [|ev evs IH]; intros reg x Hx; [now left|].
  cbn [fold_left] in Hx. apply IH in Hx. destruct Hx as [Hx|Hx]; [|now right].
  destruct (addEventListener_appends Dom.document ev h reg) as [ys [Heq Hys]].
  rewrite Heq in Hx. apply in_app_or in Hx. destruct Hx as [Hx|Hx]; [now left|].
  right. rewrite Forall_forall in Hys. now rewrite <- (Hys x Hx).
Qed.

Lemma mountThenCleanup_enabled (render : nat)
    (p : ClickAwayListener.ClickAwayListenerProps) (reg : list Dom.Listener) :
  ClickAwayListener.disabled p = false ->
  ClickAwayListener.mountThenCleanup render p reg
  = fold_left (fun reg eventName =>
                 Dom.addEventListener Dom.document eventName
                   (ClickAwayListener.handleClickAway_fn render) reg)
              (ClickAwayListener.events p) reg.
Proof.
  intros Hdis. unfold ClickAwayListener.mountThenCleanup, ClickAwayListener.effect.
  rewrite Hdis, ClickAwayListener_loop. reflexivity.
Qed.

(** The listeners left after [n] runs are those of renders 1 to [n]. *)
Lemma remounts_renders (p : ClickAwayListener.ClickAwayListenerProps) (n : nat) :
  ClickAwayListener.disabled p = false ->
  forall x, In x (remounts n p []) ->
            (1 <= Dom.closure (Dom.callback x) <= n)%nat.
Proof.
  intros Hdis. induction n as [|n IH]; intros x Hx; [destruct Hx|].
  cbn [remounts] in Hx. rewrite mountThenCleanup_enabled in Hx by assumption.
  apply ClickAwayListener_loop_origin in Hx. destruct Hx as [Hx|Hx].
  - specialize (IH x Hx). lia.
  - rewrite Hx. cbn. lia.
Qed.

(** X29. The listeners a ClickAwayListener leaves behind add up.  Each run
    of its effect adds one document listener per event, and no cleanup ever
    removes one: after [n] runs, each followed by its cleanup, the document
    holds [n] times as many listeners as there are events, those of every
    render from 1 to [n] among them. *)
Theorem ClickAwayListener_listeners_accumulate :
  forall (n : nat) (p : ClickAwayListener.ClickAwayListenerProps),
    ClickAwayListener.disabled p = false ->
    NoDup (ClickAwayListener.events p) ->
    List.length (remounts n p [])
    = (n * List.length (ClickAwayListener.events p))%nat
    /\ (forall render ev,
           (1 <= render <= n)%nat -> In ev (ClickAwayListener.events p) ->
           In (Dom.mkListener Dom.document ev
                 (ClickAwayListener.handleClickAway_fn render))
              (remounts n p [])).
Proof.
  intros n p Hdis Hnodup. induction n as [|n [IHlen IHin]].
  - split; [reflexivity|]. intros render ev Hr. lia.
  - cbn [remounts]. rewrite mountThenCleanup_enabled by assumption. split.
    + rewrite ClickAwayListener_loop_length; [rewrite IHlen; lia|assumption|].
      intros ev _ Hin. apply (remounts_renders p n Hdis) in Hin. cbn in Hin. lia.
    + intros render ev Hr Hev.
      destruct (Nat.eq_dec render (S n)) as [->|Hne].
      * now apply ClickAwayListener_loop_registers.
      * apply ClickAwayListener_loop_keeps. apply IHin; [lia|assumption].
Qed.

Lemma ClickAwayListener_listeners_accumulate_witness :
  List.length (remounts 5 (ClickAwayListener.defaultProps "menu" onClickAway_cb) [])
  = (5 * List.length
           (ClickAwayListener.events
              (ClickAwayListener.defaultProps "menu" onClickAway_cb)))%nat.
Proof.
  assert (Hnodup : NoDup (ClickAwayListener.events
                            (ClickAwayListener.defaultProps "menu" onClickAway_cb))).
  { constructor; [intros [H|[]]; discriminate|].
    constructor; [intros []|constructor]. }
  exact (proj1 (ClickAwayListener_listeners_accumulate 5
                  (ClickAwayListener.defaultProps "menu" onClickAway_cb)
                  eq_refl Hnodup)).
Defined.
